(** * Quran Tracker: the plan generator, the goal validator and the streak engine

    A shallow embedding of
      - [src/lib/goalCalculator.ts]   (generatePlan, validateGoal and helpers),
      - [src/services/quranData.ts]   (the wrappers around the quran-meta package),
      - [src/store/useGoalStore.ts]   (isSameDay, calculateStreaks, the store actions),
    followed by the properties proved about them.

    Conventions of the embedding.
      - JavaScript numbers that the code uses as integers are [Z]; the one
        division of the code ([totalUnits / unitsPerDay]) keeps its special
        values (NaN and the two infinities) in the type [xnum].
      - A JavaScript [Date] is its time value in milliseconds, read in a
        time zone with a fixed offset, or the Invalid Date.
      - Strings are [string]; a value that is a string on one path and a
        number on another is a [jsval].
      - The quran-meta package is not part of the repository: it is the
        record [QuranMeta], a variable of the sections below.
      - A loop that the code does not bound by itself takes an iteration
        budget ([gas]); running out of it is the result [OutOfGas]. *)

From Stdlib Require Import ZArith List Bool Lia String Ascii.
From Stdlib Require Import DecimalString DecimalPos Sorted Permutation.
Import ListNotations.

#[local] Open Scope string_scope.
#[local] Open Scope list_scope.
#[local] Open Scope Z_scope.

(* ------------------------------------------------------------------ *)
(** ** Numbers: the value of [Math.ceil (a / b)] *)

Module JsNum.

(** The result of a floating-point division of two integers, as far as the
    code looks at it. *)
Inductive xnum : Type :=
| XNaN
| XNegInf
| XFin (z : Z)
| XPosInf.

(** [Math.ceil (a / b)] for integers [a], [b]. *)
Definition ceil_div (a b : Z) : xnum :=
  if b =? 0 then
    if 0 <? a then XPosInf else if a <? 0 then XNegInf else XNaN
  else XFin (- ((- a) / b)).

(** [x * k] for an integer [k > 0]. *)
Definition mul_pos (x : xnum) (k : Z) : xnum :=
  match x with
  | XFin z => XFin (z * k)
  | other => other
  end.

(** [n < x] for an integer [n]. *)
Definition lt_fin (n : Z) (x : xnum) : bool :=
  match x with
  | XNaN => false
  | XNegInf => false
  | XFin z => n <? z
  | XPosInf => true
  end.

End JsNum.
Export JsNum.

(* ------------------------------------------------------------------ *)
(** ** Dates *)

Module JsDate.

(** Milliseconds in a day: [1000 * 60 * 60 * 24]. *)
Definition msPerDay : Z := 1000 * 60 * 60 * 24.

(** A [Date] object: its time value, or the Invalid Date. *)
Inductive Date : Type :=
| InvalidDate
| At (t : Z).

(** [isNaN (d.getTime ())] *)
Definition isInvalid (d : Date) : bool :=
  match d with InvalidDate => true | At _ => false end.

(** The local day number of an instant and the instant within its day. *)
Definition dayNumber (t : Z) : Z := t / msPerDay.
Definition startOfDay (t : Z) : Z := t - t mod msPerDay.
Definition endOfDay (t : Z) : Z := startOfDay t + (msPerDay - 1).

(** [d.setHours (0, 0, 0, 0)] *)
Definition setHours_0 (d : Date) : Date :=
  match d with InvalidDate => InvalidDate | At t => At (startOfDay t) end.

(** [d.setHours (23, 59, 59, 999)] *)
Definition setHours_end (d : Date) : Date :=
  match d with InvalidDate => InvalidDate | At t => At (endOfDay t) end.

(** [d.setDate (d.getDate () + 1)] *)
Definition nextDay (d : Date) : Date :=
  match d with InvalidDate => InvalidDate | At t => At (t + msPerDay) end.

(** [d.getDay ()]: 0 is Sunday; day number 0 (1 January 1970) is a
    Thursday. [None] is NaN. *)
Definition weekday (t : Z) : Z := (dayNumber t + 4) mod 7.
Definition getDay (d : Date) : option Z :=
  match d with InvalidDate => None | At t => Some (weekday t) end.

(** [a > b] and [a < b] on dates: false as soon as one of them is invalid. *)
Definition date_gt (a b : Date) : bool :=
  match a, b with
  | At x, At y => y <? x
  | _, _ => false
  end.
Definition date_lt (a b : Date) : bool := date_gt b a.

(** The calendar fields of a day number (proleptic Gregorian calendar):
    [(getFullYear, getMonth, getDate)], the month counted from 0. *)
Definition civil (dn : Z) : Z * Z * Z :=
  let z := dn + 719468 in
  let era := z / 146097 in
  let doe := z - era * 146097 in
  let yoe := (doe - doe / 1460 + doe / 36524 - doe / 146096) / 365 in
  let doy := doe - (365 * yoe + yoe / 4 - yoe / 100) in
  let mp := (5 * doy + 2) / 153 in
  let d := doy - (153 * mp + 2) / 5 + 1 in
  let m := if mp <? 10 then mp + 3 else mp - 9 in
  let y := yoe + era * 400 + (if m <=? 2 then 1 else 0) in
  (y, m - 1, d).

Definition getFullYear (t : Z) : Z := fst (fst (civil (dayNumber t))).
Definition getMonth (t : Z) : Z := snd (fst (civil (dayNumber t))).
Definition getDate (t : Z) : Z := snd (civil (dayNumber t)).

(** The instant of local midnight of a calendar day, given as a day
    number: a way to write dates down. *)
Definition midnight (dn : Z) : Z := dn * msPerDay.

End JsDate.
Export JsDate.

(* ------------------------------------------------------------------ *)
(** ** Strings: [split], [parseInt], number to string *)

Module JsString.

(** [s.split (":")]: the fields between the separators, at least one. *)
Fixpoint split_on (sep : ascii) (s : string) : list string :=
  match s with
  | EmptyString => [EmptyString]
  | String c rest =>
      if Ascii.eqb c sep then EmptyString :: split_on sep rest
      else
        match split_on sep rest with
        | [] => [String c EmptyString]
        | field :: fields => String c field :: fields
        end
  end.

(** White space that [parseInt] skips (the part of it that is ASCII). *)
Definition is_space (c : ascii) : bool :=
  let n := nat_of_ascii c in
  ((9 <=? n) && (n <=? 13))%nat || (n =? 32)%nat.

Definition digit_of (c : ascii) : option Z :=
  let n := Z.of_nat (nat_of_ascii c) in
  if (48 <=? n) && (n <=? 57) then Some (n - 48) else None.

Fixpoint skip_spaces (s : string) : string :=
  match s with
  | String c rest => if is_space c then skip_spaces rest else s
  | EmptyString => s
  end.

(** The longest prefix of decimal digits, read from the left with the
    value so far; [None] when there is no digit at all. *)
Fixpoint read_digits (acc : option Z) (s : string) : option Z :=
  match s with
  | EmptyString => acc
  | String c rest =>
      match digit_of c with
      | Some d =>
          read_digits (Some (match acc with Some a => 10 * a + d | None => d end)) rest
      | None => acc
      end
  end.

(** [parseInt (s, 10)]: leading white space, an optional sign, then the
    longest run of digits; what follows the digits is ignored. [None] is
    NaN. *)
Definition parseInt (s : string) : option Z :=
  match skip_spaces s with
  | String "-" rest => option_map Z.opp (read_digits None rest)
  | String "+" rest => read_digits None rest
  | body => read_digits None body
  end.

(** An integer in a template literal: [`${n}`]. *)
Definition string_of_Z (n : Z) : string := NilZero.string_of_int (Z.to_int n).

End JsString.
Export JsString.

(* ------------------------------------------------------------------ *)
(** ** quranData.ts: [parseAyahReference] *)

Record AyahRef : Type := mkAyahRef { surahId : Z; ayahNumber : Z }.

(** [`${surahId}:${ayahNumber}`] *)
Definition ayahKey (s a : Z) : string :=
  (string_of_Z s ++ ":" ++ string_of_Z a)%string.

Definition parseAyahReference (ayahRef : string) : option AyahRef :=
  match split_on ":" ayahRef with
  | [p0; p1] =>
      match parseInt p0, parseInt p1 with
      | Some s, Some a => Some (mkAyahRef s a)
      | _, _ => None
      end
  | _ => None
  end.

(* ------------------------------------------------------------------ *)
(** ** types/index.ts *)

Inductive Target : Type :=
| whole_quran
| specific_juz
| specific_surah
| other_target.   (* any other string: the [default] branches *)

Inductive ReadingUnit : Type := u_pages | u_juz | u_surah | u_ayahs.

Record UserGoal : Type := mkGoal {
  goal_id : string;
  target : Target;
  targetValue : option Z;
  unit : ReadingUnit;
  dailyAmount : Z;
  deadline : option Date;
  startDate : Date;
  daysOfWeek : list Z
}.

(** The generator only ever stores valid dates in an assignment, so [date]
    is a time value. *)
Record DailyAssignment : Type := mkAssignment {
  date : Z;
  fromAyah : string;
  toAyah : string;
  fromPage : Z;
  toPage : Z;
  completed : bool;
  isCatchUpDay : bool
}.

(** [goal.targetValue] where the code tests it with [!goal.targetValue]:
    absent and 0 are both falsy. *)
Definition targetValue_truthy (g : UserGoal) : option Z :=
  match targetValue g with
  | Some v => if v =? 0 then None else Some v
  | None => None
  end.

(** [goal.daysOfWeek.includes (dayOfWeek)] *)
Definition includes (l : list Z) (x : Z) : bool := existsb (Z.eqb x) l.

(** [n || 1] on a number. *)
Definition or_1 (n : Z) : Z := if n =? 0 then 1 else n.

(* ------------------------------------------------------------------ *)
(** ** The quran-meta package, as the code uses it *)

Record SurahMeta : Type := mkSurahMeta {
  sm_firstAyahId : Z;
  sm_lastAyahId : Z;
  sm_ayahCount : Z
}.

Record RangeMeta : Type := mkRangeMeta { firstAyahId : Z; lastAyahId : Z }.

(** The calls the repository makes. [None] is a missing entry for the three
    [get...Meta] lookups and a raised exception for [findAyahIdBySurah]
    (its only call sits in a [try]); [ayahPage id] is
    [quran.getAyahMeta (id).page]. *)
Record QuranMeta : Type := mkQuranMeta {
  getSurahMeta : Z -> option SurahMeta;
  getJuzMeta : Z -> option RangeMeta;
  getPageMeta : Z -> option RangeMeta;
  ayahPage : Z -> Z;
  findSurahAyahByAyahId : Z -> Z * Z;
  findAyahIdBySurah : Z -> Z -> option Z
}.

(* ------------------------------------------------------------------ *)
(** ** services/quranData.ts *)

Record Surah : Type := mkSurah {
  su_id : Z;
  su_ayahCount : Z;
  su_startPage : Z;
  su_endPage : Z
}.

(** What [juz ()] really returns: [startAyah] and [endAyah] are the verse
    numbers inside [startSurah] and [endSurah], not strings. *)
Record Juz : Type := mkJuz {
  jz_id : Z;
  jz_startSurah : Z;
  jz_startAyah : Z;
  jz_endSurah : Z;
  jz_endAyah : Z;
  jz_startPage : Z;
  jz_endPage : Z
}.

Record PageInfo : Type := mkPageInfo {
  pg_startSurah : Z;
  pg_startAyah : Z;
  pg_endSurah : Z;
  pg_endAyah : Z
}.

Section QuranData.

Variable qm : QuranMeta.

Definition surah (surahId : Z) : option Surah :=
  if (surahId <? 1) || (114 <? surahId) then None
  else
    match getSurahMeta qm surahId with
    | None => None
    | Some surahMeta =>
        Some {| su_id := surahId;
                su_ayahCount := sm_ayahCount surahMeta;
                su_startPage := ayahPage qm (sm_firstAyahId surahMeta);
                su_endPage := ayahPage qm (sm_lastAyahId surahMeta) |}
    end.

Definition juz (juzNumber : Z) : option Juz :=
  if (juzNumber <? 1) || (30 <? juzNumber) then None
  else
    match getJuzMeta qm juzNumber with
    | None => None
    | Some juzMeta =>
        let startSurahAyah := findSurahAyahByAyahId qm (firstAyahId juzMeta) in
        let endSurahAyah := findSurahAyahByAyahId qm (lastAyahId juzMeta) in
        Some {| jz_id := juzNumber;
                jz_startSurah := fst startSurahAyah;
                jz_startAyah := snd startSurahAyah;
                jz_endSurah := fst endSurahAyah;
                jz_endAyah := snd endSurahAyah;
                jz_startPage := ayahPage qm (firstAyahId juzMeta);
                jz_endPage := ayahPage qm (lastAyahId juzMeta) |}
    end.

Definition getPageCount : Z := 604.

Definition page (pageNumber : Z) : option PageInfo :=
  if (pageNumber <? 1) || (604 <? pageNumber) then None
  else
    match getPageMeta qm pageNumber with
    | None => None
    | Some pageMeta =>
        let startSurahAyah := findSurahAyahByAyahId qm (firstAyahId pageMeta) in
        let endSurahAyah := findSurahAyahByAyahId qm (lastAyahId pageMeta) in
        Some {| pg_startSurah := fst startSurahAyah;
                pg_startAyah := snd startSurahAyah;
                pg_endSurah := fst endSurahAyah;
                pg_endAyah := snd endSurahAyah |}
    end.

Definition getJuzById (juzId : Z) : option Juz := juz juzId.

Definition getSurahById (surahId : Z) : option Surah := surah surahId.

(** [{ start, end }] *)
Definition getAyahRangeForPage (pageNum : Z) : option (string * string) :=
  match page pageNum with
  | None => None
  | Some pageInfo =>
      Some (ayahKey (pg_startSurah pageInfo) (pg_startAyah pageInfo),
            ayahKey (pg_endSurah pageInfo) (pg_endAyah pageInfo))
  end.

Definition getPageForAyah (surahId ayahNumber : Z) : option Z :=
  match findAyahIdBySurah qm surahId ayahNumber with
  | Some ayahId => Some (ayahPage qm ayahId)
  | None => None
  end.

End QuranData.

(* ------------------------------------------------------------------ *)
(** ** lib/goalCalculator.ts *)

(** A value that may be a string or a number at run time: the starting and
    ending verse of a goal ([juz.startAyah] is a number). *)
Inductive jsval : Type :=
| JStr (s : string)
| JNum (n : Z).

(** How a call ends: it returns, it raises (the only exception the modelled
    code can raise is the TypeError of [ayahRef.split] on a number), or the
    iteration budget given to the model is used up. *)
Inductive outcome (A : Type) : Type :=
| Returns (a : A)
| Throws
| OutOfGas.
Arguments Returns {A} a.
Arguments Throws {A}.
Arguments OutOfGas {A}.

(** The state of the [while] loop of [generateReadingDates]. *)
Record DatesState : Type := mkDatesState {
  currentDate : Date;
  dates : list Z;
  daysAdded : Z;
  iterations : Z
}.

Section GoalCalculator.

Variable qm : QuranMeta.

Definition calculateTotalUnits (goal : UserGoal) : Z :=
  match target goal with
  | whole_quran =>
      match unit goal with u_pages => 604 | u_juz => 30 | _ => 114 end
  | specific_juz =>
      match targetValue_truthy goal with
      | None => 0
      | Some tv =>
          match getJuzById qm tv with
          | None => 0
          | Some juz =>
              match unit goal with
              | u_pages => jz_endPage juz - jz_startPage juz + 1
              | _ => 1
              end
          end
      end
  | specific_surah =>
      match targetValue_truthy goal with
      | None => 0
      | Some tv =>
          match getSurahById qm tv with
          | None => 0
          | Some surah =>
              match unit goal with
              | u_pages => su_endPage surah - su_startPage surah + 1
              | u_ayahs => su_ayahCount surah
              | _ => 1
              end
          end
      end
  | other_target => 0
  end.

Definition getStartingPage (goal : UserGoal) : Z :=
  match target goal with
  | whole_quran => 1
  | specific_juz =>
      match targetValue_truthy goal with
      | None => 1
      | Some tv =>
          match getJuzById qm tv with
          | Some juz => or_1 (jz_startPage juz)
          | None => 1
          end
      end
  | specific_surah =>
      match targetValue_truthy goal with
      | None => 1
      | Some tv =>
          match getSurahById qm tv with
          | Some surah => or_1 (su_startPage surah)
          | None => 1
          end
      end
  | other_target => 1
  end.

Definition getEndingPage (goal : UserGoal) : Z :=
  match target goal with
  | whole_quran => 604
  | specific_juz =>
      match targetValue_truthy goal with
      | None => 1
      | Some tv =>
          match getJuzById qm tv with
          | Some juz => or_1 (jz_endPage juz)
          | None => 1
          end
      end
  | specific_surah =>
      match targetValue_truthy goal with
      | None => 1
      | Some tv =>
          match getSurahById qm tv with
          | Some surah => or_1 (su_endPage surah)
          | None => 1
          end
      end
  | other_target => 1
  end.

(** [juz?.startAyah || '1:1']: the number when it is not 0. *)
Definition num_or_1_1 (n : Z) : jsval := if n =? 0 then JStr "1:1" else JNum n.

Definition getStartingAyah (goal : UserGoal) : jsval :=
  match target goal with
  | whole_quran => JStr "1:1"
  | specific_juz =>
      match targetValue_truthy goal with
      | None => JStr "1:1"
      | Some tv =>
          match getJuzById qm tv with
          | Some juz => num_or_1_1 (jz_startAyah juz)
          | None => JStr "1:1"
          end
      end
  | specific_surah =>
      match targetValue_truthy goal with
      | None => JStr "1:1"
      | Some tv => JStr (ayahKey tv 1)
      end
  | other_target => JStr "1:1"
  end.

Definition getEndingAyah (goal : UserGoal) : jsval :=
  match target goal with
  | whole_quran => JStr "114:6"
  | specific_juz =>
      match targetValue_truthy goal with
      | None => JStr "1:1"
      | Some tv =>
          match getJuzById qm tv with
          | Some juz => num_or_1_1 (jz_endAyah juz)
          | None => JStr "1:1"
          end
      end
  | specific_surah =>
      match targetValue_truthy goal with
      | None => JStr "1:1"
      | Some tv =>
          match getSurahById qm tv with
          | None => JStr "1:1"
          | Some surah => JStr (ayahKey tv (su_ayahCount surah))
          end
      end
  | other_target => JStr "1:1"
  end.

(** *** generateReadingDates *)

(** Is the deadline passed at [cur]? [goal.deadline] is truthy as soon as it
    is present, even when it is the Invalid Date. *)
Definition pastDeadline (goal : UserGoal) (cur : Date) : bool :=
  match deadline goal with
  | Some dl => date_gt cur (setHours_end dl)
  | None => false
  end.

(** The loop condition. *)
Definition datesCond (totalDaysNeeded maxIterations : xnum) (st : DatesState) : bool :=
  lt_fin (daysAdded st) totalDaysNeeded && lt_fin (iterations st) maxIterations.

(** One run of the loop body: the state after it, and whether it left the
    loop by [break]. *)
Definition datesBody (goal : UserGoal) (st : DatesState) : bool * DatesState :=
  let iterations' := iterations st + 1 in
  match currentDate st with
  | At t =>
      if includes (daysOfWeek goal) (weekday t) then
        if pastDeadline goal (currentDate st) then
          (true, mkDatesState (currentDate st) (dates st) (daysAdded st) iterations')
        else
          (false, mkDatesState (nextDay (currentDate st)) (dates st ++ [t])
                               (daysAdded st + 1) iterations')
      else
        (false, mkDatesState (nextDay (currentDate st)) (dates st) (daysAdded st) iterations')
  | InvalidDate =>
      (* getDay () is NaN, which no list of integers includes *)
      (false, mkDatesState (nextDay (currentDate st)) (dates st) (daysAdded st) iterations')
  end.

Fixpoint datesLoop (gas : nat) (goal : UserGoal) (totalDaysNeeded maxIterations : xnum)
  (st : DatesState) : option DatesState :=
  if datesCond totalDaysNeeded maxIterations st then
    match gas with
    | O => None
    | S gas' =>
        let (brk, st') := datesBody goal st in
        if brk then Some st'
        else datesLoop gas' goal totalDaysNeeded maxIterations st'
    end
  else Some st.

Definition totalDaysNeeded_of (goal : UserGoal) (totalUnits : Z) : xnum :=
  ceil_div totalUnits (dailyAmount goal).

Definition datesInit (goal : UserGoal) : DatesState :=
  mkDatesState (setHours_0 (startDate goal)) [] 0 0.

(** The final state of the loop: the dates and the number of iterations. *)
Definition generateReadingDates_run (gas : nat) (goal : UserGoal) (totalUnits : Z)
  : option DatesState :=
  let totalDaysNeeded := totalDaysNeeded_of goal totalUnits in
  let maxIterations := mul_pos totalDaysNeeded 10 in
  datesLoop gas goal totalDaysNeeded maxIterations (datesInit goal).

Definition generateReadingDates (gas : nat) (goal : UserGoal) (totalUnits : Z)
  : option (list Z) :=
  option_map dates (generateReadingDates_run gas goal totalUnits).

(** *** getAyahsForPageRange, incrementAyah *)

(** [{ fromAyah, toAyah }] *)
Definition getAyahsForPageRange (startPage endPage : Z) : string * string :=
  (match getAyahRangeForPage qm startPage with
   | Some range => if String.eqb (fst range) "" then "1:1" else fst range
   | None => "1:1"
   end,
   match getAyahRangeForPage qm endPage with
   | Some range => if String.eqb (snd range) "" then "1:1" else snd range
   | None => "1:1"
   end).

(** The [while] loop of [incrementAyah]; every run of its body either ends
    it or moves to the next chapter, and no chapter exists past 114, so a
    budget of 116 runs is never used up ([incrementAyahLoop_budget]). *)
Fixpoint incrementAyahLoop (fuel : nat) (surahId ayahNumber remaining : Z) : Z * Z :=
  match fuel with
  | O => (surahId, ayahNumber)
  | S fuel' =>
      if (0 <? remaining) && (surahId <=? 114) then
        match getSurahById qm surahId with
        | None => (surahId, ayahNumber)
        | Some surah =>
            let ayahsLeftInSurah := su_ayahCount surah - ayahNumber in
            if remaining <=? ayahsLeftInSurah then
              incrementAyahLoop fuel' surahId (ayahNumber + remaining) 0
            else
              incrementAyahLoop fuel' (surahId + 1) 1 (remaining - (ayahsLeftInSurah + 1))
        end
      else (surahId, ayahNumber)
  end.

Definition incrementAyah (currentAyah : string) (count : Z) : string :=
  match parseAyahReference currentAyah with
  | None => currentAyah
  | Some parsed =>
      let (s, a) := incrementAyahLoop 116 (surahId parsed) (ayahNumber parsed) count in
      ayahKey s a
  end.

(** [getPageForAyah (...) || 1], 1 also when the reference does not parse. *)
Definition pageOfRef (ref : string) : Z :=
  match parseAyahReference ref with
  | Some parsed =>
      match getPageForAyah qm (surahId parsed) (ayahNumber parsed) with
      | Some p => or_1 p
      | None => 1
      end
  | None => 1
  end.

(** *** generatePlan *)

Definition newAssignment (date : Z) (fromAyah toAyah : string) (fromPage toPage : Z)
  : DailyAssignment :=
  mkAssignment date fromAyah toAyah fromPage toPage false false.

(** [assignments.push (a)] followed by the rest of the loop. *)
Definition push_then (a : DailyAssignment) (rest : outcome (list DailyAssignment))
  : outcome (list DailyAssignment) :=
  match rest with
  | Returns l => Returns (a :: l)
  | Throws => Throws
  | OutOfGas => OutOfGas
  end.

(** The test that ends the verse branch: the cursor is past the end. *)
Definition pastEndingAyah (endingAyah currentAyah : string) : bool :=
  match parseAyahReference endingAyah, parseAyahReference currentAyah with
  | Some endParsed, Some currentParsed =>
      (surahId endParsed <? surahId currentParsed)
      || ((surahId currentParsed =? surahId endParsed)
          && (ayahNumber endParsed <? ayahNumber currentParsed))
  | _, _ => false
  end.

(** The [for] loop over the reading dates. The list it returns is
    [assignments] in the order of the [push]es. *)
Fixpoint planLoop (goal : UserGoal) (endingPage : Z) (endingAyah : jsval)
  (currentPage : Z) (currentAyah : jsval) (readingDates : list Z)
  : outcome (list DailyAssignment) :=
  match readingDates with
  | [] => Returns []
  | date :: rest =>
      let unitsPerDay := dailyAmount goal in
      match unit goal with
      | u_ayahs =>
          match currentAyah with
          | JNum _ => Throws   (* incrementAyah: ayahRef.split is not a function *)
          | JStr fromAyah =>
              let toAyah := incrementAyah fromAyah (unitsPerDay - 1) in
              let a := newAssignment date fromAyah toAyah
                         (pageOfRef fromAyah) (pageOfRef toAyah) in
              let currentAyah' := incrementAyah toAyah 1 in
              match endingAyah with
              | JNum _ => Throws   (* parseAyahReference (endingAyah) *)
              | JStr ending =>
                  if pastEndingAyah ending currentAyah' then Returns [a]
                  else push_then a
                         (planLoop goal endingPage endingAyah currentPage
                            (JStr currentAyah') rest)
              end
          end
      | _ =>
          (* the [pages] branch and the branch of the other units are the
             same code *)
          let fromPage := currentPage in
          let toPage := Z.min (currentPage + unitsPerDay - 1) endingPage in
          let ayahRange := getAyahsForPageRange fromPage toPage in
          let a := newAssignment date (fst ayahRange) (snd ayahRange) fromPage toPage in
          let currentPage' := toPage + 1 in
          if endingPage <? currentPage' then Returns [a]
          else push_then a
                 (planLoop goal endingPage endingAyah currentPage' currentAyah rest)
      end
  end.

Definition generatePlan (gas : nat) (goal : UserGoal) : outcome (list DailyAssignment) :=
  let totalUnits := calculateTotalUnits goal in
  if totalUnits =? 0 then Returns []
  else
    match generateReadingDates gas goal totalUnits with
    | None => OutOfGas
    | Some readingDates =>
        match readingDates with
        | [] => Returns []
        | _ =>
            planLoop goal (getEndingPage goal) (getEndingAyah goal)
              (getStartingPage goal) (getStartingAyah goal) readingDates
        end
    end.

(** *** validateGoal *)

Definition err_days : string := "At least one day of the week must be selected".
Definition err_start : string := "Invalid start date".
Definition err_deadline : string := "Invalid deadline".
Definition err_order : string := "Deadline must be after start date".
Definition err_amount : string := "Daily amount must be greater than 0".
Definition err_required : string :=
  "Target value is required for specific juz or surah goals".
Definition err_juz : string := "Juz number must be between 1 and 30".
Definition err_surah : string := "Surah number must be between 1 and 114".

(** [errors.push (msg)] under a condition. *)
Definition push_if (c : bool) (msg : string) (errors : list string) : list string :=
  if c then errors ++ [msg] else errors.

Definition isSpecific (t : Target) : bool :=
  match t with specific_juz | specific_surah => true | _ => false end.
Definition isJuzTarget (t : Target) : bool :=
  match t with specific_juz => true | _ => false end.
Definition isSurahTarget (t : Target) : bool :=
  match t with specific_surah => true | _ => false end.

Definition validateGoal (goal : UserGoal) : bool * list string :=
  let errors := [] in
  let errors := push_if (List.length (daysOfWeek goal) =? 0)%nat err_days errors in
  let startDate := startDate goal in
  let errors := push_if (isInvalid startDate) err_start errors in
  let errors :=
    match deadline goal with
    | Some deadline =>
        if isInvalid deadline then errors ++ [err_deadline]
        else if date_lt deadline startDate then errors ++ [err_order]
        else errors
    | None => errors
    end in
  let errors := push_if (dailyAmount goal <=? 0) err_amount errors in
  let errors :=
    if isSpecific (target goal) then
      match targetValue_truthy goal with
      | None => errors ++ [err_required]
      | Some tv =>
          let errors :=
            push_if (isJuzTarget (target goal) && ((tv <? 1) || (30 <? tv))) err_juz errors in
          push_if (isSurahTarget (target goal) && ((tv <? 1) || (114 <? tv))) err_surah errors
      end
    else errors in
  ((List.length errors =? 0)%nat, errors).

End GoalCalculator.

(* ------------------------------------------------------------------ *)
(** ** store/useGoalStore.ts *)

Record GoalState : Type := mkGoalState {
  currentGoal : option UserGoal;
  plan : list DailyAssignment;
  lastUpdated : option Z;
  currentStreak : Z;
  bestStreak : Z;
  totalDaysCompleted : Z
}.

Definition isSameDay (date1 date2 : Z) : bool :=
  (getFullYear date1 =? getFullYear date2)
  && (getMonth date1 =? getMonth date2)
  && (getDate date1 =? getDate date2).

(** [[...plan].sort ((a, b) => a.date.getTime () - b.date.getTime ())]:
    the sort of an array is stable, so the result is the one of an insertion
    that keeps assignments of equal date in their order. *)
Fixpoint insertByDate (a : DailyAssignment) (sorted : list DailyAssignment)
  : list DailyAssignment :=
  match sorted with
  | [] => [a]
  | b :: rest => if date a <=? date b then a :: sorted else b :: insertByDate a rest
  end.

Fixpoint sortByDate (l : list DailyAssignment) : list DailyAssignment :=
  match l with
  | [] => []
  | a :: rest => insertByDate a (sortByDate rest)
  end.

(** The three counters of [calculateStreaks]. *)
Record Streaks : Type := mkStreaks {
  st_current : Z;
  st_best : Z;
  st_temp : Z
}.

(** [Math.floor ((today.getTime () - assignment.date.getTime ()) / msPerDay)] *)
Definition daysDiff (today assignmentDate : Z) : Z := (today - assignmentDate) / msPerDay.

(** One run of the body of the [for] loop. *)
Definition streakStep (today : Z) (s : Streaks) (assignment : DailyAssignment) : Streaks :=
  if completed assignment then
    let tempStreak := st_temp s + 1 in
    let bestStreak := Z.max (st_best s) tempStreak in
    if daysDiff today (date assignment) <=? 1
    then mkStreaks tempStreak bestStreak tempStreak
    else mkStreaks (st_current s) bestStreak tempStreak
  else mkStreaks (st_current s) (st_best s) 0.

(** [calculateStreaks (plan)], evaluated when [new Date ()] is [today]:
    [(current, best)]. *)
Definition calculateStreaks (today : Z) (plan : list DailyAssignment) : Z * Z :=
  let s := fold_left (streakStep today) (sortByDate plan) (mkStreaks 0 0 0) in
  (st_current s, st_best s).

(** [plan.filter (a => a.completed).length] *)
Definition completedCount (plan : list DailyAssignment) : Z :=
  Z.of_nat (List.length (filter completed plan)).

(** [{ ...assignment, completed: c }] *)
Definition withCompleted (c : bool) (a : DailyAssignment) : DailyAssignment :=
  mkAssignment (date a) (fromAyah a) (toAyah a) (fromPage a) (toPage a) c (isCatchUpDay a).

(** [now] is the value of the [new Date ()] of the action and of the
    [calculateStreaks] it calls. *)
Definition markDayAsComplete (now : Z) (d : Z) (s : GoalState) : GoalState :=
  let updatedPlan :=
    map (fun assignment =>
           if isSameDay (date assignment) d then withCompleted true assignment
           else assignment) (plan s) in
  let streaks := calculateStreaks now updatedPlan in
  let completed := completedCount updatedPlan in
  mkGoalState (currentGoal s) updatedPlan (Some now) (fst streaks) (snd streaks) completed.

Definition markDayAsIncomplete (now : Z) (d : Z) (s : GoalState) : GoalState :=
  let updatedPlan :=
    map (fun assignment =>
           if isSameDay (date assignment) d then withCompleted false assignment
           else assignment) (plan s) in
  let streaks := calculateStreaks now updatedPlan in
  let completed := completedCount updatedPlan in
  mkGoalState (currentGoal s) updatedPlan (Some now) (fst streaks) (snd streaks) completed.

(* ------------------------------------------------------------------ *)
(** ** A sample index and sample goals

    The theorems below hold for every index. To evaluate the definitions an
    index is needed: this one has the verse counts of the 114 chapters of the
    reference text and the usual first verses of its 30 parts. Of the page
    layout it has the first page (the opening chapter) and the last one
    (chapters 112 to 114) as printed; the verses in between are spread evenly
    over pages 2 to 603. *)

Module Sample.

Definition ayahCounts : list Z :=
  [7; 286; 200; 176; 120; 165; 206; 75; 129; 109;
   123; 111; 43; 52; 99; 128; 111; 110; 98; 135;
   112; 78; 118; 64; 77; 227; 93; 88; 69; 60;
   34; 30; 73; 54; 45; 83; 182; 88; 75; 85;
   54; 53; 89; 59; 37; 35; 38; 29; 18; 45;
   60; 49; 62; 55; 78; 96; 29; 22; 24; 13;
   14; 11; 11; 18; 12; 12; 30; 52; 52; 44;
   28; 28; 20; 56; 40; 31; 50; 40; 46; 42;
   29; 19; 36; 25; 22; 17; 19; 26; 30; 20;
   15; 21; 11; 8; 8; 19; 5; 8; 8; 11;
   11; 8; 3; 9; 5; 4; 7; 3; 6; 3;
   5; 4; 5; 6].

Definition juzStarts : list (Z * Z) :=
  [(1, 1); (2, 142); (2, 253); (3, 93); (4, 24); (4, 148); (5, 82); (6, 111);
   (7, 88); (8, 41); (9, 93); (11, 6); (12, 53); (15, 1); (17, 1); (18, 75);
   (21, 1); (23, 1); (25, 21); (27, 56); (29, 46); (33, 31); (36, 28); (39, 32);
   (41, 47); (46, 1); (51, 31); (58, 1); (67, 1); (78, 1)].

Definition totalAyahs : Z := fold_right Z.add 0 ayahCounts.

Definition countOf (s : Z) : Z := nth (Z.to_nat (s - 1)) ayahCounts 0.

(** The number of verses before chapter [s]. *)
Definition before (s : Z) : Z := fold_right Z.add 0 (firstn (Z.to_nat (s - 1)) ayahCounts).

Definition inChapters (s : Z) : bool := (1 <=? s) && (s <=? 114).

Definition surahMeta (s : Z) : option SurahMeta :=
  if inChapters s
  then Some (mkSurahMeta (before s + 1) (before s + countOf s) (countOf s))
  else None.

Fixpoint locate (counts : list Z) (s id : Z) : Z * Z :=
  match counts with
  | [] => (s, id)
  | c :: rest => if id <=? c then (s, id) else locate rest (s + 1) (id - c)
  end.

Definition surahAyahOfId (id : Z) : Z * Z := locate ayahCounts 1 id.

Definition idOfSurahAyah (s a : Z) : option Z :=
  if inChapters s && (1 <=? a) && (a <=? countOf s) then Some (before s + a) else None.

Definition pageOfId (id : Z) : Z :=
  if id <=? 7 then 1
  else if 6222 <=? id then 604
  else 2 + ((id - 8) * 602) / 6214.

(** The first verse of page [p], for [2 <= p <= 604]. *)
Definition firstIdOfPage (p : Z) : Z := 8 - ((- ((p - 2) * 6214)) / 602).

Definition pageMeta (p : Z) : option RangeMeta :=
  if (p <? 1) || (604 <? p) then None
  else if p =? 1 then Some (mkRangeMeta 1 7)
  else if p =? 604 then Some (mkRangeMeta 6222 totalAyahs)
  else Some (mkRangeMeta (firstIdOfPage p) (firstIdOfPage (p + 1) - 1)).

Definition juzFirstId (j : Z) : Z :=
  let ref := nth (Z.to_nat (j - 1)) juzStarts (115, 1) in
  before (fst ref) + snd ref.

Definition juzMeta (j : Z) : option RangeMeta :=
  if (1 <=? j) && (j <=? 30)
  then Some (mkRangeMeta (juzFirstId j)
                         (if j =? 30 then totalAyahs else juzFirstId (j + 1) - 1))
  else None.

Definition meta : QuranMeta :=
  mkQuranMeta surahMeta juzMeta pageMeta pageOfId surahAyahOfId idOfSurahAyah.

(** 1 January 2025, a Wednesday, at local midnight. *)
Definition jan1 : Z := midnight 20089.

Definition everyDay : list Z := [0; 1; 2; 3; 4; 5; 6].

(** The whole text, five pages a day, every day. *)
Definition goalWhole5 : UserGoal :=
  mkGoal "whole-5" whole_quran None u_pages 5 None (At jan1) everyDay.

(** The whole text, a page a day, with a deadline 30 days after the start. *)
Definition goalDeadline : UserGoal :=
  mkGoal "deadline" whole_quran None u_pages 1
         (Some (At (jan1 + 30 * msPerDay))) (At jan1) everyDay.

(** Chapter 113 in pages. *)
Definition goalSurah113 : UserGoal :=
  mkGoal "surah-113" specific_surah (Some 113) u_pages 1 None (At jan1) everyDay.

(** Chapter 1 (seven verses), five verses a day. *)
Definition goalFatiha5 : UserGoal :=
  mkGoal "fatiha-5" specific_surah (Some 1) u_ayahs 5 None (At jan1) everyDay.

(** Chapter 114 (six verses), four verses a day. *)
Definition goalNas4 : UserGoal :=
  mkGoal "nas-4" specific_surah (Some 114) u_ayahs 4 None (At jan1) everyDay.

(** Part 2 in verses. *)
Definition goalJuz2Ayahs : UserGoal :=
  mkGoal "juz-2" specific_juz (Some 2) u_ayahs 10 None (At jan1) everyDay.

(** A plan of one assignment, completed, dated ten days after 1 January. *)
Definition planAhead : list DailyAssignment :=
  [mkAssignment (jan1 + 10 * msPerDay) "1:1" "1:7" 1 1 true false].

(** Three days from 1 January on, the first one completed. *)
Definition threeDays : list DailyAssignment :=
  [mkAssignment jan1 "1:1" "1:7" 1 1 true false;
   mkAssignment (jan1 + msPerDay) "2:1" "2:5" 2 2 false false;
   mkAssignment (jan1 + 2 * msPerDay) "2:6" "2:16" 3 3 false false].

Definition stateThreeDays : GoalState :=
  mkGoalState None threeDays None 1 1 1.

(** Mondays and Thursdays, three pages a day. *)
Definition goalTwiceAWeek : UserGoal :=
  mkGoal "mon-thu" whole_quran None u_pages 3 None (At jan1) [1; 4].

(** Wednesdays only, 300 pages a day. *)
Definition goalWednesdays : UserGoal :=
  mkGoal "wed" whole_quran None u_pages 300 None (At jan1) [3].


(** A part that does not exist, no amount, no day, no start date. *)
Definition goalJuz31 : UserGoal :=
  mkGoal "juz-31" specific_juz (Some 31) u_pages 0 None InvalidDate [].

(** The whole text, one verse a day. *)
Definition goalVerseADay : UserGoal :=
  mkGoal "verse-a-day" whole_quran None u_ayahs 1 None (At jan1) everyDay.


(** No amount and no day: what [validateGoal] rejects and [setGoal] passes
    on to [generatePlan] all the same. *)
Definition goalZero : UserGoal :=
  mkGoal "zero" whole_quran None u_pages 0 None (At jan1) [].

(** A goal that breaks five rules at once. *)
Definition goalBroken : UserGoal :=
  mkGoal "broken" specific_juz None u_pages (-1) (Some InvalidDate) InvalidDate [].

End Sample.

(* ------------------------------------------------------------------ *)
(** ** Vocabulary of the statements *)

(** The invariants of a goal (data model): a positive daily amount, a
    non-empty set of weekdays between 0 and 6, valid dates with the deadline
    not before the start, and an index in range for a part or a chapter. *)
Definition goal_invariants (g : UserGoal) : Prop :=
  0 < dailyAmount g
  /\ daysOfWeek g <> []
  /\ Forall (fun w => 0 <= w <= 6) (daysOfWeek g)
  /\ (exists t0, startDate g = At t0
        /\ match deadline g with
           | None => True
           | Some dl => exists t1, dl = At t1 /\ t0 <= t1
           end)
  /\ match target g with
     | whole_quran => True
     | specific_juz => exists n, targetValue g = Some n /\ 1 <= n <= 30
     | specific_surah => exists n, targetValue g = Some n /\ 1 <= n <= 114
     | other_target => False
     end.

(** What the loop of [generateReadingDates] keeps true when no deadline is
    set, [n] days are needed and some day of the week qualifies: the dates
    so far are counted by [daysAdded], increase, lie before the current day
    and are on selected weekdays; and a selected weekday is at most [k] days
    ahead, where the iterations spent so far leave room for it. *)
Definition datesInv (g : UserGoal) (n : Z) (st : DatesState) : Prop :=
  exists c, currentDate st = At c
  /\ Z.of_nat (List.length (dates st)) = daysAdded st
  /\ StronglySorted Z.lt (dates st)
  /\ Forall (fun t => t < c /\ includes (daysOfWeek g) (weekday t) = true) (dates st)
  /\ 0 <= daysAdded st <= n
  /\ (daysAdded st = n -> iterations st <= 7 * n)
  /\ exists k, 0 <= k <= 6
       /\ includes (daysOfWeek g) (weekday (c + k * msPerDay)) = true
       /\ iterations st + k <= 7 * daysAdded st + 6.

(** What the loop keeps true under a deadline [dl]: no date after the end
    of the deadline's day. *)
Definition deadlineInv (dl : Z) (st : DatesState) : Prop :=
  Forall (fun t => t <= endOfDay dl) (dates st).

(** What the loop keeps true when it starts on the day that begins at [s0]
    and the deadline's day is [span] days later: the current day is at least
    as many days after the start as dates were taken, and at most
    [span + 1] dates are taken. *)
Definition spanInv (s0 span : Z) (st : DatesState) : Prop :=
  (exists c, currentDate st = At c /\ s0 + daysAdded st * msPerDay <= c)
  /\ Z.of_nat (List.length (dates st)) = daysAdded st
  /\ daysAdded st <= span + 1.

(** The order of verse references, and an assignment lying within a scope
    that starts at the reference [first] and ends at [last]. *)
Definition ref_le (a b : AyahRef) : bool :=
  (surahId a <? surahId b) || ((surahId a =? surahId b) && (ayahNumber a <=? ayahNumber b)).

Definition within_scope (first last : string) (a : DailyAssignment) : bool :=
  match parseAyahReference first, parseAyahReference last,
        parseAyahReference (fromAyah a), parseAyahReference (toAyah a) with
  | Some s, Some e, Some f, Some t =>
      ref_le s f && ref_le f t && ref_le t e
  | _, _, _, _ => false
  end.

(** A string without the character [c]. *)
Fixpoint free_of (c : ascii) (s : string) : bool :=
  match s with
  | EmptyString => true
  | String x rest => negb (Ascii.eqb x c) && free_of c rest
  end.

(** The counters of [calculateStreaks] stay ordered. *)
Definition streaksInv (s : Streaks) : Prop :=
  0 <= st_current s <= st_best s /\ 0 <= st_temp s <= st_best s.

(** The rules of the validator in the order of its checks, each with its
    message, as the specification lists them; an index of 0 counts as
    absent. *)
Definition validation_rules (g : UserGoal) : list (bool * string) :=
  let absent := match targetValue_truthy g with None => true | Some _ => false end in
  let outside (lo hi : Z) :=
    match targetValue_truthy g with
    | Some n => (n <? lo) || (hi <? n)
    | None => false
    end in
  [ (match daysOfWeek g with [] => true | _ => false end, err_days);
    (isInvalid (startDate g), err_start);
    (match deadline g with Some dl => isInvalid dl | None => false end, err_deadline);
    (match deadline g with
     | Some dl => negb (isInvalid dl) && date_lt dl (startDate g)
     | None => false
     end, err_order);
    (dailyAmount g <=? 0, err_amount);
    (isSpecific (target g) && absent, err_required);
    (isJuzTarget (target g) && outside 1 30, err_juz);
    (isSurahTarget (target g) && outside 1 114, err_surah) ].

(** The messages of the violated rules, in the order of the rules. *)
Definition expected_errors (g : UserGoal) : list string :=
  map snd (filter fst (validation_rules g)).

(** What a completion toggle does to a store: [s'] is [s] after the day of
    [d] was given the completion flag [c] at the time [now]. The plan keeps
    its length and its order; an assignment on the day of [d] gets the flag
    and keeps its other fields, any other assignment is unchanged; the
    streaks and the count of completed days are those of the new plan. *)
Definition day_marked (c : bool) (now d : Z) (s s' : GoalState) : Prop :=
  List.length (plan s') = List.length (plan s)
  /\ (forall i a, nth_error (plan s) i = Some a ->
        exists a', nth_error (plan s') i = Some a'
          /\ date a' = date a /\ fromAyah a' = fromAyah a /\ toAyah a' = toAyah a
          /\ fromPage a' = fromPage a /\ toPage a' = toPage a
          /\ isCatchUpDay a' = isCatchUpDay a
          /\ (isSameDay (date a) d = true -> completed a' = c)
          /\ (isSameDay (date a) d = false -> a' = a))
  /\ (currentStreak s', bestStreak s') = calculateStreaks now (plan s')
  /\ totalDaysCompleted s' = completedCount (plan s')
  /\ currentGoal s' = currentGoal s.

(* ------------------------------------------------------------------ *)
(** ** services/quranData.ts: the lists *)

(** What [getAyahsForSurah] and [getVersesByPage] push. *)
Record AyahEntry : Type := mkAyahEntry {
  ay_surahId : Z;
  ay_ayahNumber : Z;
  ay_ayahKey : string
}.

(** [for (let i = lo; ...; i++) { out.push (...body (i)) }], run [n] times
    from [i = lo]. *)
Fixpoint forRange {A : Type} (body : Z -> list A) (lo : Z) (n : nat) : list A :=
  match n with
  | O => []
  | S n' => body lo ++ forRange body (lo + 1) n'
  end.

(** The number of runs of [for (let i = lo; i <= hi; i++)]. *)
Definition runs (lo hi : Z) : nat := Z.to_nat (hi - lo + 1).

(** [if (x) out.push (x)] *)
Definition pushSome {A : Type} (x : option A) : list A :=
  match x with Some a => [a] | None => [] end.

Section QuranDataLists.

Variable qm : QuranMeta.

Definition getSurahList : list Surah :=
  forRange (fun i => pushSome (surah qm i)) 1 (runs 1 114).

Definition getJuzList : list Juz :=
  forRange (fun i => pushSome (juz qm i)) 1 (runs 1 30).

(** The verses [lo .. hi] of chapter [s]. *)
Definition ayahRun (s lo hi : Z) : list AyahEntry :=
  forRange (fun i => [mkAyahEntry s i (ayahKey s i)]) lo (runs lo hi).

Definition getAyahsForSurah (surahId : Z) : list AyahEntry :=
  match surah qm surahId with
  | None => []
  | Some surahInfo => ayahRun surahId 1 (su_ayahCount surahInfo)
  end.

Definition getVersesByPage (pageNum : Z) : list AyahEntry :=
  match page qm pageNum with
  | None => []
  | Some pageInfo =>
      if pg_startSurah pageInfo =? pg_endSurah pageInfo then
        ayahRun (pg_startSurah pageInfo) (pg_startAyah pageInfo) (pg_endAyah pageInfo)
      else
        (match surah qm (pg_startSurah pageInfo) with
         | Some firstSurahInfo =>
             ayahRun (pg_startSurah pageInfo) (pg_startAyah pageInfo)
                     (su_ayahCount firstSurahInfo)
         | None => []
         end)
        ++ forRange (fun s =>
                       match surah qm s with
                       | Some middleSurahInfo => ayahRun s 1 (su_ayahCount middleSurahInfo)
                       | None => []
                       end)
                    (pg_startSurah pageInfo + 1)
                    (runs (pg_startSurah pageInfo + 1) (pg_endSurah pageInfo - 1))
        ++ ayahRun (pg_endSurah pageInfo) 1 (pg_endAyah pageInfo)
  end.

End QuranDataLists.

(* ------------------------------------------------------------------ *)
(** ** store/useGoalStore.ts: the other actions *)

(** The initial state of the store. *)
Definition initialState : GoalState := mkGoalState None [] None 0 0 0.

(** [setGoal]: it ends as [generatePlan] ends; [now] is the value of its
    [new Date ()] and of the one in [calculateStreaks]. The state it sets
    does not depend on the state before. *)
Definition setGoal (qm : QuranMeta) (gas : nat) (now : Z) (goal : UserGoal)
  : outcome GoalState :=
  match generatePlan qm gas goal with
  | Returns newPlan =>
      let streaks := calculateStreaks now newPlan in
      let completed := completedCount newPlan in
      Returns (mkGoalState (Some goal) newPlan (Some now) (fst streaks) (snd streaks)
                           completed)
  | Throws => Throws
  | OutOfGas => OutOfGas
  end.

(** The two toggles as one: [markDayAsComplete] for [true],
    [markDayAsIncomplete] for [false]. *)
Definition markDay (c : bool) : Z -> Z -> GoalState -> GoalState :=
  if c then markDayAsComplete else markDayAsIncomplete.

(** [plan.find (...) || null] *)
Definition getTodaysAssignment (today : Z) (s : GoalState) : option DailyAssignment :=
  find (fun assignment => isSameDay (date assignment) today) (plan s).

Definition clearPlan (s : GoalState) : GoalState := mkGoalState None [] None 0 0 0.

Definition getCompletedCount (s : GoalState) : Z := completedCount (plan s).

Definition getTotalCount (s : GoalState) : Z := Z.of_nat (List.length (plan s)).

Definition updateStreaks (now : Z) (s : GoalState) : GoalState :=
  let streaks := calculateStreaks now (plan s) in
  let completed := completedCount (plan s) in
  mkGoalState (currentGoal s) (plan s) (lastUpdated s) (fst streaks) (snd streaks) completed.

(* ------------------------------------------------------------------ *)
(** ** More vocabulary *)

(** What the loop of [generateReadingDates] keeps true for every goal: the
    dates taken are on selected weekdays and at local midnight, a day or
    more apart in increasing order, before the current day, and not before
    the day of the start date. *)
Definition calendarInv (g : UserGoal) (st : DatesState) : Prop :=
  StronglySorted (fun a b => a + msPerDay <= b) (dates st)
  /\ Forall (fun t => includes (daysOfWeek g) (weekday t) = true
                      /\ t mod msPerDay = 0
                      /\ forall t0, startDate g = At t0 -> startOfDay t0 <= t) (dates st)
  /\ match currentDate st with
     | At c => Forall (fun t => t + msPerDay <= c) (dates st)
               /\ c mod msPerDay = 0
               /\ forall t0, startDate g = At t0 -> startOfDay t0 <= c
     | InvalidDate => dates st = []
     end.

(** The dates [first], [first + step], ... ([n] of them). *)
Definition progression (first step : Z) (n : nat) : list Z :=
  map (fun i => first + Z.of_nat i * step) (seq 0 n).

(** What the loop keeps true when a single weekday is selected: the dates
    taken are a week apart, and the current day is one to seven days after
    the last of them. *)
Definition weeklyInv (g : UserGoal) (st : DatesState) : Prop :=
  dates st = []
  \/ exists first j,
       dates st = progression first (7 * msPerDay) (List.length (dates st))
       /\ includes (daysOfWeek g) (weekday first) = true
       /\ 1 <= j <= 7
       /\ currentDate st
          = At (first + (Z.of_nat (List.length (dates st)) - 1) * (7 * msPerDay)
                + j * msPerDay).

(** What the loop keeps true when every weekday is selected: the dates taken
    are the days from the day of the start date on, without gap, and the
    current day is the one after the last of them. *)
Definition dailyInv (t0 : Z) (st : DatesState) : Prop :=
  dates st = progression (startOfDay t0) msPerDay (List.length (dates st))
  /\ currentDate st
     = At (startOfDay t0 + Z.of_nat (List.length (dates st)) * msPerDay).

(** The loop never takes more dates than it needs. *)
Definition countInv (n : Z) (st : DatesState) : Prop :=
  Z.of_nat (List.length (dates st)) = daysAdded st /\ daysAdded st <= Z.max 0 n.

(** The pages of the scope of a goal, as the index gives them. *)
Definition scope_pages (qm : QuranMeta) (g : UserGoal) (first last : Z) : Prop :=
  match target g with
  | whole_quran => first = 1 /\ last = 604
  | specific_juz =>
      exists tv j, targetValue_truthy g = Some tv /\ getJuzById qm tv = Some j
                   /\ first = jz_startPage j /\ last = jz_endPage j
  | specific_surah =>
      exists tv s, targetValue_truthy g = Some tv /\ getSurahById qm tv = Some s
                   /\ first = su_startPage s /\ last = su_endPage s
  | other_target => False
  end.

(** A reference that [parseAyahReference] reads. *)
Definition parseable (ref : string) : Prop := parseAyahReference ref <> None.

(** The counters of [calculateStreaks] against the number [k] of completed
    assignments seen so far. *)
Definition streaksBound (k : Z) (s : Streaks) : Prop :=
  0 <= st_temp s <= st_best s /\ st_best s <= k /\ (0 < k -> 1 <= st_best s).

(** The map of the two toggles. *)
Definition toggle (c : bool) (d : Z) (assignment : DailyAssignment) : DailyAssignment :=
  if isSameDay (date assignment) d then withCompleted c assignment else assignment.

(** Completed, and dated less than two days before [today]. *)
Definition recent (today : Z) (a : DailyAssignment) : Prop :=
  completed a = true /\ today - date a < 2 * msPerDay.

(** An entry whose key is the reference of its chapter and verse. *)
Definition wellKeyed (e : AyahEntry) : Prop :=
  ay_ayahKey e = ayahKey (ay_surahId e) (ay_ayahNumber e).

(** The order of the text: by chapter, then by verse. *)
Definition verseOrder (a b : AyahEntry) : Prop :=
  ay_surahId a < ay_surahId b
  \/ (ay_surahId a = ay_surahId b /\ ay_ayahNumber a < ay_ayahNumber b).

(** Verse [i] of chapter [s] lies on a page, as [getVersesByPage] reads the
    page: between the first and the last verse of a page inside one chapter;
    otherwise from the first verse of the page to the end of its first
    chapter, in a chapter strictly between, or up to the last verse of the
    page in its last chapter. *)
Definition onPage (qm : QuranMeta) (pg : PageInfo) (s i : Z) : Prop :=
  if pg_startSurah pg =? pg_endSurah pg then
    s = pg_startSurah pg /\ pg_startAyah pg <= i <= pg_endAyah pg
  else
    (s = pg_startSurah pg
     /\ exists su, surah qm s = Some su /\ pg_startAyah pg <= i <= su_ayahCount su)
    \/ (pg_startSurah pg < s < pg_endSurah pg
        /\ exists su, surah qm s = Some su /\ 1 <= i <= su_ayahCount su)
    \/ (s = pg_endSurah pg /\ 1 <= i <= pg_endAyah pg).

(** Ordered by date. *)
Definition byDate (a b : DailyAssignment) : Prop := date a <= date b.

(* ================================================================== *)
(** * Evaluation on examples *)

Example parse_ok : parseAyahReference "2:255" = Some (mkAyahRef 2 255).
Proof. reflexivity. Qed.

Example parse_no_colon : parseAyahReference "2255" = None.
Proof. reflexivity. Qed.

Example parse_two_colons : parseAyahReference "2:25:5" = None.
Proof. reflexivity. Qed.

Example parse_empty_field : parseAyahReference ":5" = None.
Proof. reflexivity. Qed.

Example ayahKey_ex : ayahKey 114 6 = "114:6".
Proof. reflexivity. Qed.

Example civil_ex :
  civil 20089 = (2025, 0, 1) /\ weekday (midnight 20089) = 3 /\
  civil 19782 = (2024, 1, 29) /\ civil 19783 = (2024, 2, 1) /\
  civil 0 = (1970, 0, 1) /\ civil (-1) = (1969, 11, 31).
Proof. repeat split; reflexivity. Qed.

Example sample_totals :
  Sample.totalAyahs = 6236 /\
  surah Sample.meta 113 = Some (mkSurah 113 5 604 604) /\
  surah Sample.meta 1 = Some (mkSurah 1 7 1 1) /\
  page Sample.meta 604 = Some (mkPageInfo 112 1 114 6) /\
  option_map jz_startAyah (juz Sample.meta 2) = Some 142 /\
  option_map jz_startSurah (juz Sample.meta 30) = Some 78.
Proof. repeat split; vm_compute; reflexivity. Qed.

(** The sample layout is consistent: the verses of page [p] are exactly those
    between the bounds [pageMeta] gives. *)
Example sample_pages_consistent :
  forallb (fun id =>
             match Sample.pageMeta (Sample.pageOfId id) with
             | Some r => (firstAyahId r <=? id) && (id <=? lastAyahId r)
             | None => false
             end)
          (map (fun n => Z.of_nat n + 1) (seq 0 6236)) = true
  /\ forallb (fun p =>
             match Sample.pageMeta p with
             | Some r => (Sample.pageOfId (firstAyahId r) =? p)
                         && (Sample.pageOfId (lastAyahId r) =? p)
                         && (firstAyahId r <=? lastAyahId r)
             | None => false
             end)
          (map (fun n => Z.of_nat n + 1) (seq 0 604)) = true.
Proof. split; vm_compute; reflexivity. Qed.

(* ================================================================== *)
(** * Facts about days and weekdays *)

Lemma msPerDay_pos : 0 < msPerDay.
Proof. reflexivity. Qed.

Lemma dayNumber_shift (t k : Z) : dayNumber (t + k * msPerDay) = dayNumber t + k.
Proof. unfold dayNumber. apply Z.div_add. pose proof msPerDay_pos. lia. Qed.

Lemma weekday_range (t : Z) : 0 <= weekday t <= 6.
Proof. unfold weekday. pose proof (Z.mod_pos_bound (dayNumber t + 4) 7). lia. Qed.

Lemma weekday_shift (t k : Z) : weekday (t + k * msPerDay) = (weekday t + k) mod 7.
Proof.
  unfold weekday. rewrite dayNumber_shift.
  rewrite Zplus_mod_idemp_l. f_equal. lia.
Qed.

(** From any day, a given weekday comes up within the next seven days. *)
Lemma weekday_reached (t w : Z) :
  0 <= w <= 6 -> exists k, 0 <= k <= 6 /\ weekday (t + k * msPerDay) = w.
Proof.
  intros Hw. exists ((w - weekday t) mod 7). split.
  - pose proof (Z.mod_pos_bound (w - weekday t) 7). lia.
  - rewrite weekday_shift. rewrite Zplus_mod_idemp_r.
    replace (weekday t + (w - weekday t)) with w by lia.
    apply Z.mod_small. lia.
Qed.

Lemma startOfDay_shift (t k : Z) : startOfDay (t + k * msPerDay) = startOfDay t + k * msPerDay.
Proof.
  unfold startOfDay. rewrite Z.mod_add; [lia|]. pose proof msPerDay_pos. lia.
Qed.

Lemma includes_In (l : list Z) (x : Z) : includes l x = true <-> In x l.
Proof.
  unfold includes. rewrite existsb_exists. split.
  - intros [y [Hy E]]. apply Z.eqb_eq in E. subst. assumption.
  - intros H. exists x. split; [assumption | apply Z.eqb_refl].
Qed.

(** [Math.ceil (a / b)] for positive [b]: the least [n] with [a <= n * b]. *)
Lemma ceil_div_pos (a b : Z) :
  0 < b -> exists n, ceil_div a b = XFin n /\ n = - ((- a) / b) /\ (n - 1) * b < a <= n * b.
Proof.
  intros Hb. unfold ceil_div.
  destruct (Z.eqb_spec b 0); [lia|].
  eexists. split; [reflexivity|]. split; [reflexivity|].
  pose proof (Z.div_mod (- a) b ltac:(lia)).
  pose proof (Z.mod_pos_bound (- a) b Hb). nia.
Qed.

Lemma ceil_div_step (x d : Z) : 0 < d -> - ((- (x - d)) / d) = - ((- x) / d) - 1.
Proof.
  intros Hd. replace (- (x - d)) with (- x + 1 * d) by lia.
  rewrite Z.div_add by lia. lia.
Qed.

Lemma ceil_div_one (x d : Z) : 0 < x <= d -> - ((- x) / d) = 1.
Proof.
  intros H.
  assert (E : (- x) / d = -1).
  { symmetry. apply (Z.div_unique (- x) d (-1) (d - x)); lia. }
  rewrite E. reflexivity.
Qed.

Lemma StronglySorted_snoc (l : list Z) (t : Z) :
  StronglySorted Z.lt l -> Forall (fun x => x < t) l ->
  StronglySorted Z.lt (l ++ [t]).
Proof.
  induction 1 as [|a l Hs IH Ha]; intros Hlt; simpl.
  - constructor; constructor.
  - inversion Hlt as [|? ? Hat Hl]; subst. constructor.
    + apply IH. assumption.
    + apply Forall_app. split; [assumption | constructor; [assumption | constructor]].
Qed.

Lemma StronglySorted_lt_NoDup (l : list Z) : StronglySorted Z.lt l -> NoDup l.
Proof.
  induction 1 as [|a l Hs IH Ha]; constructor; [|assumption].
  intros Hin. rewrite Forall_forall in Ha. specialize (Ha a Hin). lia.
Qed.

(* ================================================================== *)
(** * The loop of [generateReadingDates] *)

Section DatesLoopFacts.

Variable g : UserGoal.
Variables N M : xnum.

Lemma datesBody_iterations (st : DatesState) :
  iterations (snd (datesBody g st)) = iterations st + 1.
Proof.
  unfold datesBody. destruct (currentDate st); [reflexivity|].
  destruct (includes _ _); [|reflexivity].
  destruct (pastDeadline _ _); reflexivity.
Qed.

(** More gas does not change a result. *)
Lemma datesLoop_gas_mono (gas : nat) :
  forall st r, datesLoop gas g N M st = Some r ->
  forall gas', (gas <= gas')%nat -> datesLoop gas' g N M st = Some r.
Proof.
  induction gas as [|gas IH]; intros st r H gas' Hle.
  - simpl in H. destruct (datesCond N M st) eqn:C; [discriminate|].
    destruct gas'; simpl; rewrite C; assumption.
  - destruct gas' as [|gas']; [lia|].
    simpl in *. destruct (datesCond N M st); [|assumption].
    destruct (datesBody g st) as [brk st']. destruct brk; [assumption|].
    apply IH with (gas' := gas'); [assumption | lia].
Qed.

Lemma datesLoop_deterministic (gas1 gas2 : nat) (st r1 r2 : DatesState) :
  datesLoop gas1 g N M st = Some r1 -> datesLoop gas2 g N M st = Some r2 -> r1 = r2.
Proof.
  intros H1 H2.
  apply datesLoop_gas_mono with (gas' := Nat.max gas1 gas2) in H1; [|lia].
  apply datesLoop_gas_mono with (gas' := Nat.max gas1 gas2) in H2; [|lia].
  congruence.
Qed.

(** A property kept by the loop body holds when the loop is left. *)
Lemma datesLoop_invariant (P : DatesState -> Prop) :
  (forall st, P st -> datesCond N M st = true -> P (snd (datesBody g st))) ->
  forall gas st r, P st -> datesLoop gas g N M st = Some r -> P r.
Proof.
  intros Hstep. induction gas as [|gas IH]; intros st r HP H; simpl in H.
  - destruct (datesCond N M st); [discriminate | congruence].
  - destruct (datesCond N M st) eqn:C; [|congruence].
    specialize (Hstep st HP C).
    destruct (datesBody g st) as [brk st']. simpl in Hstep.
    destruct brk; [congruence | eauto].
Qed.

(** The loop is left by its condition or by [break]. *)
Lemma datesLoop_exit (gas : nat) :
  forall st r, datesLoop gas g N M st = Some r ->
  datesCond N M r = false
  \/ exists st0, datesCond N M st0 = true /\ datesBody g st0 = (true, r).
Proof.
  induction gas as [|gas IH]; intros st r H; simpl in H.
  - destruct (datesCond N M st) eqn:C; [discriminate|]. left. congruence.
  - destruct (datesCond N M st) eqn:C; [|left; congruence].
    destruct (datesBody g st) as [brk st'] eqn:B.
    destruct brk; [|eauto].
    right. exists st. split; [assumption | congruence].
Qed.

(** With a finite cap the loop returns, given the gas for the iterations
    that the cap leaves. *)
Lemma datesLoop_terminates (m : Z) :
  M = XFin m ->
  forall gas st, (Z.to_nat (m - iterations st) <= gas)%nat ->
  exists r, datesLoop gas g N M st = Some r.
Proof.
  intros HM. induction gas as [|gas IH]; intros st Hgas; simpl.
  - destruct (datesCond N M st) eqn:C; [|eauto].
    unfold datesCond in C. apply andb_true_iff in C. destruct C as [_ C].
    rewrite HM in C. simpl in C. apply Z.ltb_lt in C. lia.
  - destruct (datesCond N M st) eqn:C; [|eauto].
    unfold datesCond in C. apply andb_true_iff in C. destruct C as [_ C].
    rewrite HM in C. simpl in C. apply Z.ltb_lt in C.
    pose proof (datesBody_iterations st) as Hit.
    destruct (datesBody g st) as [brk st']. simpl in Hit.
    destruct brk; [eauto|]. apply IH. lia.
Qed.

(** The cap bounds the number of iterations. *)
Lemma datesLoop_iterations (m : Z) :
  M = XFin m ->
  forall gas st r, iterations st <= Z.max 0 m ->
  datesLoop gas g N M st = Some r -> iterations r <= Z.max 0 m.
Proof.
  intros HM gas st r H0.
  apply (datesLoop_invariant (fun s => iterations s <= Z.max 0 m)); [|assumption].
  intros s Hs C. rewrite datesBody_iterations.
  unfold datesCond in C. apply andb_true_iff in C. destruct C as [_ C].
  rewrite HM in C. simpl in C. apply Z.ltb_lt in C. lia.
Qed.

End DatesLoopFacts.

(* ================================================================== *)
(** * Reading dates without a deadline *)

Section QualifyingDays.

Variable g : UserGoal.
Variable n : Z.
Hypothesis n_pos : 1 <= n.
Hypothesis no_deadline : deadline g = None.
Variable w0 : Z.
Hypothesis w0_range : 0 <= w0 <= 6.
Hypothesis w0_in : In w0 (daysOfWeek g).

Let N := XFin n.
Let M := XFin (n * 10).

Lemma datesInv_init (t0 : Z) :
  startDate g = At t0 -> datesInv g n (datesInit g).
Proof.
  intros Hs. unfold datesInit. rewrite Hs. simpl.
  exists (startOfDay t0). repeat split; simpl; try lia.
  - constructor.
  - constructor.
  - destruct (weekday_reached (startOfDay t0) w0 w0_range) as [k [Hk Hw]].
    exists k. repeat split; try lia.
    rewrite Hw. apply includes_In. assumption.
Qed.

Lemma datesInv_step (st : DatesState) :
  datesInv g n st -> datesCond N M st = true -> datesInv g n (snd (datesBody g st)).
Proof.
  intros [c [Hc [Hlen [Hsort [Hall [Hda [Hfull [k [Hk [Hinc Hpot]]]]]]]]]] C.
  unfold datesCond, N, M in C. simpl in C.
  apply andb_true_iff in C. destruct C as [C1 C2].
  apply Z.ltb_lt in C1. apply Z.ltb_lt in C2.
  unfold datesBody. rewrite Hc.
  destruct (includes (daysOfWeek g) (weekday c)) eqn:Q.
  - unfold pastDeadline. rewrite no_deadline.
    unfold datesInv. cbn [snd currentDate dates daysAdded iterations nextDay].
    exists (c + msPerDay). pose proof msPerDay_pos as Hms.
    split; [reflexivity|]. split.
    { rewrite length_app. simpl. lia. }
    split.
    { apply StronglySorted_snoc; [assumption|].
      eapply Forall_impl; [|exact Hall]. simpl. intros a [Ha _]. exact Ha. }
    split.
    { apply Forall_app. split.
      - eapply Forall_impl; [|exact Hall]. simpl. intros a [Ha Hq]. split; [lia | exact Hq].
      - constructor; [|constructor]. split; [lia | exact Q]. }
    split; [lia|]. split; [lia|].
    destruct (weekday_reached (c + msPerDay) w0 w0_range) as [k' [Hk' Hw]].
    exists k'. split; [lia|]. split; [|lia].
    rewrite Hw. apply includes_In. assumption.
  - unfold datesInv. cbn [snd currentDate dates daysAdded iterations nextDay].
    exists (c + msPerDay). pose proof msPerDay_pos as Hms.
    split; [reflexivity|]. split; [assumption|]. split; [assumption|].
    split.
    { eapply Forall_impl; [|exact Hall]. simpl. intros a [Ha Hq]. split; [lia | exact Hq]. }
    split; [lia|]. split; [lia|].
    assert (Hk0 : k <> 0).
    { intros ->. replace (c + 0 * msPerDay) with c in Hinc by lia. congruence. }
    exists (k - 1). split; [lia|]. split; [|lia].
    replace (c + msPerDay + (k - 1) * msPerDay) with (c + k * msPerDay) by lia.
    assumption.
Qed.

(** The loop is not left by [break]. *)
Lemma datesBody_no_break (st : DatesState) : fst (datesBody g st) = false.
Proof.
  unfold datesBody. destruct (currentDate st); [reflexivity|].
  destruct (includes _ _); [|reflexivity].
  unfold pastDeadline. rewrite no_deadline. reflexivity.
Qed.

(** All [n] dates are found, before the cap on the iterations is reached. *)
Lemma datesLoop_complete (t0 : Z) (gas : nat) (r : DatesState) :
  startDate g = At t0 ->
  datesLoop gas g N M (datesInit g) = Some r ->
  datesInv g n r /\ daysAdded r = n /\ iterations r < n * 10.
Proof.
  intros Hs Hrun.
  assert (Hinv : datesInv g n r).
  { eapply datesLoop_invariant; [exact datesInv_step | eapply datesInv_init; eassumption
                                 | exact Hrun]. }
  split; [assumption|].
  destruct (datesLoop_exit g N M gas _ _ Hrun) as [C | [st0 [_ B]]].
  - destruct Hinv as [c [_ [_ [_ [_ [Hda [Hfull [k [Hk [_ Hpot]]]]]]]]]].
    unfold datesCond, N, M in C. simpl in C.
    apply andb_false_iff in C.
    assert (daysAdded r = n).
    { destruct C as [C | C]; apply Z.ltb_ge in C; lia. }
    split; [assumption | lia].
  - pose proof (datesBody_no_break st0) as Hnb. rewrite B in Hnb. discriminate.
Qed.

End QualifyingDays.

(** The dates of a goal without deadline: the run of [generateReadingDates]
    returns for every budget of [10 * n] iterations and more, with exactly
    [n] dates. *)
Lemma readingDates_complete (g : UserGoal) (total t0 : Z) :
  0 < dailyAmount g -> 0 < total ->
  (exists w, 0 <= w <= 6 /\ In w (daysOfWeek g)) ->
  deadline g = None -> startDate g = At t0 ->
  let n := - ((- total) / dailyAmount g) in
  1 <= n /\
  exists r,
    (forall gas, (Z.to_nat (n * 10) <= gas)%nat -> generateReadingDates_run gas g total = Some r)
    /\ datesInv g n r /\ daysAdded r = n /\ iterations r < n * 10.
Proof.
  intros Hd Ht [w [Hw Hin]] Hdl Hs n.
  destruct (ceil_div_pos total (dailyAmount g) Hd) as [n' [Hceil [Hn' Hb]]].
  assert (n' = n) by (subst n; assumption). subst n'.
  assert (Hn : 1 <= n) by nia.
  split; [assumption|].
  unfold generateReadingDates_run, totalDaysNeeded_of. rewrite Hceil. simpl mul_pos.
  destruct (datesLoop_terminates g (XFin n) (XFin (n * 10)) (n * 10) eq_refl
              (Z.to_nat (n * 10)) (datesInit g)) as [r Hr].
  { unfold datesInit. simpl. lia. }
  exists r. split.
  - intros gas Hgas. eapply datesLoop_gas_mono; eassumption.
  - eapply datesLoop_complete; eassumption.
Qed.

(* ================================================================== *)
(** * The loop of [generatePlan] *)

Section PlanLoopFacts.

Variable qm : QuranMeta.
Variable g : UserGoal.
Variable E : Z.
Variable ea : jsval.

(** The assignment of a day in the page branches. *)
Let pageDay (cur dt : Z) : DailyAssignment :=
  let toPage := Z.min (cur + dailyAmount g - 1) E in
  newAssignment dt (fst (getAyahsForPageRange qm cur toPage))
                (snd (getAyahsForPageRange qm cur toPage)) cur toPage.

Lemma planLoop_pages_unfold (cur dt : Z) (ca : jsval) (rest : list Z) :
  unit g <> u_ayahs ->
  planLoop qm g E ea cur ca (dt :: rest) =
    if E <? Z.min (cur + dailyAmount g - 1) E + 1 then Returns [pageDay cur dt]
    else push_then (pageDay cur dt)
           (planLoop qm g E ea (Z.min (cur + dailyAmount g - 1) E + 1) ca rest).
Proof.
  intros U. simpl. destruct (unit g); try reflexivity. congruence.
Qed.

Lemma push_then_Returns (a : DailyAssignment) (o : outcome (list DailyAssignment))
  (l : list DailyAssignment) :
  push_then a o = Returns l -> exists l', o = Returns l' /\ l = a :: l'.
Proof.
  destruct o; simpl; intros H; try discriminate.
  inversion H. eauto.
Qed.

(** In the page branches the loop returns. *)
Lemma planLoop_pages_returns :
  unit g <> u_ayahs ->
  forall ds cur ca, exists l, planLoop qm g E ea cur ca ds = Returns l.
Proof.
  intros U. induction ds as [|dt rest IH]; intros cur ca.
  - simpl. eauto.
  - rewrite planLoop_pages_unfold by assumption.
    destruct (E <? _); [eauto|].
    destruct (IH (Z.min (cur + dailyAmount g - 1) E + 1) ca) as [l Hl].
    rewrite Hl. simpl. eauto.
Qed.

(** Every assignment is on one of the reading dates, and there are no more
    assignments than dates (whatever the unit). *)
Lemma planLoop_dates :
  forall ds cur ca l, planLoop qm g E ea cur ca ds = Returns l ->
  (List.length l <= List.length ds)%nat /\ Forall (fun a => In (date a) ds) l.
Proof.
  induction ds as [|dt rest IH]; intros cur ca l H.
  - simpl in H. inversion H. split; [simpl; lia | constructor].
  - assert (Hlast : forall a, date a = dt -> Returns [a] = Returns l ->
              (List.length l <= List.length (dt :: rest))%nat
              /\ Forall (fun a => In (date a) (dt :: rest)) l).
    { intros a Ha Hl. inversion Hl. subst. split; [simpl; lia|].
      constructor; [left; reflexivity | constructor]. }
    assert (Hcons : forall a cur' ca', date a = dt ->
              push_then a (planLoop qm g E ea cur' ca' rest) = Returns l ->
              (List.length l <= List.length (dt :: rest))%nat
              /\ Forall (fun a => In (date a) (dt :: rest)) l).
    { intros a cur' ca' Ha Hp. apply push_then_Returns in Hp. destruct Hp as [l' [Ho' ->]].
      destruct (IH _ _ _ Ho') as [Hlen Hall]. split; [simpl; lia|].
      constructor; [left; congruence|].
      eapply Forall_impl; [|exact Hall]. simpl. intros; right; assumption. }
    destruct (unit g) eqn:U;
      try (rewrite planLoop_pages_unfold in H by congruence;
           destruct (E <? _);
           [ eapply Hlast; [|exact H]; reflexivity
           | eapply Hcons; [|exact H]; reflexivity ]).
    simpl in H. rewrite U in H.
    destruct ca as [fromAyah|]; cbn iota in H; [|discriminate].
    destruct ea as [ending|] eqn:Hea; cbn iota in H; [|discriminate].
    destruct (pastEndingAyah _ _).
    + eapply Hlast; [|exact H]; reflexivity.
    + eapply Hcons; [|exact H]; reflexivity.
Qed.

Hypothesis pages_unit : unit g <> u_ayahs.
Hypothesis amount_pos : 0 < dailyAmount g.

(** The page range of every assignment lies between the cursor and the
    ending page, and its verse references are those of its pages. *)
Lemma planLoop_pages_bounds :
  forall ds cur ca l, cur <= E -> planLoop qm g E ea cur ca ds = Returns l ->
  Forall (fun a => cur <= fromPage a /\ fromPage a <= toPage a /\ toPage a <= E
                   /\ (fromAyah a, toAyah a) = getAyahsForPageRange qm (fromPage a) (toPage a)
                   /\ completed a = false /\ isCatchUpDay a = false) l.
Proof.
  induction ds as [|dt rest IH]; intros cur ca l Hcur H.
  - simpl in H. inversion H. constructor.
  - rewrite planLoop_pages_unfold in H by assumption.
    assert (Ha : cur <= fromPage (pageDay cur dt)
                 /\ fromPage (pageDay cur dt) <= toPage (pageDay cur dt)
                 /\ toPage (pageDay cur dt) <= E
                 /\ (fromAyah (pageDay cur dt), toAyah (pageDay cur dt))
                    = getAyahsForPageRange qm (fromPage (pageDay cur dt))
                                           (toPage (pageDay cur dt))
                 /\ completed (pageDay cur dt) = false
                 /\ isCatchUpDay (pageDay cur dt) = false).
    { unfold pageDay, newAssignment. cbn [fromPage toPage fromAyah toAyah completed isCatchUpDay].
      repeat split; lia. }
    destruct (E <? _) eqn:C.
    + inversion H. constructor; [exact Ha | constructor].
    + apply push_then_Returns in H. destruct H as [l' [Hl' ->]].
      apply Z.ltb_ge in C.
      constructor; [exact Ha|].
      specialize (IH _ _ _ C Hl').
      eapply Forall_impl; [|exact IH]. simpl. intros a H. repeat split; try tauto; lia.
Qed.

(** The number of assignments and the pages of each: day [i] starts [i]
    daily amounts after the cursor. *)
Lemma planLoop_pages_shape :
  forall ds cur ca l, cur <= E -> planLoop qm g E ea cur ca ds = Returns l ->
  Z.of_nat (List.length l)
    = Z.min (Z.of_nat (List.length ds)) (- ((- (E - cur + 1)) / dailyAmount g))
  /\ forall i a, nth_error l i = Some a ->
       fromPage a = cur + Z.of_nat i * dailyAmount g
       /\ toPage a = Z.min (fromPage a + dailyAmount g - 1) E.
Proof.
  induction ds as [|dt rest IH]; intros cur ca l Hcur H.
  - simpl in H. inversion H. split.
    + destruct (ceil_div_pos (E - cur + 1) (dailyAmount g) amount_pos) as [n [_ [Hn Hb]]].
      rewrite <- Hn. simpl. nia.
    + intros [|i] a Hi; discriminate.
  - rewrite planLoop_pages_unfold in H by assumption.
    destruct (E <? _) eqn:C.
    + apply Z.ltb_lt in C. inversion H. split.
      * rewrite (ceil_div_one (E - cur + 1) (dailyAmount g)) by lia.
        simpl List.length. lia.
      * intros [|i] a Hi; [|destruct i; discriminate].
        inversion Hi. unfold pageDay, newAssignment. cbn [fromPage toPage]. lia.
    + apply Z.ltb_ge in C. apply push_then_Returns in H. destruct H as [l' [Hl' ->]].
      assert (Hto : Z.min (cur + dailyAmount g - 1) E + 1 = cur + dailyAmount g) by lia.
      rewrite Hto in Hl'.
      assert (Hcur' : cur + dailyAmount g <= E) by lia.
      destruct (IH _ _ _ Hcur' Hl') as [Hlen Hnth]. split.
      * replace (E - (cur + dailyAmount g) + 1) with (E - cur + 1 - dailyAmount g) in Hlen by lia.
        rewrite ceil_div_step in Hlen by assumption.
        simpl List.length. lia.
      * intros [|i] a Hi.
        -- inversion Hi. unfold pageDay, newAssignment. cbn [fromPage toPage]. lia.
        -- simpl in Hi. destruct (Hnth _ _ Hi) as [Hf Ht]. split; [lia | assumption].
Qed.

End PlanLoopFacts.

(* ================================================================== *)
(** * [generatePlan] *)

Lemma generatePlan_dates (qm : QuranMeta) (gas : nat) (g : UserGoal) (r : DatesState) :
  calculateTotalUnits qm g <> 0 ->
  generateReadingDates_run gas g (calculateTotalUnits qm g) = Some r ->
  dates r <> [] ->
  generatePlan qm gas g =
    planLoop qm g (getEndingPage qm g) (getEndingAyah qm g)
             (getStartingPage qm g) (getStartingAyah qm g) (dates r).
Proof.
  intros Ht Hr Hne. unfold generatePlan, generateReadingDates.
  destruct (Z.eqb_spec (calculateTotalUnits qm g) 0); [contradiction|].
  rewrite Hr. simpl. destruct (dates r); [contradiction | reflexivity].
Qed.

(** What a returned plan is made of: the dates of a run of
    [generateReadingDates], unless it is empty. *)
Lemma generatePlan_Returns (qm : QuranMeta) (gas : nat) (g : UserGoal)
  (plan : list DailyAssignment) :
  generatePlan qm gas g = Returns plan ->
  plan = []
  \/ exists r, generateReadingDates_run gas g (calculateTotalUnits qm g) = Some r
       /\ planLoop qm g (getEndingPage qm g) (getEndingAyah qm g)
                   (getStartingPage qm g) (getStartingAyah qm g) (dates r) = Returns plan.
Proof.
  unfold generatePlan, generateReadingDates. intros H.
  destruct (calculateTotalUnits qm g =? 0); [left; congruence|].
  destruct (generateReadingDates_run gas g (calculateTotalUnits qm g)) as [r|];
    [|discriminate].
  simpl in H. destruct (dates r) eqn:D; [left; congruence|].
  right. exists r. split; [reflexivity|]. rewrite D. exact H.
Qed.

Lemma nth_error_last_exists {A : Type} (l : list A) :
  l <> [] -> exists a, nth_error l (List.length l - 1) = Some a.
Proof.
  intros Hne. destruct (nth_error l (List.length l - 1)) eqn:Hn; [eauto|].
  apply nth_error_None in Hn. destruct l; [contradiction | simpl in Hn; lia].
Qed.

(** C1. For a goal on the whole text in pages with a daily amount [d > 0],
    all seven weekdays selected and no deadline, [generatePlan] returns a
    plan of [ceil (604 / d)] assignments; assignment [i] covers the pages
    from the cursor [1 + i * d] to [min (cursor + d - 1, 604)]; the first one
    starts at page 1, the last one ends at page 604, and each one starts on
    the page after the end of the one before. *)
Theorem generatePlan_whole_quran_pages (qm : QuranMeta) (g : UserGoal) (t0 : Z) :
  target g = whole_quran -> unit g = u_pages -> 0 < dailyAmount g ->
  (forall w, 0 <= w <= 6 -> In w (daysOfWeek g)) ->
  deadline g = None -> startDate g = At t0 ->
  let d := dailyAmount g in
  let n := - ((- 604) / d) in
  ceil_div 604 d = XFin n /\
  exists plan,
    (forall gas, (Z.to_nat (n * 10) <= gas)%nat -> generatePlan qm gas g = Returns plan)
    /\ (forall gas plan', generatePlan qm gas g = Returns plan' -> plan' = plan)
    /\ Z.of_nat (List.length plan) = n
    /\ (forall i a, nth_error plan i = Some a ->
          fromPage a = 1 + Z.of_nat i * d /\ toPage a = Z.min (fromPage a + d - 1) 604)
    /\ (exists a, nth_error plan 0 = Some a /\ fromPage a = 1)
    /\ (exists a, nth_error plan (List.length plan - 1) = Some a /\ toPage a = 604)
    /\ (forall i a b, nth_error plan i = Some a -> nth_error plan (S i) = Some b ->
          fromPage b = toPage a + 1).
Proof.
  intros Htarget Hunit Hd Hweek Hdl Hstart d n.
  assert (Htotal : calculateTotalUnits qm g = 604).
  { unfold calculateTotalUnits. rewrite Htarget, Hunit. reflexivity. }
  assert (Hpages : unit g <> u_ayahs) by congruence.
  destruct (ceil_div_pos 604 d Hd) as [n' [Hceil [Hn' Hb]]].
  assert (n' = n) by (subst n; assumption). subst n'.
  split; [exact Hceil|].
  assert (Hsome : exists w, 0 <= w <= 6 /\ In w (daysOfWeek g)).
  { exists 0. split; [lia | apply Hweek; lia]. }
  assert (H604 : 0 < 604) by lia.
  destruct (readingDates_complete g 604 t0 Hd H604 Hsome Hdl Hstart)
    as [Hn [r [Hrun [Hinv [Hda Hit]]]]].
  fold d in Hn, Hrun, Hinv, Hda, Hit. fold n in Hn, Hrun, Hinv, Hda, Hit.
  destruct Hinv as [c [_ [Hlen _]]].
  assert (Hne : dates r <> []).
  { intros E. rewrite E in Hlen. simpl in Hlen. lia. }
  assert (Hstartp : getStartingPage qm g = 1).
  { unfold getStartingPage. rewrite Htarget. reflexivity. }
  assert (Hendp : getEndingPage qm g = 604).
  { unfold getEndingPage. rewrite Htarget. reflexivity. }
  destruct (planLoop_pages_returns qm g 604 (getEndingAyah qm g) Hpages
              (dates r) 1 (getStartingAyah qm g)) as [plan Hplan].
  assert (H1 : 1 <= 604) by lia.
  destruct (planLoop_pages_shape qm g 604 (getEndingAyah qm g) Hpages Hd
              (dates r) 1 (getStartingAyah qm g) plan H1 Hplan) as [Hplen Hnth].
  replace (604 - 1 + 1) with 604 in Hplen by lia.
  fold d in Hplen, Hnth. fold n in Hplen.
  assert (Hplen' : Z.of_nat (List.length plan) = n) by lia.
  assert (Hgen : forall gas r', generateReadingDates_run gas g 604 = Some r' ->
                 generatePlan qm gas g = Returns plan).
  { intros gas r' Hr'.
    assert (r' = r).
    { eapply datesLoop_deterministic; [exact Hr' | apply (Hrun (Z.to_nat (n * 10))); lia]. }
    subst r'. rewrite (generatePlan_dates qm gas g r); rewrite ?Htotal;
      try assumption; try lia.
    rewrite Hstartp, Hendp. exact Hplan. }
  exists plan. split.
  { intros gas Hgas. apply (Hgen gas r). apply Hrun. exact Hgas. }
  split.
  { intros gas plan' Hp'.
    assert (Hp'' := Hp'). unfold generatePlan, generateReadingDates in Hp''.
    rewrite Htotal in Hp''. simpl in Hp''.
    destruct (generateReadingDates_run gas g 604) as [r'|] eqn:Hr'; [|discriminate].
    rewrite (Hgen gas r' Hr') in Hp'. congruence. }
  split; [exact Hplen'|]. split; [exact Hnth|].
  assert (Hpne : plan <> []).
  { intros E. rewrite E in Hplen'. simpl in Hplen'. lia. }
  split.
  { destruct plan as [|a plan0]; [contradiction|]. exists a. split; [reflexivity|].
    destruct (Hnth 0%nat a eq_refl) as [Hf _]. simpl in Hf. lia. }
  split.
  { destruct (nth_error_last_exists plan Hpne) as [a Ha]. exists a. split; [exact Ha|].
    destruct (Hnth _ a Ha) as [Hf Ht].
    assert (Hlast : Z.of_nat (List.length plan - 1) = n - 1).
    { destruct plan; [contradiction|]. simpl List.length in *. lia. }
    rewrite Hlast in Hf. nia. }
  intros i a b Ha Hnext.
  destruct (Hnth _ a Ha) as [Hfa Hta]. destruct (Hnth _ b Hnext) as [Hfb _].
  assert (Hi : (S i < List.length plan)%nat).
  { apply nth_error_Some. congruence. }
  assert (Z.of_nat (S i) <= n - 1) by lia.
  replace (Z.of_nat (S i)) with (Z.of_nat i + 1) in * by lia.
  nia.
Qed.

Lemma everyDay_all (w : Z) : 0 <= w <= 6 -> In w Sample.everyDay.
Proof.
  intros Hw. unfold Sample.everyDay. simpl. lia.
Defined.

Lemma generatePlan_whole_quran_pages_witness :
  exists plan,
    generatePlan Sample.meta 1210 Sample.goalWhole5 = Returns plan
    /\ Z.of_nat (List.length plan) = 121
    /\ exists a, nth_error plan (List.length plan - 1) = Some a /\ toPage a = 604.
Proof.
  destruct (generatePlan_whole_quran_pages Sample.meta Sample.goalWhole5 Sample.jan1
              eq_refl eq_refl eq_refl everyDay_all eq_refl eq_refl)
    as [_ [plan [Hrun [_ [Hlen [_ [_ [Hlast _]]]]]]]].
  exists plan. split; [apply Hrun; vm_compute; lia|]. split; [exact Hlen | exact Hlast].
Defined.

(** C6. For a goal with a positive daily amount and a positive total, the
    enumeration of the reading dates returns within [10 * ceil (total /
    dailyAmount)] iterations of its loop. When moreover the set of weekdays
    is not empty (weekdays being 0 to 6), no deadline is set and the start
    date is a date, the loop ends before that cap is reached, with exactly
    [ceil (total / dailyAmount)] dates, which are strictly increasing, hence
    pairwise distinct, and all on selected weekdays. *)
Theorem generateReadingDates_cap_and_count (g : UserGoal) (total : Z) :
  0 < dailyAmount g -> 0 < total ->
  let n := - ((- total) / dailyAmount g) in
  totalDaysNeeded_of g total = XFin n
  /\ (forall gas, (Z.to_nat (10 * n) <= gas)%nat ->
        exists r, generateReadingDates_run gas g total = Some r
                  /\ generateReadingDates gas g total = Some (dates r)
                  /\ iterations r <= 10 * n)
  /\ (daysOfWeek g <> [] -> Forall (fun w => 0 <= w <= 6) (daysOfWeek g) ->
      deadline g = None -> forall t0, startDate g = At t0 ->
      forall gas r, generateReadingDates_run gas g total = Some r ->
        iterations r < 10 * n
        /\ daysAdded r = n
        /\ Z.of_nat (List.length (dates r)) = n
        /\ StronglySorted Z.lt (dates r)
        /\ NoDup (dates r)
        /\ Forall (fun t => includes (daysOfWeek g) (weekday t) = true) (dates r)).
Proof.
  intros Hd Ht. cbv zeta.
  destruct (ceil_div_pos total (dailyAmount g) Hd) as [n [Hceil [Hn' Hb]]].
  rewrite <- Hn'.
  assert (Hn : 1 <= n) by nia.
  split; [exact Hceil|]. split.
  - intros gas Hgas.
    unfold generateReadingDates, generateReadingDates_run, totalDaysNeeded_of.
    rewrite Hceil. cbv zeta. simpl mul_pos.
    destruct (datesLoop_terminates g (XFin n) (XFin (n * 10)) (n * 10) eq_refl
                gas (datesInit g)) as [r Hr].
    { unfold datesInit. simpl iterations. lia. }
    exists r. rewrite Hr. split; [reflexivity|]. split; [reflexivity|].
    assert (H0 : iterations (datesInit g) <= Z.max 0 (n * 10)).
    { unfold datesInit. simpl iterations. lia. }
    pose proof (datesLoop_iterations g (XFin n) (XFin (n * 10)) (n * 10) eq_refl
                  gas (datesInit g) r H0 Hr) as Hit.
    lia.
  - intros Hne Hrange Hdl t0 Hstart gas r Hr.
    assert (Hsome : exists w, 0 <= w <= 6 /\ In w (daysOfWeek g)).
    { destruct (daysOfWeek g) as [|w l]; [contradiction|].
      exists w. inversion Hrange; subst. split; [assumption | left; reflexivity]. }
    destruct (readingDates_complete g total t0 Hd Ht Hsome Hdl Hstart)
      as [_ [r0 [Hrun [Hinv [Hda Hit]]]]].
    rewrite <- Hn' in Hrun, Hinv, Hda, Hit.
    assert (r = r0).
    { unfold generateReadingDates_run in *.
      eapply datesLoop_deterministic; [exact Hr | apply (Hrun (Z.to_nat (n * 10))); lia]. }
    subst r0.
    destruct Hinv as [c [_ [Hlen [Hsort [Hall _]]]]].
    split; [lia|]. split; [assumption|]. split; [lia|]. split; [assumption|].
    split; [apply StronglySorted_lt_NoDup; assumption|].
    eapply Forall_impl; [|exact Hall]. simpl. intros a [_ Hq]. exact Hq.
Qed.

Lemma generateReadingDates_cap_and_count_witness :
  exists r, generateReadingDates_run 2020 Sample.goalTwiceAWeek 604 = Some r
            /\ iterations r < 2020
            /\ Z.of_nat (List.length (dates r)) = 202.
Proof.
  destruct (generateReadingDates_cap_and_count Sample.goalTwiceAWeek 604 eq_refl eq_refl)
    as [_ [Hcap Hcount]].
  destruct (Hcap 2020%nat) as [r [Hr _]]; [vm_compute; lia|].
  exists r. split; [exact Hr|].
  assert (Hdays : Forall (fun w => 0 <= w <= 6) (daysOfWeek Sample.goalTwiceAWeek)).
  { repeat constructor; simpl; lia. }
  assert (Hne : daysOfWeek Sample.goalTwiceAWeek <> []) by discriminate.
  destruct (Hcount Hne Hdays eq_refl Sample.jan1 eq_refl 2020%nat r Hr)
    as [Hit [_ [Hlen _]]].
  split; [exact Hit | exact Hlen].
Defined.

(* ================================================================== *)
(** * Reading dates under a deadline *)

Lemma deadlineInv_step (g : UserGoal) (dl : Z) (st : DatesState) :
  deadline g = Some (At dl) ->
  deadlineInv dl st -> deadlineInv dl (snd (datesBody g st)).
Proof.
  intros Hdl Hinv. unfold datesBody.
  destruct (currentDate st) as [|c]; [exact Hinv|].
  destruct (includes _ _); [|exact Hinv].
  unfold pastDeadline. rewrite Hdl. simpl.
  destruct (endOfDay dl <? c) eqn:C; [exact Hinv|].
  apply Z.ltb_ge in C. unfold deadlineInv. simpl.
  apply Forall_app. split; [exact Hinv | constructor; [exact C | constructor]].
Qed.

Lemma spanInv_step (g : UserGoal) (dl s0 span : Z) (st : DatesState) :
  deadline g = Some (At dl) ->
  endOfDay dl = s0 + span * msPerDay + (msPerDay - 1) ->
  spanInv s0 span st -> spanInv s0 span (snd (datesBody g st)).
Proof.
  intros Hdl Hend [[c [Hc Hlow]] [Hlen Hmax]].
  pose proof msPerDay_pos as Hms.
  unfold datesBody. rewrite Hc.
  destruct (includes _ _).
  - unfold pastDeadline. rewrite Hdl. simpl.
    destruct (endOfDay dl <? c) eqn:C.
    + unfold spanInv. simpl. split; [exists c; split; [reflexivity | exact Hlow]|].
      split; assumption.
    + apply Z.ltb_ge in C. unfold spanInv. simpl. split; [|split].
      * exists (c + msPerDay). split; [reflexivity | lia].
      * rewrite length_app. simpl. lia.
      * nia.
  - unfold spanInv. simpl. split; [|split; assumption].
    exists (c + msPerDay). split; [reflexivity | lia].
Qed.

(** On a selected weekday after the end of the deadline's day the loop is
    left at once, and the day is not taken. *)
Lemma datesLoop_break (g : UserGoal) (dl c : Z) (N M : xnum) (gas : nat) (st : DatesState) :
  deadline g = Some (At dl) ->
  currentDate st = At c -> includes (daysOfWeek g) (weekday c) = true ->
  endOfDay dl < c -> datesCond N M st = true ->
  datesLoop (S gas) g N M st
  = Some (mkDatesState (At c) (dates st) (daysAdded st) (iterations st + 1)).
Proof.
  intros Hdl Hc Hq Hlate Hcond. simpl. rewrite Hcond.
  unfold datesBody, pastDeadline. rewrite Hc, Hq, Hdl. simpl.
  apply Z.ltb_lt in Hlate. rewrite Hlate. reflexivity.
Qed.

(** The loop of [generatePlan] never uses gas. *)
Lemma planLoop_not_OutOfGas (qm : QuranMeta) (g : UserGoal) (E : Z) (ea : jsval) :
  forall ds cur ca, planLoop qm g E ea cur ca ds <> OutOfGas.
Proof.
  induction ds as [|dt rest IH]; intros cur ca; simpl; [discriminate|].
  assert (Hpush : forall a cur' ca',
            push_then a (planLoop qm g E ea cur' ca' rest) <> OutOfGas).
  { intros a cur' ca'. specialize (IH cur' ca').
    destruct (planLoop qm g E ea cur' ca' rest); simpl; congruence. }
  destruct (unit g); try (destruct (E <? _); [discriminate | apply Hpush]).
  destruct ca; [|discriminate]. destruct ea; [|discriminate].
  destruct (pastEndingAyah _ _); [discriminate | apply Hpush].
Qed.

(** With a daily amount other than 0, [generatePlan] comes to an end. *)
Lemma generatePlan_terminates (qm : QuranMeta) (g : UserGoal) :
  dailyAmount g <> 0 -> exists gas, generatePlan qm gas g <> OutOfGas.
Proof.
  intros Hd.
  set (total := calculateTotalUnits qm g).
  set (n := - ((- total) / dailyAmount g)).
  exists (Z.to_nat (n * 10)).
  unfold generatePlan. fold total.
  destruct (total =? 0); [discriminate|].
  unfold generateReadingDates, generateReadingDates_run, totalDaysNeeded_of, ceil_div.
  destruct (Z.eqb_spec (dailyAmount g) 0); [contradiction|]. fold n. cbv zeta. simpl mul_pos.
  destruct (datesLoop_terminates g (XFin n) (XFin (n * 10)) (n * 10) eq_refl
              (Z.to_nat (n * 10)) (datesInit g)) as [r Hr].
  { unfold datesInit. simpl iterations. lia. }
  rewrite Hr. simpl. destruct (dates r); [discriminate|].
  apply planLoop_not_OutOfGas.
Qed.

(** C5. For a goal with a deadline, every date of an assignment that
    [generatePlan] produces is at or before the end of the deadline's day:
    the enumeration of the dates is left as soon as a selected weekday falls
    after that instant, and this day is not taken. [generatePlan] does come
    to an end when the daily amount is not 0. In particular, for a start date D, the deadline D + 30 days, one page a
    day on every weekday over the whole text, the plan has at most 31
    assignments, none after the deadline. *)
Theorem generatePlan_within_deadline (qm : QuranMeta) (g : UserGoal) (dl : Z) :
  deadline g = Some (At dl) ->
  (forall gas plan, generatePlan qm gas g = Returns plan ->
     Forall (fun a => date a <= endOfDay dl) plan)
  /\ (forall N M gas st c,
        currentDate st = At c -> includes (daysOfWeek g) (weekday c) = true ->
        endOfDay dl < c -> datesCond N M st = true ->
        datesLoop (S gas) g N M st
        = Some (mkDatesState (At c) (dates st) (daysAdded st) (iterations st + 1)))
  /\ (dailyAmount g <> 0 -> exists gas, generatePlan qm gas g <> OutOfGas)
  /\ (forall t0, startDate g = At t0 -> dl = t0 + 30 * msPerDay ->
      dailyAmount g = 1 -> (forall w, 0 <= w <= 6 -> In w (daysOfWeek g)) ->
      target g = whole_quran -> unit g = u_pages ->
      exists plan,
        (forall gas, (6040 <= gas)%nat -> generatePlan qm gas g = Returns plan)
        /\ (List.length plan <= 31)%nat
        /\ Forall (fun a => date a <= endOfDay dl) plan).
Proof.
  intros Hdl.
  assert (Hsafe : forall gas plan, generatePlan qm gas g = Returns plan ->
                  Forall (fun a => date a <= endOfDay dl) plan).
  { intros gas plan Hplan.
    destruct (generatePlan_Returns qm gas g plan Hplan) as [-> | [r [Hr Hloop]]];
      [constructor|].
    assert (Hinv : deadlineInv dl r).
    { unfold generateReadingDates_run in Hr.
      eapply (datesLoop_invariant g _ _ (deadlineInv dl)); [| |exact Hr].
      - intros st Hst _. apply deadlineInv_step; assumption.
      - unfold deadlineInv, datesInit. simpl. constructor. }
    destruct (planLoop_dates qm g _ _ _ _ _ _ Hloop) as [_ Hin].
    unfold deadlineInv in Hinv. rewrite Forall_forall in Hinv.
    eapply Forall_impl; [|exact Hin]. simpl. intros a Ha. apply Hinv. exact Ha. }
  split; [exact Hsafe|].
  split; [intros N M gas st c; apply datesLoop_break; exact Hdl|].
  split; [apply generatePlan_terminates|].
  intros t0 Hstart Hdl30 Hd _ Htarget Hunit.
  assert (Htotal : calculateTotalUnits qm g = 604).
  { unfold calculateTotalUnits. rewrite Htarget, Hunit. reflexivity. }
  destruct (datesLoop_terminates g (XFin 604) (XFin 6040) 6040 eq_refl
              6040%nat (datesInit g)) as [r Hr].
  { unfold datesInit. simpl iterations. vm_compute. lia. }
  assert (Hrun : forall gas, (6040 <= gas)%nat ->
                 generateReadingDates_run gas g 604 = Some r).
  { intros gas Hgas. unfold generateReadingDates_run, totalDaysNeeded_of.
    rewrite Hd. simpl. eapply datesLoop_gas_mono; eassumption. }
  assert (Hspan : spanInv (startOfDay t0) 30 r).
  { eapply (datesLoop_invariant g _ _ (spanInv (startOfDay t0) 30)); [| |exact Hr].
    - intros st Hst _. eapply spanInv_step; [exact Hdl| |exact Hst].
      unfold endOfDay. rewrite Hdl30, startOfDay_shift. lia.
    - unfold spanInv, datesInit. rewrite Hstart. simpl. split; [|split; lia].
      exists (startOfDay t0). split; [reflexivity | lia]. }
  destruct Hspan as [_ [Hlen Hmax]].
  assert (Hlen31 : (List.length (dates r) <= 31)%nat) by lia.
  clear Hlen Hmax.
  assert (Hpages : unit g <> u_ayahs) by congruence.
  destruct (dates r) as [|d0 ds0] eqn:Hdates.
  - exists []. split; [|split; [simpl; lia | constructor]].
    intros gas Hgas. unfold generatePlan, generateReadingDates.
    rewrite Htotal, (Hrun gas Hgas). simpl. rewrite Hdates. reflexivity.
  - destruct (planLoop_pages_returns qm g (getEndingPage qm g) (getEndingAyah qm g) Hpages
                (dates r) (getStartingPage qm g) (getStartingAyah qm g)) as [plan Hplan].
    assert (Hgen : forall gas, (6040 <= gas)%nat -> generatePlan qm gas g = Returns plan).
    { intros gas Hgas. rewrite (generatePlan_dates qm gas g r); rewrite ?Htotal.
      - exact Hplan.
      - lia.
      - apply Hrun. exact Hgas.
      - rewrite Hdates. discriminate. }
    exists plan. split; [exact Hgen|]. split.
    + destruct (planLoop_dates qm g _ _ _ _ _ _ Hplan) as [Hle _].
      rewrite Hdates in Hle. lia.
    + apply (Hsafe 6040%nat). apply Hgen. lia.
Qed.

Lemma generatePlan_within_deadline_witness :
  exists plan,
    generatePlan Sample.meta 6040 Sample.goalDeadline = Returns plan
    /\ (List.length plan <= 31)%nat
    /\ Forall (fun a => date a <= endOfDay (Sample.jan1 + 30 * msPerDay)) plan.
Proof.
  destruct (generatePlan_within_deadline Sample.meta Sample.goalDeadline
              (Sample.jan1 + 30 * msPerDay) eq_refl) as [_ [_ [_ Hmonth]]].
  destruct (Hmonth Sample.jan1 eq_refl eq_refl eq_refl everyDay_all eq_refl eq_refl)
    as [plan [Hrun [Hlen Hall]]].
  exists plan. split; [apply Hrun; apply Nat.le_refl|]. split; [exact Hlen | exact Hall].
Defined.

(* ================================================================== *)
(** * Verse references written and read back *)

Ltac eval_digit :=
  match goal with
  | |- context [digit_of ?c] =>
      let v := eval vm_compute in (digit_of c) in change (digit_of c) with v
  end; cbv iota.

Lemma read_digits_acc (u : Decimal.uint) :
  forall acc, read_digits (Some (Z.pos acc)) (NilEmpty.string_of_uint u)
              = Some (Z.pos (Pos.of_uint_acc u acc)).
Proof.
  induction u; intros acc; cbn [NilEmpty.string_of_uint read_digits Pos.of_uint_acc];
    try reflexivity;
    eval_digit; rewrite <- IHu; f_equal; f_equal; lia.
Qed.

Lemma read_digits_zero (u : Decimal.uint) :
  read_digits (Some 0) (NilEmpty.string_of_uint u) = Some (Z.of_N (Pos.of_uint u)).
Proof.
  induction u; cbn [NilEmpty.string_of_uint read_digits Pos.of_uint];
    try reflexivity;
    eval_digit;
    first [ exact IHu
          | match goal with
            | |- read_digits (Some ?z) _ = _ =>
                let v := eval vm_compute in z in change z with v
            end; rewrite read_digits_acc; reflexivity ].
Qed.

Lemma read_digits_to_uint (p : positive) :
  read_digits None (NilEmpty.string_of_uint (Pos.to_uint p)) = Some (Z.pos p).
Proof.
  pose proof (Unsigned.of_to p) as Hp.
  pose proof (Unsigned.to_uint_nonnil p) as Hn.
  destruct (Pos.to_uint p) as [|u|u|u|u|u|u|u|u|u|u]; [contradiction| ..];
    cbn [NilEmpty.string_of_uint read_digits]; eval_digit.
  all: try (rewrite read_digits_acc; cbn [Pos.of_uint] in Hp; congruence).
  change (Pos.of_uint (Decimal.D0 u)) with (Pos.of_uint u) in Hp.
  rewrite read_digits_zero, Hp. reflexivity.
Qed.

(** The digits of a positive number, as [string_of_Z] writes them: not
    empty, and beginning with a digit. *)
Lemma string_of_pos (p : positive) :
  string_of_Z (Z.pos p) = NilEmpty.string_of_uint (Pos.to_uint p)
  /\ exists c rest, NilEmpty.string_of_uint (Pos.to_uint p) = String c rest
                    /\ is_space c = false /\ c <> "-"%char /\ c <> "+"%char.
Proof.
  unfold string_of_Z. cbn [Z.to_int NilZero.string_of_int].
  pose proof (Unsigned.to_uint_nonnil p) as Hn.
  destruct (Pos.to_uint p) as [|u|u|u|u|u|u|u|u|u|u]; [contradiction| ..];
    (split; [reflexivity|]);
    cbn [NilEmpty.string_of_uint]; eexists; eexists;
    (split; [reflexivity|]); (split; [reflexivity|]); split; discriminate.
Qed.

Lemma parseInt_digits (s : string) (c : ascii) (rest : string) :
  s = String c rest -> is_space c = false -> c <> "-"%char -> c <> "+"%char ->
  parseInt s = read_digits None s.
Proof.
  intros -> Hsp Hm Hp. unfold parseInt. cbn [skip_spaces]. rewrite Hsp.
  destruct c as [[|] [|] [|] [|] [|] [|] [|] [|]]; try reflexivity; congruence.
Qed.

Lemma parseInt_string_of_Z (z : Z) : parseInt (string_of_Z z) = Some z.
Proof.
  destruct z as [|p|p].
  - reflexivity.
  - destruct (string_of_pos p) as [E [c [rest [Hs [Hsp [Hm Hp]]]]]].
    rewrite E. rewrite (parseInt_digits _ c rest Hs Hsp Hm Hp).
    apply read_digits_to_uint.
  - unfold string_of_Z. cbn [Z.to_int NilZero.string_of_int].
    assert (E : NilZero.string_of_uint (Pos.to_uint p)
                = NilEmpty.string_of_uint (Pos.to_uint p)).
    { pose proof (Unsigned.to_uint_nonnil p) as Hn.
      destruct (Pos.to_uint p); [contradiction| ..]; reflexivity. }
    rewrite E. unfold parseInt. cbn [skip_spaces].
    change (is_space "-") with false. cbv iota.
    rewrite read_digits_to_uint. reflexivity.
Qed.

Lemma string_of_uint_free (u : Decimal.uint) :
  free_of ":" (NilEmpty.string_of_uint u) = true.
Proof. induction u; cbn [NilEmpty.string_of_uint free_of]; try reflexivity; exact IHu. Qed.

Lemma string_of_Z_free (z : Z) : free_of ":" (string_of_Z z) = true.
Proof.
  destruct z as [|p|p].
  - reflexivity.
  - destruct (string_of_pos p) as [E _]. rewrite E. apply string_of_uint_free.
  - unfold string_of_Z. cbn [Z.to_int NilZero.string_of_int].
    pose proof (Unsigned.to_uint_nonnil p) as Hn.
    cbn [free_of]. change (negb (Ascii.eqb "-" ":")) with true. cbn [andb].
    destruct (Pos.to_uint p) eqn:Eu; [contradiction| ..];
      unfold NilZero.string_of_uint; rewrite <- Eu; apply string_of_uint_free.
Qed.

Lemma split_on_free (sep : ascii) (s : string) :
  free_of sep s = true -> split_on sep s = [s].
Proof.
  induction s as [|x rest IH]; [reflexivity|].
  cbn [free_of split_on]. intros H. apply andb_true_iff in H. destruct H as [Hx Hr].
  apply negb_true_iff in Hx. rewrite Hx, (IH Hr). reflexivity.
Qed.

Lemma split_on_append (sep : ascii) (s1 s2 : string) :
  free_of sep s1 = true ->
  split_on sep (s1 ++ String sep s2)%string = s1 :: split_on sep s2.
Proof.
  induction s1 as [|x rest IH]; intros H.
  - cbn [String.append split_on]. rewrite Ascii.eqb_refl. reflexivity.
  - cbn [free_of] in H. apply andb_true_iff in H. destruct H as [Hx Hr].
    apply negb_true_iff in Hx.
    cbn [String.append split_on]. rewrite Hx, (IH Hr). reflexivity.
Qed.

(** A reference written by [ayahKey] is read back by [parseAyahReference]. *)
Lemma parseAyahReference_ayahKey (s a : Z) :
  parseAyahReference (ayahKey s a) = Some (mkAyahRef s a).
Proof.
  unfold parseAyahReference, ayahKey.
  change (":" ++ string_of_Z a)%string with (String ":" (string_of_Z a)).
  rewrite split_on_append by apply string_of_Z_free.
  rewrite split_on_free by apply string_of_Z_free.
  rewrite !parseInt_string_of_Z. reflexivity.
Qed.

(* ================================================================== *)
(** * [incrementAyah] and the verse branch of [generatePlan] *)

Section VerseFacts.

Variable qm : QuranMeta.

Lemma getSurahById_range (s : Z) (su : Surah) :
  getSurahById qm s = Some su -> 1 <= s <= 114.
Proof.
  unfold getSurahById, surah.
  destruct ((s <? 1) || (114 <? s)) eqn:R; [discriminate|].
  apply orb_false_iff in R. destruct R as [R1 R2].
  apply Z.ltb_ge in R1. apply Z.ltb_ge in R2. lia.
Qed.

Lemma incrementAyahLoop_S (fuel : nat) (s a r : Z) :
  incrementAyahLoop qm (S fuel) s a r =
    if (0 <? r) && (s <=? 114) then
      match getSurahById qm s with
      | None => (s, a)
      | Some su =>
          if r <=? su_ayahCount su - a then incrementAyahLoop qm fuel s (a + r) 0
          else incrementAyahLoop qm fuel (s + 1) 1 (r - (su_ayahCount su - a + 1))
      end
    else (s, a).
Proof. reflexivity. Qed.

Lemma incrementAyahLoop_done (fuel : nat) (s a : Z) :
  incrementAyahLoop qm fuel s a 0 = (s, a).
Proof. destruct fuel; reflexivity. Qed.

(** The loop never goes back to an earlier chapter. *)
Lemma incrementAyahLoop_chapter_ge :
  forall fuel s a r, s <= fst (incrementAyahLoop qm fuel s a r).
Proof.
  induction fuel as [|fuel IH]; intros s a r; simpl; [lia|].
  destruct ((0 <? r) && (s <=? 114)); [|simpl; lia].
  destruct (getSurahById qm s) as [su|]; [|simpl; lia].
  destruct (r <=? su_ayahCount su - a).
  - apply IH.
  - specialize (IH (s + 1) 1 (r - (su_ayahCount su - a + 1))). lia.
Qed.

(** Within the chapter the verse number moves on by [r]. *)
Lemma incrementAyah_within (s a r : Z) (su : Surah) :
  getSurahById qm s = Some su -> 0 <= r <= su_ayahCount su - a ->
  incrementAyah qm (ayahKey s a) r = ayahKey s (a + r).
Proof.
  intros Hsu Hr. pose proof (getSurahById_range s su Hsu) as Hs.
  unfold incrementAyah. rewrite parseAyahReference_ayahKey. cbn [surahId ayahNumber].
  change 116%nat with (S 115). rewrite incrementAyahLoop_S.
  destruct (0 <? r) eqn:R0.
  - apply Z.ltb_lt in R0.
    replace (s <=? 114) with true by (symmetry; apply Z.leb_le; lia).
    cbn [andb]. rewrite Hsu.
    replace (r <=? su_ayahCount su - a) with true by (symmetry; apply Z.leb_le; lia).
    rewrite incrementAyahLoop_done. reflexivity.
  - apply Z.ltb_ge in R0. cbn [andb]. f_equal. lia.
Qed.

(** Past the last verse of the chapter the result is in a later chapter. *)
Lemma incrementAyah_beyond (s a r : Z) (su : Surah) :
  getSurahById qm s = Some su -> 0 < r -> su_ayahCount su - a < r ->
  exists s' a', incrementAyah qm (ayahKey s a) r = ayahKey s' a' /\ s + 1 <= s'.
Proof.
  intros Hsu Hr Hbig. pose proof (getSurahById_range s su Hsu) as Hs.
  unfold incrementAyah. rewrite parseAyahReference_ayahKey. cbn [surahId ayahNumber].
  change 116%nat with (S 115). rewrite incrementAyahLoop_S.
  replace (0 <? r) with true by (symmetry; apply Z.ltb_lt; lia).
  replace (s <=? 114) with true by (symmetry; apply Z.leb_le; lia).
  cbn [andb]. rewrite Hsu.
  replace (r <=? su_ayahCount su - a) with false by (symmetry; apply Z.leb_gt; lia).
  pose proof (incrementAyahLoop_chapter_ge 115 (s + 1) 1 (r - (su_ayahCount su - a + 1))) as Hge.
  destruct (incrementAyahLoop qm 115 (s + 1) 1 (r - (su_ayahCount su - a + 1))) as [s' a'].
  exists s', a'. split; [reflexivity | exact Hge].
Qed.

(** From any reference, [incrementAyah] gives a reference of the same or a
    later chapter. *)
Lemma incrementAyah_chapter_ge (s a r : Z) :
  exists s' a', incrementAyah qm (ayahKey s a) r = ayahKey s' a' /\ s <= s'.
Proof.
  unfold incrementAyah. rewrite parseAyahReference_ayahKey. cbn [surahId ayahNumber].
  pose proof (incrementAyahLoop_chapter_ge 116 s a r) as Hge.
  destruct (incrementAyahLoop qm 116 s a r) as [s' a'].
  exists s', a'. split; [reflexivity | exact Hge].
Qed.

Lemma pastEndingAyah_keys (n c s a : Z) :
  pastEndingAyah (ayahKey n c) (ayahKey s a) = (n <? s) || ((s =? n) && (c <? a)).
Proof.
  unfold pastEndingAyah. rewrite !parseAyahReference_ayahKey. reflexivity.
Qed.

Variable g : UserGoal.
Variable n : Z.
Variable su : Surah.
Variable E : Z.

Hypothesis verse_unit : unit g = u_ayahs.
Hypothesis amount_pos : 0 < dailyAmount g.
Hypothesis chapter_known : getSurahById qm n = Some su.

(** The verse branch over chapter [n], from the verse [k] of the chapter:
    the loop returns; day [i] starts at the verse [k + i * d], which is in
    the chapter, and ends [d - 1] verses later when that is in the chapter
    too. *)
Lemma planLoop_verses :
  forall ds k cp, k <= su_ayahCount su ->
  exists l,
    planLoop qm g E (JStr (ayahKey n (su_ayahCount su))) cp (JStr (ayahKey n k)) ds
    = Returns l
    /\ forall i a, nth_error l i = Some a ->
         fromAyah a = ayahKey n (k + Z.of_nat i * dailyAmount g)
         /\ k + Z.of_nat i * dailyAmount g <= su_ayahCount su
         /\ (k + Z.of_nat i * dailyAmount g + dailyAmount g - 1 <= su_ayahCount su ->
             toAyah a = ayahKey n (k + Z.of_nat i * dailyAmount g + dailyAmount g - 1)).
Proof.
  set (c := su_ayahCount su). set (d := dailyAmount g).
  induction ds as [|dt rest IH]; intros k cp Hk.
  - exists []. split; [reflexivity|]. intros [|i] a Hi; discriminate.
  - cbn [planLoop]. rewrite verse_unit. fold d.
    set (to := incrementAyah qm (ayahKey n k) (d - 1)).
    set (a0 := newAssignment dt (ayahKey n k) to (pageOfRef qm (ayahKey n k)) (pageOfRef qm to)).
    destruct (Z_le_gt_dec (k + d - 1) c) as [Hin | Hout].
    + (* the day ends inside the chapter *)
      assert (Hto : to = ayahKey n (k + d - 1)).
      { unfold to. rewrite (incrementAyah_within n k (d - 1) su chapter_known) by (fold c; lia).
        f_equal. lia. }
      assert (Ha0 : fromAyah a0 = ayahKey n (k + Z.of_nat 0 * d)
                    /\ k + Z.of_nat 0 * d <= c
                    /\ (k + Z.of_nat 0 * d + d - 1 <= c ->
                        toAyah a0 = ayahKey n (k + Z.of_nat 0 * d + d - 1))).
      { unfold a0, newAssignment. cbn [fromAyah toAyah]. rewrite Hto.
        replace (k + Z.of_nat 0 * d) with k by lia.
        split; [reflexivity|]. split; [lia|]. intros _. reflexivity. }
      destruct (Z_le_gt_dec (k + d) c) as [Hmore | Hlast].
      * assert (Hnext : incrementAyah qm to 1 = ayahKey n (k + d)).
        { rewrite Hto.
          rewrite (incrementAyah_within n (k + d - 1) 1 su chapter_known) by (fold c; lia).
          f_equal. lia. }
        rewrite Hnext. fold c. rewrite pastEndingAyah_keys.
        rewrite Z.ltb_irrefl, Z.eqb_refl.
        replace (c <? k + d) with false by (symmetry; apply Z.ltb_ge; lia).
        cbn [orb andb].
        destruct (IH (k + d) cp Hmore) as [l [Hl Hnth]].
        rewrite Hl. cbn [push_then]. exists (a0 :: l). split; [reflexivity|].
        intros [|i] a Hi.
        -- inversion Hi. subst a. exact Ha0.
        -- cbn [nth_error] in Hi. destruct (Hnth i a Hi) as [Hf [Hle Ht]].
           replace (k + Z.of_nat (S i) * d) with (k + d + Z.of_nat i * d) by lia.
           repeat split; assumption.
      * assert (Hnext : exists s' a', incrementAyah qm to 1 = ayahKey s' a' /\ n + 1 <= s').
        { rewrite Hto.
          apply (incrementAyah_beyond n (k + d - 1) 1 su chapter_known); [lia | fold c; lia]. }
        destruct Hnext as [s' [a' [Hnext Hs']]].
        rewrite Hnext. fold c. rewrite pastEndingAyah_keys.
        replace (n <? s') with true by (symmetry; apply Z.ltb_lt; lia).
        cbn [orb]. exists [a0]. split; [reflexivity|].
        intros [|i] a Hi; [|destruct i; discriminate].
        inversion Hi. subst a. exact Ha0.
    + (* the day runs over the end of the chapter *)
      assert (Hto : exists s' a', to = ayahKey s' a' /\ n + 1 <= s').
      { unfold to.
        apply (incrementAyah_beyond n k (d - 1) su chapter_known); [lia | fold c; lia]. }
      destruct Hto as [s' [a' [Hto Hs']]].
      destruct (incrementAyah_chapter_ge s' a' 1) as [s'' [a'' [Hnext Hs'']]].
      rewrite Hto, Hnext. fold c. rewrite pastEndingAyah_keys.
      replace (n <? s'') with true by (symmetry; apply Z.ltb_lt; lia).
      cbn [orb]. exists [a0]. split; [reflexivity|].
      intros [|i] a Hi; [|destruct i; discriminate].
      inversion Hi. subst a.
      unfold a0, newAssignment. cbn [fromAyah toAyah].
      replace (k + Z.of_nat 0 * d) with k by lia.
      split; [reflexivity|]. split; lia.
Qed.

End VerseFacts.

(* ================================================================== *)
(** * The ranges of the assignments and the scope of the goal *)

Lemma goal_invariants_amount (g : UserGoal) : goal_invariants g -> 0 < dailyAmount g.
Proof. intros [H _]. exact H. Qed.

(** The budget of [incrementAyahLoop] is never used up: every run of the
    loop body that goes on moves to the next chapter, and [getSurahById]
    knows no chapter outside 1 to 114. *)
Lemma incrementAyahLoop_budget (qm : QuranMeta) :
  forall fuel s a r,
    (1 <= fuel)%nat -> (Z.to_nat (116 - Z.max 1 s) <= fuel)%nat ->
    incrementAyahLoop qm (S fuel) s a r = incrementAyahLoop qm fuel s a r.
Proof.
  induction fuel as [|fuel IH]; intros s a r H1 Hfuel; [lia|].
  remember (S fuel) as f eqn:Ef.
  rewrite Ef at 2. simpl.
  destruct ((0 <? r) && (s <=? 114)) eqn:C; [|reflexivity].
  apply andb_true_iff in C. destruct C as [Cr Cs]. apply Z.leb_le in Cs.
  unfold getSurahById, surah.
  destruct ((s <? 1) || (114 <? s)) eqn:R; [reflexivity|].
  apply orb_false_iff in R. destruct R as [R1 R2]. apply Z.ltb_ge in R1.
  destruct (getSurahMeta qm s) as [m|]; [|reflexivity].
  cbn [su_ayahCount].
  destruct (r <=? sm_ayahCount m - a).
  - subst f. destruct fuel as [|fuel']; simpl; rewrite ?Z.ltb_irrefl; reflexivity.
  - subst f. apply IH; lia.
Qed.

Lemma incrementAyahLoop_more_fuel (qm : QuranMeta) (extra : nat) (s a r : Z) :
  incrementAyahLoop qm (116 + extra) s a r = incrementAyahLoop qm 116 s a r.
Proof.
  induction extra as [|extra IH]; [f_equal; lia|].
  replace (116 + S extra)%nat with (S (116 + extra)) by lia.
  rewrite incrementAyahLoop_budget; [exact IH | lia | lia].
Qed.

(** How a call of [generatePlan] ends: out of gas, with the empty plan, or
    as the loop over the dates of a run of [generateReadingDates]. *)
Lemma generatePlan_cases (qm : QuranMeta) (gas : nat) (g : UserGoal) :
  generatePlan qm gas g = OutOfGas
  \/ generatePlan qm gas g = Returns []
  \/ exists r, generatePlan qm gas g
               = planLoop qm g (getEndingPage qm g) (getEndingAyah qm g)
                   (getStartingPage qm g) (getStartingAyah qm g) (dates r).
Proof.
  unfold generatePlan, generateReadingDates.
  destruct (calculateTotalUnits qm g =? 0); [right; left; reflexivity|].
  destruct (generateReadingDates_run gas g (calculateTotalUnits qm g)) as [r|];
    [|left; reflexivity].
  simpl. destruct (dates r) eqn:D; [right; left; reflexivity|].
  right. right. exists r. rewrite D. reflexivity.
Qed.

Lemma goal_invariants_chapter (g : UserGoal) (n : Z) :
  goal_invariants g -> target g = specific_surah -> targetValue g = Some n ->
  1 <= n <= 114 /\ targetValue_truthy g = Some n.
Proof.
  intros [_ [_ [_ [_ Ht]]]] Htarget Hn. rewrite Htarget in Ht.
  destruct Ht as [n' [Hn' Hr]]. assert (n' = n) by congruence. subst n'.
  split; [exact Hr|]. unfold targetValue_truthy. rewrite Hn.
  destruct (Z.eqb_spec n 0); [lia | reflexivity].
Qed.

(** C3, as amended. For a goal that satisfies the invariants of the data
    model:
    - in page, part or chapter units, over a scope whose first page is not
      after its last page, [generatePlan] returns, and every assignment has
      a page range inside the pages of the scope, with [fromPage <= toPage],
      and carries the first verse of its first page and the last verse of
      its last page;
    - in verse units over a chapter that the index knows, with at least one
      verse, [generatePlan] returns, the scope runs from verse 1 to the last
      verse of the chapter, day [i] starts at the verse [1 + i * d] of the
      chapter, which is in the scope, and a day whose [d] verses fit in the
      chapter ends at its [d]-th verse and lies within the scope. *)
Theorem generatePlan_ranges_within_scope (qm : QuranMeta) (g : UserGoal) :
  goal_invariants g ->
  (unit g <> u_ayahs -> getStartingPage qm g <= getEndingPage qm g ->
   (forall gas plan, generatePlan qm gas g = Returns plan ->
      Forall (fun a => getStartingPage qm g <= fromPage a
                       /\ fromPage a <= toPage a
                       /\ toPage a <= getEndingPage qm g
                       /\ (fromAyah a, toAyah a)
                          = getAyahsForPageRange qm (fromPage a) (toPage a)) plan)
   /\ (exists gas plan, generatePlan qm gas g = Returns plan))
  /\ (forall n su,
        unit g = u_ayahs -> target g = specific_surah -> targetValue g = Some n ->
        getSurahById qm n = Some su -> 1 <= su_ayahCount su ->
        getStartingAyah qm g = JStr (ayahKey n 1)
        /\ getEndingAyah qm g = JStr (ayahKey n (su_ayahCount su))
        /\ (forall gas plan, generatePlan qm gas g = Returns plan ->
            forall i a, nth_error plan i = Some a ->
              let first := 1 + Z.of_nat i * dailyAmount g in
              fromAyah a = ayahKey n first
              /\ first <= su_ayahCount su
              /\ (first + dailyAmount g - 1 <= su_ayahCount su ->
                  toAyah a = ayahKey n (first + dailyAmount g - 1)
                  /\ within_scope (ayahKey n 1) (ayahKey n (su_ayahCount su)) a = true))
        /\ (exists gas plan, generatePlan qm gas g = Returns plan)).
Proof.
  intros Hinv.
  pose proof (goal_invariants_amount g Hinv) as Hd.
  assert (Hd0 : dailyAmount g <> 0) by lia.
  split.
  - intros Hunit Hpages. split.
    + intros gas plan Hplan.
      destruct (generatePlan_Returns qm gas g plan Hplan) as [-> | [r [_ Hloop]]];
        [constructor|].
      pose proof (planLoop_pages_bounds qm g _ _ Hunit Hd _ _ _ _ Hpages Hloop) as Hb.
      eapply Forall_impl; [|exact Hb]. simpl. intros a H. tauto.
    + destruct (generatePlan_terminates qm g Hd0) as [gas Hgas].
      exists gas.
      destruct (generatePlan_cases qm gas g) as [H | [H | [r H]]];
        [contradiction | eauto |].
      destruct (planLoop_pages_returns qm g (getEndingPage qm g) (getEndingAyah qm g) Hunit
                  (dates r) (getStartingPage qm g) (getStartingAyah qm g)) as [l Hl].
      exists l. congruence.
  - intros n su Hunit Htarget Hn Hsu Hcount.
    destruct (goal_invariants_chapter g n Hinv Htarget Hn) as [Hrange Htv].
    assert (Hstart : getStartingAyah qm g = JStr (ayahKey n 1)).
    { unfold getStartingAyah. rewrite Htarget, Htv. reflexivity. }
    assert (Hend : getEndingAyah qm g = JStr (ayahKey n (su_ayahCount su))).
    { unfold getEndingAyah. rewrite Htarget, Htv, Hsu. reflexivity. }
    assert (Hloop : forall r, exists l,
              planLoop qm g (getEndingPage qm g) (getEndingAyah qm g)
                       (getStartingPage qm g) (getStartingAyah qm g) (dates r) = Returns l
              /\ forall i a, nth_error l i = Some a ->
                   fromAyah a = ayahKey n (1 + Z.of_nat i * dailyAmount g)
                   /\ 1 + Z.of_nat i * dailyAmount g <= su_ayahCount su
                   /\ (1 + Z.of_nat i * dailyAmount g + dailyAmount g - 1 <= su_ayahCount su ->
                       toAyah a
                       = ayahKey n (1 + Z.of_nat i * dailyAmount g + dailyAmount g - 1))).
    { intros r. rewrite Hstart, Hend.
      apply (planLoop_verses qm g n su (getEndingPage qm g) Hunit Hd Hsu
               (dates r) 1 (getStartingPage qm g) Hcount). }
    split; [exact Hstart|]. split; [exact Hend|]. split.
    + intros gas plan Hplan i a Hi first.
      destruct (generatePlan_Returns qm gas g plan Hplan) as [-> | [r [_ Hr]]];
        [destruct i; discriminate|].
      destruct (Hloop r) as [l [Hl Hnth]].
      assert (l = plan) by congruence. subst l.
      destruct (Hnth i a Hi) as [Hfrom [Hle Hto]]. fold first in Hfrom, Hle, Hto.
      split; [exact Hfrom|]. split; [exact Hle|].
      intros Hfit. specialize (Hto Hfit). split; [exact Hto|].
      unfold within_scope. rewrite Hfrom, Hto, !parseAyahReference_ayahKey.
      unfold ref_le. cbn [surahId ayahNumber].
      rewrite Z.ltb_irrefl, Z.eqb_refl. cbn [orb andb].
      assert (0 <= Z.of_nat i * dailyAmount g) by nia.
      replace (1 <=? first) with true by (symmetry; apply Z.leb_le; subst first; lia).
      replace (first <=? first + dailyAmount g - 1) with true
        by (symmetry; apply Z.leb_le; lia).
      replace (first + dailyAmount g - 1 <=? su_ayahCount su) with true
        by (symmetry; apply Z.leb_le; lia).
      reflexivity.
    + destruct (generatePlan_terminates qm g Hd0) as [gas Hgas].
      exists gas.
      destruct (generatePlan_cases qm gas g) as [H | [H | [r H]]];
        [contradiction | eauto |].
      destruct (Hloop r) as [l [Hl _]]. exists l. congruence.
Qed.

Lemma goalSurah113_invariants : goal_invariants Sample.goalSurah113.
Proof.
  unfold goal_invariants, Sample.goalSurah113. simpl.
  split; [lia|]. split; [discriminate|]. split.
  { unfold Sample.everyDay. repeat constructor; lia. }
  split.
  { exists Sample.jan1. split; [reflexivity | exact I]. }
  exists 113. split; [reflexivity | lia].
Defined.

Lemma goalFatiha5_invariants : goal_invariants Sample.goalFatiha5.
Proof.
  unfold goal_invariants, Sample.goalFatiha5. simpl.
  split; [lia|]. split; [discriminate|]. split.
  { unfold Sample.everyDay. repeat constructor; lia. }
  split.
  { exists Sample.jan1. split; [reflexivity | exact I]. }
  exists 1. split; [reflexivity | lia].
Defined.

Lemma generatePlan_ranges_within_scope_witness :
  (exists plan,
     generatePlan Sample.meta 10 Sample.goalSurah113 = Returns plan
     /\ Forall (fun a => 604 <= fromPage a /\ fromPage a <= toPage a /\ toPage a <= 604) plan)
  /\ (forall gas plan, generatePlan Sample.meta gas Sample.goalFatiha5 = Returns plan ->
      forall a, nth_error plan 0 = Some a ->
        fromAyah a = "1:1" /\ toAyah a = "1:5" /\ within_scope "1:1" "1:7" a = true).
Proof.
  split.
  - destruct (generatePlan_ranges_within_scope Sample.meta Sample.goalSurah113
                goalSurah113_invariants) as [Hpages _].
    destruct (Hpages ltac:(discriminate) ltac:(vm_compute; discriminate)) as [Hsafe _].
    exists [mkAssignment Sample.jan1 "112:1" "114:6" 604 604 false false].
    split; [vm_compute; reflexivity|].
    specialize (Hsafe 10%nat _ ltac:(vm_compute; reflexivity)).
    eapply Forall_impl; [|exact Hsafe]. simpl. intros a H.
    replace (getStartingPage Sample.meta Sample.goalSurah113) with 604 in H
      by (vm_compute; reflexivity).
    replace (getEndingPage Sample.meta Sample.goalSurah113) with 604 in H
      by (vm_compute; reflexivity).
    tauto.
  - destruct (generatePlan_ranges_within_scope Sample.meta Sample.goalFatiha5
                goalFatiha5_invariants) as [_ Hverses].
    destruct (Hverses 1 (mkSurah 1 7 1 1) eq_refl eq_refl eq_refl
                ltac:(vm_compute; reflexivity) ltac:(vm_compute; discriminate))
      as [_ [_ [Hsafe _]]].
    intros gas plan Hplan a Ha.
    destruct (Hsafe gas plan Hplan 0%nat a Ha) as [Hfrom [_ Hfit]].
    destruct (Hfit ltac:(vm_compute; discriminate)) as [Hto Hin].
    split; [exact Hfrom|]. split; [exact Hto | exact Hin].
Defined.

(** C3, as first stated, fails: chapter 113 is read in pages as the whole of
    page 604, from the first verse of chapter 112 to the last verse of
    chapter 114, outside the scope 113:1 to 113:5. *)
Lemma generatePlan_verses_outside_scope :
  goal_invariants Sample.goalSurah113
  /\ validateGoal Sample.goalSurah113 = (true, [])
  /\ getStartingAyah Sample.meta Sample.goalSurah113 = JStr "113:1"
  /\ getEndingAyah Sample.meta Sample.goalSurah113 = JStr "113:5"
  /\ generatePlan Sample.meta 10 Sample.goalSurah113
     = Returns [mkAssignment Sample.jan1 "112:1" "114:6" 604 604 false false]
  /\ within_scope "113:1" "113:5"
       (mkAssignment Sample.jan1 "112:1" "114:6" 604 604 false false) = false.
Proof.
  split; [exact goalSurah113_invariants|].
  repeat split; vm_compute; reflexivity.
Qed.

(** In verse units the last day runs over the end of the scope: chapter 1
    has seven verses, and at five verses a day the second day is given 1:6
    to 2:3; chapter 114 at four verses a day ends on the reference 115:1. *)
Lemma generatePlan_verses_overshoot :
  generatePlan Sample.meta 20 Sample.goalFatiha5
  = Returns [mkAssignment Sample.jan1 "1:1" "1:5" 1 1 false false;
             mkAssignment (Sample.jan1 + msPerDay) "1:6" "2:3" 1 2 false false]
  /\ generatePlan Sample.meta 20 Sample.goalNas4
  = Returns [mkAssignment Sample.jan1 "114:1" "114:4" 604 604 false false;
             mkAssignment (Sample.jan1 + msPerDay) "114:5" "115:1" 604 1 false false].
Proof. split; vm_compute; reflexivity. Qed.

(** A part read in verses: the starting verse of the goal is a number, and
    [incrementAyah] raises on it. *)
Lemma generatePlan_juz_verses_throws :
  getStartingAyah Sample.meta Sample.goalJuz2Ayahs = JNum 142
  /\ forall gas, (1 <= gas)%nat -> generatePlan Sample.meta gas Sample.goalJuz2Ayahs = Throws.
Proof.
  split; [vm_compute; reflexivity|].
  intros gas Hgas.
  assert (H1 : generateReadingDates_run 1 Sample.goalJuz2Ayahs 1
               = Some (mkDatesState (At (Sample.jan1 + msPerDay)) [Sample.jan1] 1 1)).
  { vm_compute. reflexivity. }
  assert (Ht : calculateTotalUnits Sample.meta Sample.goalJuz2Ayahs = 1).
  { vm_compute. reflexivity. }
  rewrite (generatePlan_dates Sample.meta gas Sample.goalJuz2Ayahs
             (mkDatesState (At (Sample.jan1 + msPerDay)) [Sample.jan1] 1 1)).
  - vm_compute. reflexivity.
  - rewrite Ht. discriminate.
  - rewrite Ht. unfold generateReadingDates_run in *.
    eapply datesLoop_gas_mono; [exact H1 | exact Hgas].
  - discriminate.
Qed.

(* ================================================================== *)
(** * Degenerate goals *)

(** The goals that resolve to a total of zero: an unknown kind of target,
    and a part or a chapter whose index is missing or unknown to the
    index. *)
Lemma calculateTotalUnits_unresolved (qm : QuranMeta) (g : UserGoal) :
  target g = other_target
  \/ (isSpecific (target g) = true /\ targetValue_truthy g = None)
  \/ (exists tv, targetValue_truthy g = Some tv
       /\ ((target g = specific_juz /\ getJuzById qm tv = None)
           \/ (target g = specific_surah /\ getSurahById qm tv = None))) ->
  calculateTotalUnits qm g = 0.
Proof.
  unfold calculateTotalUnits.
  intros [H | [[Hs Hn] | [tv [Htv [[Ht Hj] | [Ht Hj]]]]]].
  - rewrite H. reflexivity.
  - rewrite Hn. destruct (target g); try discriminate; reflexivity.
  - rewrite Ht, Htv, Hj. reflexivity.
  - rewrite Ht, Htv, Hj. reflexivity.
Qed.

(** A total of zero gives the empty plan, whatever the budget. *)
Lemma generatePlan_zero_total (qm : QuranMeta) (g : UserGoal) (gas : nat) :
  calculateTotalUnits qm g = 0 -> generatePlan qm gas g = Returns [].
Proof. intros H. unfold generatePlan. rewrite H. reflexivity. Qed.


(** When no weekday is selected and the daily amount is not 0, the
    enumeration returns no date after using up its cap. *)
Lemma generateReadingDates_no_weekday (g : UserGoal) (total : Z) :
  daysOfWeek g = [] -> dailyAmount g <> 0 ->
  exists gas, generateReadingDates gas g total = Some [].
Proof.
  intros Hdays Hd.
  set (n := - ((- total) / dailyAmount g)).
  exists (Z.to_nat (n * 10)).
  unfold generateReadingDates, generateReadingDates_run, totalDaysNeeded_of, ceil_div.
  destruct (Z.eqb_spec (dailyAmount g) 0); [contradiction|]. fold n. cbv zeta. simpl mul_pos.
  destruct (datesLoop_terminates g (XFin n) (XFin (n * 10)) (n * 10) eq_refl
              (Z.to_nat (n * 10)) (datesInit g)) as [r Hr].
  { unfold datesInit. simpl iterations. lia. }
  rewrite Hr. simpl. f_equal.
  apply (datesLoop_invariant g _ _ (fun st => dates st = []) ) with (3 := Hr);
    [|reflexivity].
  intros st Hst _. unfold datesBody.
  destruct (currentDate st); [exact Hst|].
  rewrite Hdays. simpl. exact Hst.
Qed.

(** With a daily amount of 0 the cap of the loop is infinite; when moreover
    no weekday is selected the loop is never left. *)
Lemma datesLoop_no_cap_no_weekday (g : UserGoal) :
  daysOfWeek g = [] ->
  forall gas st, datesLoop gas g XPosInf XPosInf st = None.
Proof.
  intros Hdays. induction gas as [|gas IH]; intros st; simpl; [reflexivity|].
  unfold datesBody. destruct (currentDate st); [apply IH|].
  rewrite Hdays. simpl. apply IH.
Qed.

(** C8, at the goal it fails on: the whole text in pages with a daily amount
    of 0 and no weekday selected. No date qualifies, and [generatePlan] does
    not return, whatever the number of iterations it is given. *)
Theorem generatePlan_zero_amount_never_returns :
  forall qm gas, generatePlan qm gas Sample.goalZero = OutOfGas.
Proof.
  intros qm gas. unfold generatePlan.
  change (calculateTotalUnits qm Sample.goalZero) with 604.
  change (604 =? 0) with false. cbv iota.
  unfold generateReadingDates, generateReadingDates_run.
  change (totalDaysNeeded_of Sample.goalZero 604) with XPosInf.
  cbv zeta. change (mul_pos XPosInf 10) with XPosInf.
  rewrite datesLoop_no_cap_no_weekday by reflexivity.
  reflexivity.
Qed.

(* ================================================================== *)
(** * [validateGoal] *)

Lemma validateGoal_valid (g : UserGoal) :
  fst (validateGoal g) = (List.length (snd (validateGoal g)) =? 0)%nat.
Proof. reflexivity. Qed.

Lemma validateGoal_errors (g : UserGoal) : snd (validateGoal g) = expected_errors g.
Proof.
  unfold validateGoal, expected_errors, validation_rules, push_if.
  cbv zeta. cbn [snd].
  destruct (target g); destruct (targetValue_truthy g) as [tv|];
    destruct (daysOfWeek g); destruct (startDate g);
    destruct (deadline g) as [[|dl]|]; cbn;
    repeat match goal with
           | |- context [?a <? ?b] => destruct (a <? b)
           | |- context [?a <=? ?b] => destruct (a <=? b)
           end; reflexivity.
Qed.

(** C4. [validateGoal] is a total function of the goal. Its errors are the
    messages of all the violated rules, in the order of the checks: no
    weekday; invalid start date; invalid deadline, or else a deadline before
    the start date; a daily amount that is not positive; for a part or a
    chapter, an index that is missing, or else out of 1..30 or 1..114. The
    goal is valid exactly when there is no error. *)
Theorem validateGoal_reports_every_violation (g : UserGoal) :
  snd (validateGoal g) = expected_errors g
  /\ (fst (validateGoal g) = true <-> snd (validateGoal g) = []).
Proof.
  split; [apply validateGoal_errors|].
  rewrite validateGoal_valid.
  destruct (snd (validateGoal g)); simpl; split; congruence.
Qed.

Example validateGoal_all_at_once :
  validateGoal Sample.goalBroken
  = (false, [err_days; err_start; err_deadline; err_amount; err_required]).
Proof. reflexivity. Qed.

(* ================================================================== *)
(** * [parseAyahReference] *)

(** Anything but two fields is rejected. *)
Lemma parseAyahReference_two_fields (s : string) :
  List.length (split_on ":" s) <> 2%nat -> parseAyahReference s = None.
Proof.
  unfold parseAyahReference. intros H.
  destruct (split_on ":" s) as [|p0 [|p1 [|p2 l]]]; try reflexivity.
  simpl in H. congruence.
Qed.

(** What is accepted: two fields that each begin, after white space and a
    sign, with a digit. *)
Lemma parseAyahReference_Some (s : string) (r : AyahRef) :
  parseAyahReference s = Some r <->
  exists p0 p1, split_on ":" s = [p0; p1]
                /\ parseInt p0 = Some (surahId r) /\ parseInt p1 = Some (ayahNumber r).
Proof.
  unfold parseAyahReference. split.
  - destruct (split_on ":" s) as [|p0 [|p1 [|p2 l]]]; try discriminate.
    destruct (parseInt p0) as [a|] eqn:E0; [|discriminate].
    destruct (parseInt p1) as [b|] eqn:E1; [|discriminate].
    intros H. inversion H. exists p0, p1. repeat split; assumption.
  - intros [p0 [p1 [-> [-> ->]]]]. destruct r. reflexivity.
Qed.

(** C7, at the input it fails on: the field "2x" is not an integer, and
    [parseAyahReference] reads it as 2. *)
Theorem parseAyahReference_accepts_trailing_garbage :
  parseAyahReference "2x:3" = Some (mkAyahRef 2 3).
Proof. reflexivity. Qed.

(* ================================================================== *)
(** * [calculateStreaks] *)

Lemma streakStep_inv (today : Z) (s : Streaks) (a : DailyAssignment) :
  streaksInv s -> streaksInv (streakStep today s a).
Proof.
  unfold streaksInv, streakStep. intros [Hc Ht].
  destruct (completed a); [|simpl; lia].
  destruct (daysDiff today (date a) <=? 1); simpl; lia.
Qed.

Lemma streaks_fold_inv (today : Z) (l : list DailyAssignment) :
  forall s, streaksInv s -> streaksInv (fold_left (streakStep today) l s).
Proof.
  induction l as [|a l IH]; intros s Hs; simpl; [exact Hs|].
  apply IH. apply streakStep_inv. exact Hs.
Qed.

(** C10. Whatever the assignments and the time of the evaluation, the
    current streak is at most the best streak, and neither is negative. *)
Theorem calculateStreaks_current_le_best (today : Z) (plan : list DailyAssignment) :
  0 <= fst (calculateStreaks today plan)
  /\ fst (calculateStreaks today plan) <= snd (calculateStreaks today plan)
  /\ 0 <= snd (calculateStreaks today plan).
Proof.
  unfold calculateStreaks. cbn [fst snd].
  destruct (streaks_fold_inv today (sortByDate plan) (mkStreaks 0 0 0)) as [Hc Ht].
  { unfold streaksInv. simpl. lia. }
  lia.
Qed.

(** C2, at the input it fails on: evaluated on 1 January, a plan whose only
    assignment is dated ten days later and completed has a current streak
    of 1, where an assignment after the evaluation time should not count. *)
Theorem calculateStreaks_counts_future_day :
  daysDiff Sample.jan1 (Sample.jan1 + 10 * msPerDay) = -10
  /\ calculateStreaks Sample.jan1 Sample.planAhead = (1, 1).
Proof. split; reflexivity. Qed.

(* ================================================================== *)
(** * The completion toggles *)

Lemma isSameDay_same_day (t1 t2 : Z) : dayNumber t1 = dayNumber t2 -> isSameDay t1 t2 = true.
Proof.
  intros H. unfold isSameDay, getFullYear, getMonth, getDate. rewrite H.
  rewrite !Z.eqb_refl. reflexivity.
Qed.

Example isSameDay_ex :
  isSameDay Sample.jan1 (Sample.jan1 + 1000 * 60 * 60 * 23) = true
  /\ isSameDay Sample.jan1 (Sample.jan1 + msPerDay) = false
  /\ isSameDay Sample.jan1 (Sample.jan1 - 1) = false.
Proof. repeat split; reflexivity. Qed.

Lemma toggled_plan (c : bool) (d : Z) (l : list DailyAssignment) :
  let l' := map (fun a => if isSameDay (date a) d then withCompleted c a else a) l in
  List.length l' = List.length l
  /\ forall i a, nth_error l i = Some a ->
       exists a', nth_error l' i = Some a'
         /\ date a' = date a /\ fromAyah a' = fromAyah a /\ toAyah a' = toAyah a
         /\ fromPage a' = fromPage a /\ toPage a' = toPage a
         /\ isCatchUpDay a' = isCatchUpDay a
         /\ (isSameDay (date a) d = true -> completed a' = c)
         /\ (isSameDay (date a) d = false -> a' = a).
Proof.
  intros l'. split; [apply length_map|].
  intros i a Hi. subst l'.
  rewrite nth_error_map, Hi. simpl.
  eexists. split; [reflexivity|].
  destruct (isSameDay (date a) d); simpl; repeat split; congruence.
Qed.

(** C9. [markDayAsComplete] gives the flag [true] to exactly the
    assignments whose date falls on the same year, month and day as its
    argument, whatever the time of day, and leaves every other assignment,
    every other field, the length and the order of the plan unchanged; it
    then stores the streaks and the number of completed days of the new
    plan. [markDayAsIncomplete] does the same with [false]. *)
Theorem markDay_updates_only_completion (now d : Z) (s : GoalState) :
  day_marked true now d s (markDayAsComplete now d s)
  /\ day_marked false now d s (markDayAsIncomplete now d s)
  /\ (forall t1 t2, isSameDay t1 t2 = true <->
        getFullYear t1 = getFullYear t2 /\ getMonth t1 = getMonth t2
        /\ getDate t1 = getDate t2)
  /\ (forall t1 t2, dayNumber t1 = dayNumber t2 -> isSameDay t1 t2 = true).
Proof.
  split; [|split; [|split]].
  - unfold day_marked, markDayAsComplete. cbn [plan currentStreak bestStreak
      totalDaysCompleted currentGoal].
    destruct (toggled_plan true d (plan s)) as [Hlen Hnth].
    split; [exact Hlen|]. split; [exact Hnth|].
    split; [symmetry; apply surjective_pairing|]. split; reflexivity.
  - unfold day_marked, markDayAsIncomplete. cbn [plan currentStreak bestStreak
      totalDaysCompleted currentGoal].
    destruct (toggled_plan false d (plan s)) as [Hlen Hnth].
    split; [exact Hlen|]. split; [exact Hnth|].
    split; [symmetry; apply surjective_pairing|]. split; reflexivity.
  - intros t1 t2. unfold isSameDay.
    rewrite !andb_true_iff, !Z.eqb_eq. tauto.
  - exact isSameDay_same_day.
Qed.

(* ================================================================== *)
(** * More about the plans: freshness, references, dates *)

Lemma parseable_ayahKey (s a : Z) : parseable (ayahKey s a).
Proof. unfold parseable. rewrite parseAyahReference_ayahKey. discriminate. Qed.

Lemma parseable_1_1 : parseable "1:1".
Proof. unfold parseable. discriminate. Qed.

Lemma incrementAyah_parseable (qm : QuranMeta) (ref : string) (r : Z) :
  parseable ref -> parseable (incrementAyah qm ref r).
Proof.
  unfold parseable, incrementAyah. intros H.
  destruct (parseAyahReference ref) as [p|]; [|contradiction].
  destruct (incrementAyahLoop qm 116 (surahId p) (ayahNumber p) r) as [s a].
  apply parseable_ayahKey.
Qed.

Lemma getAyahsForPageRange_parseable (qm : QuranMeta) (p1 p2 : Z) :
  parseable (fst (getAyahsForPageRange qm p1 p2))
  /\ parseable (snd (getAyahsForPageRange qm p1 p2)).
Proof.
  unfold getAyahsForPageRange, getAyahRangeForPage. cbn [fst snd]. split.
  - destruct (page qm p1) as [pi|]; [|apply parseable_1_1].
    cbn [fst]. destruct (String.eqb _ _); [apply parseable_1_1 | apply parseable_ayahKey].
  - destruct (page qm p2) as [pi|]; [|apply parseable_1_1].
    cbn [snd]. destruct (String.eqb _ _); [apply parseable_1_1 | apply parseable_ayahKey].
Qed.

Section PlanLoopMore.

Variable qm : QuranMeta.
Variable g : UserGoal.
Variable E : Z.
Variable ea : jsval.

(** One run of the loop body: the assignment it pushes, and how the loop
    goes on. *)
Lemma planLoop_cons_inv (cur dt : Z) (ca : jsval) (rest : list Z)
  (l : list DailyAssignment) :
  planLoop qm g E ea cur ca (dt :: rest) = Returns l ->
  exists a l',
    l = a :: l' /\ date a = dt /\ completed a = false /\ isCatchUpDay a = false
    /\ ((forall s, ca = JStr s -> parseable s) ->
        parseable (fromAyah a) /\ parseable (toAyah a))
    /\ (l' = []
        \/ exists cur' ca',
             planLoop qm g E ea cur' ca' rest = Returns l'
             /\ ((forall s, ca = JStr s -> parseable s) ->
                 forall s, ca' = JStr s -> parseable s)).
Proof.
  intros H.
  assert (Hpages : unit g <> u_ayahs ->
            exists a l',
              l = a :: l' /\ date a = dt /\ completed a = false /\ isCatchUpDay a = false
              /\ ((forall s, ca = JStr s -> parseable s) ->
                  parseable (fromAyah a) /\ parseable (toAyah a))
              /\ (l' = []
                  \/ exists cur' ca',
                       planLoop qm g E ea cur' ca' rest = Returns l'
                       /\ ((forall s, ca = JStr s -> parseable s) ->
                           forall s, ca' = JStr s -> parseable s))).
  { intros U. rewrite planLoop_pages_unfold in H by exact U. cbv zeta in H.
    pose proof (getAyahsForPageRange_parseable qm cur (Z.min (cur + dailyAmount g - 1) E))
      as Hrange.
    set (a0 := newAssignment dt
                 (fst (getAyahsForPageRange qm cur (Z.min (cur + dailyAmount g - 1) E)))
                 (snd (getAyahsForPageRange qm cur (Z.min (cur + dailyAmount g - 1) E)))
                 cur (Z.min (cur + dailyAmount g - 1) E)) in *.
    destruct (E <? _).
    - inversion H. exists a0, []. split; [reflexivity|].
      split; [reflexivity|]. split; [reflexivity|]. split; [reflexivity|].
      split; [intros _; exact Hrange | left; reflexivity].
    - apply push_then_Returns in H. destruct H as [l' [Hl' ->]].
      exists a0, l'. split; [reflexivity|].
      split; [reflexivity|]. split; [reflexivity|]. split; [reflexivity|].
      split; [intros _; exact Hrange|].
      right. eexists. exists ca. split; [exact Hl'|]. intros Hca. exact Hca. }
  destruct (unit g) eqn:U; try (apply Hpages; congruence).
  clear Hpages. cbn [planLoop] in H. rewrite U in H.
  destruct ca as [fromA|]; [|discriminate].
  destruct ea as [ending|] eqn:Hea; [|discriminate].
  assert (Hrefs : (forall s, JStr fromA = JStr s -> parseable s) ->
            parseable fromA /\ parseable (incrementAyah qm fromA (dailyAmount g - 1))).
  { intros Hp. specialize (Hp fromA eq_refl).
    split; [exact Hp | apply incrementAyah_parseable; exact Hp]. }
  destruct (pastEndingAyah _ _).
  - inversion H. eexists. exists []. split; [reflexivity|].
    split; [reflexivity|]. split; [reflexivity|]. split; [reflexivity|].
    split; [exact Hrefs | left; reflexivity].
  - apply push_then_Returns in H. destruct H as [l' [Hl' ->]].
    eexists. exists l'. split; [reflexivity|].
    split; [reflexivity|]. split; [reflexivity|]. split; [reflexivity|].
    split; [exact Hrefs|].
    right. eexists. eexists. split; [exact Hl'|].
    intros Hp s Hs. inversion Hs. subst s.
    apply incrementAyah_parseable. apply incrementAyah_parseable. apply Hp. reflexivity.
Qed.

(** Every assignment is new, and its references can be read, as soon as the
    cursor can. *)
Lemma planLoop_wellformed :
  forall ds cur ca l,
    (forall s, ca = JStr s -> parseable s) ->
    planLoop qm g E ea cur ca ds = Returns l ->
    Forall (fun a => completed a = false /\ isCatchUpDay a = false
                     /\ parseable (fromAyah a) /\ parseable (toAyah a)) l.
Proof.
  induction ds as [|dt rest IH]; intros cur ca l Hca H.
  - simpl in H. inversion H. constructor.
  - destruct (planLoop_cons_inv _ _ _ _ _ H)
      as [a [l' [-> [_ [Hc [Hk [Hrefs Hrest]]]]]]].
    constructor; [destruct (Hrefs Hca); tauto|].
    destruct Hrest as [-> | [cur' [ca' [Hl' Hca']]]]; [constructor|].
    eapply IH; [|exact Hl']. apply Hca'. exact Hca.
Qed.

(** The dates of the assignments are the first reading dates, in order. *)
Lemma planLoop_dates_prefix :
  forall ds cur ca l,
    planLoop qm g E ea cur ca ds = Returns l ->
    map date l = firstn (List.length l) ds.
Proof.
  induction ds as [|dt rest IH]; intros cur ca l H.
  - simpl in H. inversion H. reflexivity.
  - destruct (planLoop_cons_inv _ _ _ _ _ H)
      as [a [l' [-> [Hd [_ [_ [_ Hrest]]]]]]].
    cbn [map List.length firstn]. rewrite Hd. f_equal.
    destruct Hrest as [-> | [cur' [ca' [Hl' _]]]]; [reflexivity|].
    eapply IH. exact Hl'.
Qed.

End PlanLoopMore.

Lemma getStartingAyah_parseable (qm : QuranMeta) (g : UserGoal) (s : string) :
  getStartingAyah qm g = JStr s -> parseable s.
Proof.
  unfold getStartingAyah, num_or_1_1.
  destruct (target g); try (intros H; inversion H; apply parseable_1_1).
  - destruct (targetValue_truthy g) as [tv|];
      [|intros H; inversion H; apply parseable_1_1].
    destruct (getJuzById qm tv) as [j|];
      [|intros H; inversion H; apply parseable_1_1].
    destruct (jz_startAyah j =? 0); intros H; inversion H. apply parseable_1_1.
  - destruct (targetValue_truthy g) as [tv|]; intros H; inversion H;
      [apply parseable_ayahKey | apply parseable_1_1].
Qed.

Lemma firstn_In {A : Type} (l : list A) (n : nat) (x : A) : In x (firstn n l) -> In x l.
Proof.
  intros H. rewrite <- (firstn_skipn n l). apply in_or_app. left. exact H.
Qed.

Lemma Forall_firstn_of {A : Type} (P : A -> Prop) (l : list A) (n : nat) :
  Forall P l -> Forall P (firstn n l).
Proof.
  rewrite !Forall_forall. intros H x Hx. apply H. eapply firstn_In. exact Hx.
Qed.

Lemma StronglySorted_firstn {A : Type} (R : A -> A -> Prop) (l : list A) (n : nat) :
  StronglySorted R l -> StronglySorted R (firstn n l).
Proof.
  intros H. revert n. induction H as [|a l Hs IH Ha]; intros [|n]; cbn [firstn];
    try constructor.
  - apply IH.
  - apply Forall_firstn_of. exact Ha.
Qed.

(* ================================================================== *)
(** * The calendar of a plan *)

Lemma startOfDay_midnight (t : Z) : startOfDay t mod msPerDay = 0.
Proof.
  unfold startOfDay. pose proof msPerDay_pos as Hms.
  rewrite (Z.div_mod t msPerDay) at 1 by lia.
  replace (msPerDay * (t / msPerDay) + t mod msPerDay - t mod msPerDay)
    with ((t / msPerDay) * msPerDay) by lia.
  apply Z.mod_mul. lia.
Qed.

Lemma next_midnight (c : Z) : c mod msPerDay = 0 -> (c + msPerDay) mod msPerDay = 0.
Proof.
  intros H. pose proof msPerDay_pos as Hms.
  replace (c + msPerDay) with (c + 1 * msPerDay) by lia.
  rewrite Z.mod_add by lia. exact H.
Qed.

Lemma StronglySorted_snoc_gen {A : Type} (R : A -> A -> Prop) (l : list A) (x : A) :
  StronglySorted R l -> Forall (fun a => R a x) l -> StronglySorted R (l ++ [x]).
Proof.
  induction 1 as [|a l Hs IH Ha]; intros Hx; simpl.
  - constructor; constructor.
  - inversion Hx as [|? ? Hax Hl]; subst. constructor.
    + apply IH. assumption.
    + apply Forall_app. split; [assumption | constructor; [assumption | constructor]].
Qed.

Lemma calendarInv_init (g : UserGoal) : calendarInv g (datesInit g).
Proof.
  unfold calendarInv, datesInit. cbn [dates currentDate].
  split; [constructor|]. split; [constructor|].
  destruct (startDate g) as [|t0]; cbn [setHours_0]; [reflexivity|].
  split; [constructor|]. split; [apply startOfDay_midnight|].
  intros t0' H. inversion H. lia.
Qed.

Lemma calendarInv_step (g : UserGoal) (st : DatesState) :
  calendarInv g st -> calendarInv g (snd (datesBody g st)).
Proof.
  intros [Hsort [Hall Hcur]]. pose proof msPerDay_pos as Hms.
  unfold datesBody. destruct (currentDate st) as [|c] eqn:Hc.
  - unfold calendarInv. cbn [snd dates currentDate nextDay]. tauto.
  - destruct Hcur as [Hbefore [Hmid Hstart]].
    assert (Hnext : Forall (fun t => t + msPerDay <= c + msPerDay) (dates st)
                    /\ (c + msPerDay) mod msPerDay = 0
                    /\ (forall t0, startDate g = At t0 -> startOfDay t0 <= c + msPerDay)).
    { split; [|split].
      - eapply Forall_impl; [|exact Hbefore]. simpl. intros; lia.
      - apply next_midnight. exact Hmid.
      - intros t0 H0. specialize (Hstart t0 H0). lia. }
    destruct (includes (daysOfWeek g) (weekday c)) eqn:Q.
    + destruct (pastDeadline g (At c)).
      * unfold calendarInv. cbn [snd dates currentDate]. tauto.
      * unfold calendarInv. cbn [snd dates currentDate nextDay].
        split; [apply StronglySorted_snoc_gen; assumption|].
        split.
        { apply Forall_app. split; [exact Hall|].
          constructor; [|constructor]. repeat split; assumption. }
        split; [|tauto].
        apply Forall_app. split; [tauto|]. constructor; [lia | constructor].
    + unfold calendarInv. cbn [snd dates currentDate nextDay]. tauto.
Qed.

Lemma countInv_step (g : UserGoal) (n : Z) (M : xnum) (st : DatesState) :
  countInv n st -> datesCond (XFin n) M st = true -> countInv n (snd (datesBody g st)).
Proof.
  intros [Hlen Hmax] C. unfold datesCond in C. apply andb_true_iff in C.
  destruct C as [C _]. simpl in C. apply Z.ltb_lt in C.
  unfold datesBody. destruct (currentDate st); [split; assumption|].
  destruct (includes _ _); [|split; assumption].
  destruct (pastDeadline _ _); [split; assumption|].
  unfold countInv. cbn [snd dates daysAdded]. rewrite length_app. simpl. lia.
Qed.

(** The facts above, for the dates a run of [generateReadingDates]
    returns. *)
Lemma readingDates_calendar (gas : nat) (g : UserGoal) (total : Z) (r : DatesState) :
  generateReadingDates_run gas g total = Some r -> calendarInv g r.
Proof.
  unfold generateReadingDates_run. intros H.
  eapply (datesLoop_invariant g _ _ (calendarInv g)); [| |exact H].
  - intros st Hst _. apply calendarInv_step. exact Hst.
  - apply calendarInv_init.
Qed.

Lemma readingDates_count (gas : nat) (g : UserGoal) (total : Z) (r : DatesState) :
  0 < dailyAmount g ->
  generateReadingDates_run gas g total = Some r ->
  countInv (- ((- total) / dailyAmount g)) r.
Proof.
  intros Hd. unfold generateReadingDates_run, totalDaysNeeded_of, ceil_div.
  destruct (Z.eqb_spec (dailyAmount g) 0); [lia|]. cbv zeta. intros H.
  eapply (datesLoop_invariant g _ _ (countInv _)); [| |exact H].
  - intros st Hst C. eapply countInv_step; eassumption.
  - unfold countInv, datesInit. simpl. lia.
Qed.

(** X1. Every assignment of a plan that [generatePlan] returns is not
    completed and is not a catch-up day, whatever the goal and its unit. *)
Theorem generatePlan_assignments_new (qm : QuranMeta) (gas : nat) (g : UserGoal)
  (plan : list DailyAssignment) :
  generatePlan qm gas g = Returns plan ->
  Forall (fun a => completed a = false /\ isCatchUpDay a = false) plan.
Proof.
  intros H. destruct (generatePlan_Returns qm gas g plan H) as [-> | [r [_ Hloop]]];
    [constructor|].
  eapply Forall_impl;
    [|eapply planLoop_wellformed;
      [apply (getStartingAyah_parseable qm g) | exact Hloop]].
  simpl. tauto.
Qed.

Lemma generatePlan_assignments_new_witness :
  Forall (fun a => completed a = false /\ isCatchUpDay a = false)
    [mkAssignment Sample.jan1 "1:1" "1:5" 1 1 false false;
     mkAssignment (Sample.jan1 + msPerDay) "1:6" "2:3" 1 2 false false].
Proof.
  apply (generatePlan_assignments_new Sample.meta 20 Sample.goalFatiha5).
  vm_compute. reflexivity.
Defined.

(** X2. Both verse references of every assignment of a returned plan are
    strings that [parseAyahReference] reads, whatever the goal: the
    fallback "1:1", a reference of the index, or a reference computed by
    [incrementAyah]. *)
Theorem generatePlan_references_parse (qm : QuranMeta) (gas : nat) (g : UserGoal)
  (plan : list DailyAssignment) :
  generatePlan qm gas g = Returns plan ->
  Forall (fun a => parseAyahReference (fromAyah a) <> None
                   /\ parseAyahReference (toAyah a) <> None) plan.
Proof.
  intros H. destruct (generatePlan_Returns qm gas g plan H) as [-> | [r [_ Hloop]]];
    [constructor|].
  eapply Forall_impl;
    [|eapply planLoop_wellformed;
      [apply (getStartingAyah_parseable qm g) | exact Hloop]].
  simpl. unfold parseable. tauto.
Qed.

Lemma generatePlan_references_parse_witness :
  Forall (fun a => parseAyahReference (fromAyah a) <> None
                   /\ parseAyahReference (toAyah a) <> None)
    [mkAssignment Sample.jan1 "114:1" "114:4" 604 604 false false;
     mkAssignment (Sample.jan1 + msPerDay) "114:5" "115:1" 604 1 false false].
Proof.
  apply (generatePlan_references_parse Sample.meta 20 Sample.goalNas4).
  vm_compute. reflexivity.
Defined.

(** X3. In a returned plan the dates of the assignments increase by a day or
    more from one assignment to the next, each is the local midnight of a
    selected weekday, and none is before the day of the start date: there
    is at most one assignment a day. This holds with or without deadline
    and whatever the unit. *)
Theorem generatePlan_calendar (qm : QuranMeta) (gas : nat) (g : UserGoal)
  (plan : list DailyAssignment) :
  generatePlan qm gas g = Returns plan ->
  StronglySorted (fun a b => a + msPerDay <= b) (map date plan)
  /\ Forall (fun t => includes (daysOfWeek g) (weekday t) = true
                      /\ t mod msPerDay = 0
                      /\ forall t0, startDate g = At t0 -> startOfDay t0 <= t)
            (map date plan).
Proof.
  intros H. destruct (generatePlan_Returns qm gas g plan H) as [-> | [r [Hr Hloop]]].
  - split; constructor.
  - destruct (readingDates_calendar _ _ _ _ Hr) as [Hsort [Hall _]].
    rewrite (planLoop_dates_prefix _ _ _ _ _ _ _ _ Hloop).
    split; [apply StronglySorted_firstn; exact Hsort | apply Forall_firstn_of; exact Hall].
Qed.

Lemma generatePlan_calendar_witness :
  StronglySorted (fun a b => a + msPerDay <= b)
    [Sample.jan1; Sample.jan1 + msPerDay].
Proof.
  apply (generatePlan_calendar Sample.meta 20 Sample.goalFatiha5
           [mkAssignment Sample.jan1 "1:1" "1:5" 1 1 false false;
            mkAssignment (Sample.jan1 + msPerDay) "1:6" "2:3" 1 2 false false]).
  vm_compute. reflexivity.
Defined.

(** X4. With a positive daily amount a returned plan has at most
    [ceil (total / dailyAmount)] assignments, [total] being the total of
    the goal, and none when that number is not positive. *)
Theorem generatePlan_length_bound (qm : QuranMeta) (gas : nat) (g : UserGoal)
  (plan : list DailyAssignment) :
  0 < dailyAmount g ->
  generatePlan qm gas g = Returns plan ->
  Z.of_nat (List.length plan)
  <= Z.max 0 (- ((- calculateTotalUnits qm g) / dailyAmount g)).
Proof.
  intros Hd H. destruct (generatePlan_Returns qm gas g plan H) as [-> | [r [Hr Hloop]]].
  - simpl. lia.
  - destruct (readingDates_count _ _ _ _ Hd Hr) as [Hlen Hmax].
    destruct (planLoop_dates qm g _ _ _ _ _ _ Hloop) as [Hle _]. lia.
Qed.

Lemma generatePlan_length_bound_witness :
  Z.of_nat (List.length
              [mkAssignment Sample.jan1 "1:1" "1:5" 1 1 false false;
               mkAssignment (Sample.jan1 + msPerDay) "1:6" "2:3" 1 2 false false])
  <= Z.max 0 (- ((- calculateTotalUnits Sample.meta Sample.goalFatiha5)
                 / dailyAmount Sample.goalFatiha5)).
Proof.
  apply (generatePlan_length_bound Sample.meta 20 Sample.goalFatiha5).
  - reflexivity.
  - vm_compute. reflexivity.
Defined.

(* ================================================================== *)
(** * A single weekday *)

Lemma progression_S (first step : Z) (n : nat) :
  progression first step (S n) = progression first step n ++ [first + Z.of_nat n * step].
Proof. unfold progression. rewrite seq_S, map_app. reflexivity. Qed.

Lemma nth_error_progression (first step : Z) (n i : nat) (x : Z) :
  nth_error (progression first step n) i = Some x -> x = first + Z.of_nat i * step.
Proof.
  unfold progression. rewrite nth_error_map, nth_error_seq.
  destruct (Nat.ltb i n); simpl; intros H; inversion H. reflexivity.
Qed.

Lemma length_progression (first step : Z) (n : nat) :
  List.length (progression first step n) = n.
Proof. unfold progression. rewrite length_map, length_seq. reflexivity. Qed.

Section SingleWeekday.

Variable g : UserGoal.
Variable w : Z.
Hypothesis only_w : forall x, In x (daysOfWeek g) -> x = w.

Lemma qualifies_w (t : Z) : includes (daysOfWeek g) (weekday t) = true -> weekday t = w.
Proof. intros H. apply only_w. apply includes_In. exact H. Qed.

Lemma weeklyInv_same (st st' : DatesState) :
  dates st' = dates st -> currentDate st' = currentDate st ->
  weeklyInv g st -> weeklyInv g st'.
Proof. unfold weeklyInv. intros -> ->. tauto. Qed.

Lemma weeklyInv_step (st : DatesState) :
  weeklyInv g st -> weeklyInv g (snd (datesBody g st)).
Proof.
  intros Hinv. pose proof msPerDay_pos as Hms.
  unfold datesBody.
  destruct (currentDate st) as [|c] eqn:Hc.
  { cbn [snd]. destruct Hinv as [Hnil | [first [j [_ [_ [_ Hcur]]]]]];
      [left; exact Hnil | rewrite Hc in Hcur; discriminate]. }
  destruct (includes (daysOfWeek g) (weekday c)) eqn:Q.
  - destruct (pastDeadline g (At c)).
    { cbn [snd]. apply (weeklyInv_same st); [reflexivity | cbn; congruence | exact Hinv]. }
    cbn [snd]. right.
    destruct (dates st) as [|d0 ds0] eqn:Hd.
    + exists c, 1. cbn [dates currentDate nextDay List.length app].
      split; [unfold progression; cbn [seq map]; f_equal; lia|].
      split; [exact Q|]. split; [lia|]. f_equal. change (Z.of_nat 1) with 1. lia.
    + destruct Hinv as [Hnil | [first [j [Hprog [Hq [Hj Hcur]]]]]]; [rewrite Hd in Hnil; discriminate|].
      rewrite Hd in Hprog, Hcur. rewrite <- Hd in *.
      assert (Hceq : c = first + (Z.of_nat (List.length (dates st)) - 1) * (7 * msPerDay)
                         + j * msPerDay) by congruence.
      clear Hcur.
      assert (Hlen : (1 <= List.length (dates st))%nat) by (rewrite Hd; simpl; lia).
      assert (Hj7 : j = 7).
      { pose proof (qualifies_w c Q) as Hwc. pose proof (qualifies_w first Hq) as Hwf.
        rewrite Hceq in Hwc.
        replace (first + (Z.of_nat (List.length (dates st)) - 1) * (7 * msPerDay)
                 + j * msPerDay)
          with (first + ((Z.of_nat (List.length (dates st)) - 1) * 7 + j) * msPerDay)
          in Hwc by lia.
        rewrite weekday_shift, Hwf in Hwc.
        pose proof (weekday_range first) as Hr. rewrite Hwf in Hr.
        revert Hwc. generalize (Z.of_nat (List.length (dates st))). intros m Hwc.
        Z.div_mod_to_equations. lia. }
      subst j.
      exists first, 1. cbn [dates currentDate nextDay].
      rewrite length_app. cbn [List.length]. rewrite Nat.add_1_r.
      split.
      { rewrite progression_S, <- Hprog. f_equal. f_equal. lia. }
      split; [exact Hq|]. split; [lia|]. f_equal. lia.
  - cbn [snd].
    destruct Hinv as [Hnil | [first [j [Hprog [Hq [Hj Hcur]]]]]]; [left; exact Hnil|].
    right.
    assert (Hceq : c = first + (Z.of_nat (List.length (dates st)) - 1) * (7 * msPerDay)
                       + j * msPerDay) by congruence.
    clear Hcur.
    assert (Hj6 : j <> 7).
    { intros ->. pose proof (qualifies_w first Hq) as Hwf.
      assert (Hwc : weekday c = weekday first).
      { rewrite Hceq.
        replace (first + (Z.of_nat (List.length (dates st)) - 1) * (7 * msPerDay)
                 + 7 * msPerDay)
          with (first + (Z.of_nat (List.length (dates st)) * 7) * msPerDay) by lia.
        rewrite weekday_shift.
        pose proof (weekday_range first) as Hr.
        generalize dependent (weekday first). intros wf _ Hr.
        generalize (Z.of_nat (List.length (dates st))). intros m.
        Z.div_mod_to_equations. lia. }
      rewrite Hwc, Hq in Q. discriminate. }
    exists first, (j + 1). cbn [dates currentDate nextDay].
    split; [exact Hprog|]. split; [exact Hq|]. split; [lia|]. f_equal. lia.
Qed.

Lemma readingDates_weekly (gas : nat) (total : Z) (r : DatesState) :
  generateReadingDates_run gas g total = Some r -> weeklyInv g r.
Proof.
  unfold generateReadingDates_run. intros H.
  eapply (datesLoop_invariant g _ _ (weeklyInv g)); [| |exact H].
  - intros st Hst _. apply weeklyInv_step. exact Hst.
  - left. reflexivity.
Qed.

End SingleWeekday.

(** X5. When a single weekday is selected, two successive assignments of a
    returned plan are exactly seven days apart. *)
Theorem generatePlan_single_weekday (qm : QuranMeta) (gas : nat) (g : UserGoal) (w : Z)
  (plan : list DailyAssignment) :
  (forall x, In x (daysOfWeek g) -> x = w) ->
  generatePlan qm gas g = Returns plan ->
  forall i a b, nth_error plan i = Some a -> nth_error plan (S i) = Some b ->
    date b = date a + 7 * msPerDay.
Proof.
  intros Hw H i a b Ha Hb.
  destruct (generatePlan_Returns qm gas g plan H) as [-> | [r [Hr Hloop]]];
    [destruct i; discriminate|].
  pose proof (planLoop_dates_prefix _ _ _ _ _ _ _ _ Hloop) as Hpre.
  assert (Hdate : forall k x, nth_error plan k = Some x ->
                  nth_error (dates r) k = Some (date x)).
  { intros k x Hk.
    assert (Hm : nth_error (map date plan) k = Some (date x)).
    { rewrite nth_error_map, Hk. reflexivity. }
    rewrite Hpre, nth_error_firstn in Hm.
    destruct (Nat.ltb k (List.length plan)); [exact Hm | discriminate]. }
  pose proof (Hdate _ _ Ha) as Hda. pose proof (Hdate _ _ Hb) as Hdb.
  destruct (readingDates_weekly g w Hw gas _ r Hr)
    as [Hnil | [first [j [Hprog _]]]].
  - rewrite Hnil in Hda. destruct i; discriminate.
  - rewrite Hprog in Hda, Hdb.
    apply nth_error_progression in Hda. apply nth_error_progression in Hdb. lia.
Qed.

Lemma generatePlan_single_weekday_witness :
  generatePlan Sample.meta 100 Sample.goalWednesdays
  = Returns
      [mkAssignment Sample.jan1 "1:1" "26:162" 1 300 false false;
       mkAssignment (Sample.jan1 + 7 * msPerDay) "26:163" "105:3" 301 600 false false;
       mkAssignment (Sample.jan1 + 14 * msPerDay) "105:4" "114:6" 601 604 false false]
  /\ Sample.jan1 + 7 * msPerDay = Sample.jan1 + 7 * msPerDay.
Proof.
  split; [vm_compute; reflexivity|].
  apply (generatePlan_single_weekday Sample.meta 100 Sample.goalWednesdays 3
           [mkAssignment Sample.jan1 "1:1" "26:162" 1 300 false false;
            mkAssignment (Sample.jan1 + 7 * msPerDay) "26:163" "105:3" 301 600 false false;
            mkAssignment (Sample.jan1 + 14 * msPerDay) "105:4" "114:6" 601 604 false false])
    with (i := 0%nat)
         (a := mkAssignment Sample.jan1 "1:1" "26:162" 1 300 false false)
         (b := mkAssignment (Sample.jan1 + 7 * msPerDay) "26:163" "105:3" 301 600 false false).
  - intros x Hx. simpl in Hx. lia.
  - vm_compute. reflexivity.
  - reflexivity.
  - reflexivity.
Defined.

(* ================================================================== *)
(** * Plans in page, part and chapter units *)


(** Without deadline, on at least one weekday, from a valid start date: the
    plan of a goal in page, part or chapter units. It has as many
    assignments as the total asks for, unless the pages of the scope run
    out first, and day [i] starts [i] daily amounts after the first page. *)
Lemma generatePlan_page_units (qm : QuranMeta) (g : UserGoal) (t0 : Z) :
  unit g <> u_ayahs -> 0 < dailyAmount g -> 0 < calculateTotalUnits qm g ->
  (exists w, 0 <= w <= 6 /\ In w (daysOfWeek g)) ->
  deadline g = None -> startDate g = At t0 ->
  getStartingPage qm g <= getEndingPage qm g ->
  exists plan,
    (forall gas,
       (Z.to_nat (- ((- calculateTotalUnits qm g) / dailyAmount g) * 10) <= gas)%nat ->
       generatePlan qm gas g = Returns plan)
    /\ Z.of_nat (List.length plan)
       = Z.min (- ((- calculateTotalUnits qm g) / dailyAmount g))
               (- ((- (getEndingPage qm g - getStartingPage qm g + 1)) / dailyAmount g))
    /\ forall i a, nth_error plan i = Some a ->
         fromPage a = getStartingPage qm g + Z.of_nat i * dailyAmount g
         /\ toPage a = Z.min (fromPage a + dailyAmount g - 1) (getEndingPage qm g).
Proof.
  intros Hunit Hd Htotal Hweek Hdl Hstart Hpages.
  destruct (readingDates_complete g _ t0 Hd Htotal Hweek Hdl Hstart)
    as [Hn [r [Hrun [Hinv [Hda Hit]]]]].
  destruct Hinv as [c [_ [Hlen _]]].
  assert (Hne : dates r <> []).
  { intros E. rewrite E in Hlen. simpl in Hlen. lia. }
  destruct (planLoop_pages_returns qm g (getEndingPage qm g) (getEndingAyah qm g) Hunit
              (dates r) (getStartingPage qm g) (getStartingAyah qm g)) as [plan Hplan].
  destruct (planLoop_pages_shape qm g (getEndingPage qm g) (getEndingAyah qm g) Hunit Hd
              (dates r) (getStartingPage qm g) (getStartingAyah qm g) plan Hpages Hplan)
    as [Hplen Hnth].
  exists plan. split; [|split].
  - intros gas Hgas. rewrite (generatePlan_dates qm gas g r).
    + exact Hplan.
    + lia.
    + apply Hrun. exact Hgas.
    + exact Hne.
  - rewrite Hplen. lia.
  - exact Hnth.
Qed.


Lemma scope_pages_total (qm : QuranMeta) (g : UserGoal) (first last : Z) :
  scope_pages qm g first last -> unit g = u_pages -> 1 <= first -> 1 <= last ->
  getStartingPage qm g = first /\ getEndingPage qm g = last
  /\ calculateTotalUnits qm g = last - first + 1.
Proof.
  unfold scope_pages, getStartingPage, getEndingPage, calculateTotalUnits, or_1.
  intros H Hu Hf Hl. rewrite Hu.
  destruct (target g).
  - destruct H as [-> ->]. repeat split; reflexivity.
  - destruct H as [tv [j [-> [-> [Hfirst Hlast]]]]]. rewrite <- Hfirst, <- Hlast.
    destruct (Z.eqb_spec first 0); [lia|]. destruct (Z.eqb_spec last 0); [lia|].
    repeat split; reflexivity.
  - destruct H as [tv [s [-> [-> [Hfirst Hlast]]]]]. rewrite <- Hfirst, <- Hlast.
    destruct (Z.eqb_spec first 0); [lia|]. destruct (Z.eqb_spec last 0); [lia|].
    repeat split; reflexivity.
  - contradiction.
Qed.

(** X6. A goal in pages over a scope (the whole text, a part or a chapter)
    that the index places on the pages [first .. last], with a positive
    daily amount [d], at least one weekday, no deadline and a valid start
    date: the plan has [ceil ((last - first + 1) / d)] assignments that
    cover the pages of the scope once each, in order: day [i] covers
    [first + i * d .. min (first + i * d + d - 1, last)], the first day
    starts at [first], the last day ends at [last], and each day starts on
    the page after the day before. *)
Theorem generatePlan_pages_cover_scope (qm : QuranMeta) (g : UserGoal)
  (t0 first last : Z) :
  scope_pages qm g first last -> unit g = u_pages -> 1 <= first <= last ->
  0 < dailyAmount g ->
  (exists w, 0 <= w <= 6 /\ In w (daysOfWeek g)) ->
  deadline g = None -> startDate g = At t0 ->
  let d := dailyAmount g in
  let n := - ((- (last - first + 1)) / d) in
  exists plan,
    (forall gas, (Z.to_nat (n * 10) <= gas)%nat -> generatePlan qm gas g = Returns plan)
    /\ Z.of_nat (List.length plan) = n
    /\ (forall i a, nth_error plan i = Some a ->
          fromPage a = first + Z.of_nat i * d
          /\ toPage a = Z.min (fromPage a + d - 1) last)
    /\ (exists a, nth_error plan 0 = Some a /\ fromPage a = first)
    /\ (exists a, nth_error plan (List.length plan - 1) = Some a /\ toPage a = last)
    /\ (forall i a b, nth_error plan i = Some a -> nth_error plan (S i) = Some b ->
          fromPage b = toPage a + 1).
Proof.
  intros Hscope Hunit Hrange Hd Hweek Hdl Hstart d n.
  destruct (scope_pages_total qm g first last Hscope Hunit) as [HS [HE HT]]; try lia.
  assert (Hpages : unit g <> u_ayahs) by congruence.
  destruct (generatePlan_page_units qm g t0 Hpages Hd) as [plan [Hrun [Hlen Hnth]]];
    try assumption; try lia.
  rewrite HS, HE, HT in *. fold d in Hrun, Hlen, Hnth. fold n in Hrun, Hlen.
  rewrite Z.min_id in Hlen.
  destruct (ceil_div_pos (last - first + 1) d Hd) as [n' [_ [Hn' Hb]]].
  assert (n' = n) by (subst n; assumption). subst n'.
  assert (Hn : 1 <= n) by nia.
  exists plan. split; [exact Hrun|]. split; [exact Hlen|]. split; [exact Hnth|].
  assert (Hpne : plan <> []).
  { intros E. rewrite E in Hlen. simpl in Hlen. lia. }
  split.
  { destruct plan as [|a plan0]; [contradiction|]. exists a. split; [reflexivity|].
    destruct (Hnth 0%nat a eq_refl) as [Hf _]. simpl in Hf. lia. }
  split.
  { destruct (nth_error_last_exists plan Hpne) as [a Ha]. exists a. split; [exact Ha|].
    destruct (Hnth _ a Ha) as [Hf Ht].
    assert (Hlast : Z.of_nat (List.length plan - 1) = n - 1).
    { destruct plan; [contradiction|]. simpl List.length in *. lia. }
    rewrite Hlast in Hf. nia. }
  intros i a b Ha Hnext.
  destruct (Hnth _ a Ha) as [Hfa Hta]. destruct (Hnth _ b Hnext) as [Hfb _].
  assert (Hi : (S i < List.length plan)%nat).
  { apply nth_error_Some. congruence. }
  assert (Z.of_nat (S i) <= n - 1) by lia.
  replace (Z.of_nat (S i)) with (Z.of_nat i + 1) in * by lia.
  nia.
Qed.

Lemma some_weekday_everyDay : exists w, 0 <= w <= 6 /\ In w Sample.everyDay.
Proof. exists 0. split; [lia | left; reflexivity]. Defined.

Lemma generatePlan_pages_cover_scope_witness :
  exists plan,
    generatePlan Sample.meta 10 Sample.goalSurah113 = Returns plan
    /\ Z.of_nat (List.length plan) = 1
    /\ exists a, nth_error plan (List.length plan - 1) = Some a /\ toPage a = 604.
Proof.
  assert (Hscope : scope_pages Sample.meta Sample.goalSurah113 604 604).
  { exists 113, (mkSurah 113 5 604 604). repeat split; vm_compute; reflexivity. }
  destruct (generatePlan_pages_cover_scope Sample.meta Sample.goalSurah113 Sample.jan1
              604 604 Hscope eq_refl ltac:(lia) eq_refl some_weekday_everyDay
              eq_refl eq_refl)
    as [plan [Hrun [Hlen [_ [_ [Hlast _]]]]]].
  exists plan. split; [apply Hrun; vm_compute; lia|]. split; [exact Hlen | exact Hlast].
Defined.



(** X8. A goal on a part that the index knows, in verse units: the starting
    verse that [getStartingAyah] takes from [juz ()] is a number, not a
    string, and [generatePlan] raises on the first day (with a positive
    daily amount, at least one weekday, no deadline and a valid start
    date). *)
Theorem generatePlan_part_in_verses_throws (qm : QuranMeta) (g : UserGoal)
  (t0 tv : Z) (j : Juz) :
  target g = specific_juz -> unit g = u_ayahs ->
  targetValue_truthy g = Some tv -> getJuzById qm tv = Some j -> jz_startAyah j <> 0 ->
  0 < dailyAmount g ->
  (exists w, 0 <= w <= 6 /\ In w (daysOfWeek g)) ->
  deadline g = None -> startDate g = At t0 ->
  getStartingAyah qm g = JNum (jz_startAyah j)
  /\ forall gas, (10 <= gas)%nat -> generatePlan qm gas g = Throws.
Proof.
  intros Htarget Hunit Htv Hj Hnz Hd Hweek Hdl Hstart.
  assert (Hsa : getStartingAyah qm g = JNum (jz_startAyah j)).
  { unfold getStartingAyah, num_or_1_1. rewrite Htarget, Htv, Hj.
    destruct (Z.eqb_spec (jz_startAyah j) 0); [contradiction | reflexivity]. }
  split; [exact Hsa|].
  assert (Htotal : calculateTotalUnits qm g = 1).
  { unfold calculateTotalUnits. rewrite Htarget, Htv, Hj, Hunit. reflexivity. }
  assert (H1 : 0 < 1) by lia.
  destruct (readingDates_complete g 1 t0 Hd H1 Hweek Hdl Hstart)
    as [_ [r [Hrun [Hinv [Hda _]]]]].
  rewrite (ceil_div_one 1 (dailyAmount g)) in Hrun, Hinv, Hda by lia.
  destruct Hinv as [c [_ [Hlen _]]].
  intros gas Hgas.
  rewrite (generatePlan_dates qm gas g r).
  - destruct (dates r) as [|dt rest]; [simpl in Hlen; lia|].
    rewrite Hsa. cbn [planLoop]. rewrite Hunit. reflexivity.
  - rewrite Htotal. discriminate.
  - rewrite Htotal. apply Hrun. simpl. lia.
  - intros E. rewrite E in Hlen. simpl in Hlen. lia.
Qed.

Lemma generatePlan_part_in_verses_throws_witness :
  generatePlan Sample.meta 10 Sample.goalJuz2Ayahs = Throws.
Proof.
  destruct (generatePlan_part_in_verses_throws Sample.meta Sample.goalJuz2Ayahs
              Sample.jan1 2 (mkJuz 2 2 142 2 252 15 26)
              eq_refl eq_refl eq_refl ltac:(vm_compute; reflexivity)
              ltac:(discriminate) eq_refl some_weekday_everyDay eq_refl eq_refl)
    as [_ Hthrows].
  apply Hthrows. apply Nat.le_refl.
Defined.

(* ================================================================== *)
(** * The store: streaks, toggles and today's assignment *)

Lemma insertByDate_perm (a : DailyAssignment) (l : list DailyAssignment) :
  Permutation (a :: l) (insertByDate a l).
Proof.
  induction l as [|b l IH]; simpl; [apply Permutation_refl|].
  destruct (date a <=? date b); [apply Permutation_refl|].
  eapply perm_trans; [apply perm_swap|]. apply perm_skip. exact IH.
Qed.

Lemma sortByDate_perm (l : list DailyAssignment) : Permutation l (sortByDate l).
Proof.
  induction l as [|a l IH]; simpl; [constructor|].
  eapply perm_trans; [apply perm_skip; exact IH | apply insertByDate_perm].
Qed.

Lemma completedCount_cons (a : DailyAssignment) (l : list DailyAssignment) :
  completedCount (a :: l) = (if completed a then 1 else 0) + completedCount l.
Proof. unfold completedCount. simpl. destruct (completed a); simpl List.length; lia. Qed.

Lemma completedCount_perm (l l' : list DailyAssignment) :
  Permutation l l' -> completedCount l = completedCount l'.
Proof.
  intros H. induction H.
  - reflexivity.
  - rewrite !completedCount_cons. lia.
  - rewrite !completedCount_cons. lia.
  - congruence.
Qed.

Lemma completedCount_bounds (l : list DailyAssignment) :
  0 <= completedCount l <= Z.of_nat (List.length l).
Proof.
  induction l as [|a l IH]; [unfold completedCount; simpl; lia|].
  rewrite completedCount_cons. simpl List.length. destruct (completed a); lia.
Qed.

Lemma completedCount_none (l : list DailyAssignment) :
  Forall (fun a => completed a = false) l -> completedCount l = 0.
Proof.
  induction 1 as [|a l Ha _ IH]; [reflexivity|].
  rewrite completedCount_cons, Ha, IH. reflexivity.
Qed.

Lemma streakStep_bound (today k : Z) (s : Streaks) (a : DailyAssignment) :
  streaksBound k s ->
  streaksBound (k + (if completed a then 1 else 0)) (streakStep today s a).
Proof.
  unfold streaksBound, streakStep. intros [H1 [H2 H3]].
  destruct (completed a); [destruct (daysDiff today (date a) <=? 1)|]; simpl; lia.
Qed.

Lemma streaks_fold_bound (today : Z) (l : list DailyAssignment) :
  forall k s, streaksBound k s ->
    streaksBound (k + completedCount l) (fold_left (streakStep today) l s).
Proof.
  induction l as [|a l IH]; intros k s Hs.
  - simpl. replace (k + completedCount []) with k by (unfold completedCount; simpl; lia).
    exact Hs.
  - simpl. rewrite completedCount_cons.
    replace (k + ((if completed a then 1 else 0) + completedCount l))
      with (k + (if completed a then 1 else 0) + completedCount l) by lia.
    apply IH. apply streakStep_bound. exact Hs.
Qed.

Lemma streaks_fold_all (today : Z) (l : list DailyAssignment) :
  Forall (fun a => completed a = true) l ->
  forall s, st_temp s = st_best s ->
    st_best (fold_left (streakStep today) l s) = st_best s + Z.of_nat (List.length l)
    /\ st_temp (fold_left (streakStep today) l s)
       = st_best (fold_left (streakStep today) l s).
Proof.
  induction 1 as [|a l Ha _ IH]; intros s Hs.
  - simpl. split; [lia | exact Hs].
  - cbn [fold_left].
    assert (Hstep : st_temp (streakStep today s a) = st_best (streakStep today s a)
                    /\ st_best (streakStep today s a) = st_best s + 1).
    { unfold streakStep. rewrite Ha.
      destruct (daysDiff today (date a) <=? 1); simpl; lia. }
    destruct Hstep as [H1 H2]. destruct (IH _ H1) as [H3 H4].
    split; [|exact H4]. rewrite H3, H2. simpl List.length. lia.
Qed.

(** X9. The best streak that [calculateStreaks] returns is at most the
    number of completed assignments, which is at most the length of the
    plan; it is 0 exactly when no assignment is completed, and it is the
    length of the plan when all are. *)
Theorem calculateStreaks_best_bounds (today : Z) (plan : list DailyAssignment) :
  0 <= snd (calculateStreaks today plan) <= completedCount plan
  /\ completedCount plan <= Z.of_nat (List.length plan)
  /\ (snd (calculateStreaks today plan) = 0 <-> completedCount plan = 0)
  /\ (Forall (fun a => completed a = true) plan ->
      snd (calculateStreaks today plan) = Z.of_nat (List.length plan)).
Proof.
  unfold calculateStreaks. cbn [snd].
  assert (H0 : streaksBound 0 (mkStreaks 0 0 0)) by (unfold streaksBound; simpl; lia).
  pose proof (streaks_fold_bound today (sortByDate plan) 0 _ H0) as [Ht [Hb Hp]].
  rewrite <- (completedCount_perm _ _ (sortByDate_perm plan)) in Hb, Hp.
  pose proof (completedCount_bounds plan) as Hc.
  split; [lia|]. split; [lia|]. split; [lia|].
  intros Hall.
  assert (Hall' : Forall (fun a => completed a = true) (sortByDate plan)).
  { eapply Permutation_Forall; [apply sortByDate_perm | exact Hall]. }
  destruct (streaks_fold_all today _ Hall' (mkStreaks 0 0 0) eq_refl) as [H1 _].
  rewrite H1. simpl st_best.
  rewrite <- (Permutation_length (sortByDate_perm plan)). lia.
Qed.

Lemma daysDiff_recent (today d : Z) :
  (daysDiff today d <=? 1) = true <-> today - d < 2 * msPerDay.
Proof.
  rewrite Z.leb_le. unfold daysDiff, msPerDay.
  split; intros H; Z.div_mod_to_equations; lia.
Qed.

Lemma streaks_fold_stale (today : Z) (l : list DailyAssignment) :
  Forall (fun a => ~ recent today a) l ->
  forall s, st_current (fold_left (streakStep today) l s) = st_current s.
Proof.
  induction 1 as [|a l Ha _ IH]; intros s; [reflexivity|].
  cbn [fold_left]. rewrite IH. unfold streakStep.
  destruct (completed a) eqn:Hc; [|reflexivity].
  destruct (daysDiff today (date a) <=? 1) eqn:Hd; [|reflexivity].
  exfalso. apply Ha. split; [exact Hc|]. apply daysDiff_recent. exact Hd.
Qed.

Lemma streaks_fold_positive (today : Z) (l : list DailyAssignment) :
  forall s, streaksInv s -> 1 <= st_current s ->
    1 <= st_current (fold_left (streakStep today) l s).
Proof.
  induction l as [|a l IH]; intros s Hs Hc; [exact Hc|].
  cbn [fold_left]. apply IH; [apply streakStep_inv; exact Hs|].
  unfold streakStep. destruct Hs as [_ Ht].
  destruct (completed a); [|exact Hc].
  destruct (daysDiff today (date a) <=? 1); simpl; lia.
Qed.

Lemma streaks_fold_recent (today : Z) (l : list DailyAssignment) :
  Exists (recent today) l ->
  forall s, streaksInv s -> 1 <= st_current (fold_left (streakStep today) l s).
Proof.
  induction 1 as [a l [Hc Hr] | a l _ IH]; intros s Hs; cbn [fold_left].
  - apply streaks_fold_positive; [apply streakStep_inv; exact Hs|].
    unfold streakStep. rewrite Hc.
    apply daysDiff_recent in Hr. rewrite Hr. destruct Hs as [_ Ht]. simpl. lia.
  - apply IH. apply streakStep_inv. exact Hs.
Qed.

(** X10. The current streak that [calculateStreaks] returns is positive
    exactly when some completed assignment is dated less than two days
    before the time of the evaluation (a date after that time included),
    and 0 otherwise. *)
Theorem calculateStreaks_current_positive (today : Z) (plan : list DailyAssignment) :
  (Exists (recent today) plan -> 1 <= fst (calculateStreaks today plan))
  /\ (Forall (fun a => ~ recent today a) plan -> fst (calculateStreaks today plan) = 0).
Proof.
  unfold calculateStreaks. cbn [fst]. split; intros H.
  - apply streaks_fold_recent.
    + apply Exists_exists in H. destruct H as [a [Hin Ha]].
      apply Exists_exists. exists a. split; [|exact Ha].
      eapply Permutation_in; [apply sortByDate_perm | exact Hin].
    + unfold streaksInv. simpl. lia.
  - rewrite streaks_fold_stale; [reflexivity|].
    eapply Permutation_Forall; [apply sortByDate_perm | exact H].
Qed.

Lemma insertByDate_sorted (a : DailyAssignment) (l : list DailyAssignment) :
  StronglySorted byDate l -> StronglySorted byDate (insertByDate a l).
Proof.
  induction 1 as [|b l Hs IH Hb]; simpl; [repeat constructor|].
  destruct (Z.leb_spec (date a) (date b)) as [Hle | Hgt].
  - constructor; [constructor; assumption|].
    constructor; [exact Hle|].
    eapply Forall_impl; [|exact Hb]. unfold byDate. intros x Hx. lia.
  - constructor; [exact IH|].
    eapply Permutation_Forall; [apply insertByDate_perm|].
    constructor; [unfold byDate; lia | exact Hb].
Qed.

Lemma sortByDate_sorted (l : list DailyAssignment) : StronglySorted byDate (sortByDate l).
Proof.
  induction l as [|a l IH]; simpl; [constructor | apply insertByDate_sorted; exact IH].
Qed.

Lemma sorted_strict (l : list DailyAssignment) :
  StronglySorted byDate l -> NoDup (map date l) ->
  StronglySorted (fun a b => date a < date b) l.
Proof.
  induction 1 as [|a l Hs IH Ha]; intros Hnd; [constructor|].
  simpl in Hnd. inversion Hnd as [|? ? Hnotin Hnd']; subst.
  constructor; [apply IH; exact Hnd'|].
  apply Forall_forall. intros x Hx.
  rewrite Forall_forall in Ha. specialize (Ha x Hx). unfold byDate in Ha.
  assert (date a <> date x).
  { intros E. apply Hnotin. rewrite E. apply in_map. exact Hx. }
  lia.
Qed.

Lemma sorted_perm_unique (l1 : list DailyAssignment) :
  forall l2,
    StronglySorted (fun a b => date a < date b) l1 ->
    StronglySorted (fun a b => date a < date b) l2 ->
    Permutation l1 l2 -> l1 = l2.
Proof.
  induction l1 as [|a l1 IH]; intros l2 H1 H2 Hp.
  - apply Permutation_nil in Hp. congruence.
  - destruct l2 as [|b l2].
    { apply Permutation_sym, Permutation_nil in Hp. discriminate. }
    inversion H1 as [|? ? Hs1 Hf1]; subst. inversion H2 as [|? ? Hs2 Hf2]; subst.
    rewrite Forall_forall in Hf1, Hf2.
    assert (Hab : a = b).
    { assert (Ha : In a (b :: l2)).
      { eapply Permutation_in; [exact Hp | left; reflexivity]. }
      assert (Hb : In b (a :: l1)).
      { eapply Permutation_in; [apply Permutation_sym; exact Hp | left; reflexivity]. }
      destruct Ha as [Ha | Ha]; [congruence|].
      destruct Hb as [Hb | Hb]; [congruence|].
      specialize (Hf1 b Hb). specialize (Hf2 a Ha). lia. }
    subst b. f_equal. apply IH; try assumption.
    eapply Permutation_cons_inv. exact Hp.
Qed.

(** X11. When no two assignments have the same date, the streaks do not
    depend on the order of the plan: two plans with the same assignments in
    any order get the same current and best streak. *)
Theorem calculateStreaks_order_independent (today : Z)
  (plan plan' : list DailyAssignment) :
  Permutation plan plan' -> NoDup (map date plan) ->
  calculateStreaks today plan = calculateStreaks today plan'.
Proof.
  intros Hp Hnd. unfold calculateStreaks.
  assert (Hsame : sortByDate plan = sortByDate plan').
  { assert (Hpp : Permutation (sortByDate plan) (sortByDate plan')).
    { eapply perm_trans; [apply Permutation_sym, sortByDate_perm|].
      eapply perm_trans; [exact Hp | apply sortByDate_perm]. }
    assert (Hnd1 : NoDup (map date (sortByDate plan))).
    { eapply Permutation_NoDup; [|exact Hnd].
      apply Permutation_map. apply sortByDate_perm. }
    assert (Hnd2 : NoDup (map date (sortByDate plan'))).
    { eapply Permutation_NoDup; [|exact Hnd1]. apply Permutation_map. exact Hpp. }
    apply sorted_perm_unique; [| |exact Hpp].
    - apply sorted_strict; [apply sortByDate_sorted | exact Hnd1].
    - apply sorted_strict; [apply sortByDate_sorted | exact Hnd2]. }
  rewrite Hsame. reflexivity.
Qed.

Lemma calculateStreaks_order_independent_witness :
  calculateStreaks (Sample.jan1 + msPerDay) Sample.threeDays
  = calculateStreaks (Sample.jan1 + msPerDay) (rev Sample.threeDays).
Proof.
  apply calculateStreaks_order_independent.
  - apply Permutation_rev.
  - vm_compute. constructor; [intros [H | [H | []]]; discriminate H|].
    constructor; [intros [H | []]; discriminate H|].
    constructor; [intros []|]. constructor.
Defined.

(** With equal dates the order does matter: the sort is stable. *)
Example calculateStreaks_order_equal_dates :
  let done := mkAssignment Sample.jan1 "1:1" "1:7" 1 1 true false in
  let open := mkAssignment Sample.jan1 "2:1" "2:5" 2 2 false false in
  calculateStreaks Sample.jan1 [done; done; open] = (2, 2)
  /\ calculateStreaks Sample.jan1 [done; open; done] = (1, 1).
Proof. split; reflexivity. Qed.

Lemma calculateStreaks_none (today : Z) (l : list DailyAssignment) :
  Forall (fun a => completed a = false) l -> calculateStreaks today l = (0, 0).
Proof.
  intros H. unfold calculateStreaks.
  assert (Hs : Forall (fun a => completed a = false) (sortByDate l)).
  { eapply Permutation_Forall; [apply sortByDate_perm | exact H]. }
  assert (Hfold : forall l0, Forall (fun a => completed a = false) l0 ->
            forall s, st_current (fold_left (streakStep today) l0 s) = st_current s
                      /\ st_best (fold_left (streakStep today) l0 s) = st_best s).
  { induction 1 as [|a l0 Ha _ IH]; intros s; [split; reflexivity|].
    cbn [fold_left]. destruct (IH (streakStep today s a)) as [-> ->].
    unfold streakStep. rewrite Ha. split; reflexivity. }
  destruct (Hfold _ Hs (mkStreaks 0 0 0)) as [-> ->]. reflexivity.
Qed.

Lemma generatePlan_none_completed (qm : QuranMeta) (gas : nat) (g : UserGoal)
  (plan : list DailyAssignment) :
  generatePlan qm gas g = Returns plan -> Forall (fun a => completed a = false) plan.
Proof.
  intros H. destruct (generatePlan_Returns qm gas g plan H) as [-> | [r [_ Hloop]]];
    [constructor|].
  eapply Forall_impl;
    [|eapply planLoop_wellformed;
      [apply (getStartingAyah_parseable qm g) | exact Hloop]].
  simpl. tauto.
Qed.

(** X12. [setGoal] ends as [generatePlan] ends. When it returns, the state
    it sets holds the goal, the generated plan and the time of the call,
    and no progress: both streaks and the number of completed days are 0,
    whatever the state before was. *)
Theorem setGoal_starts_without_progress (qm : QuranMeta) (gas : nat) (now : Z)
  (goal : UserGoal) :
  match setGoal qm gas now goal with
  | Returns s =>
      exists newPlan,
        generatePlan qm gas goal = Returns newPlan
        /\ s = mkGoalState (Some goal) newPlan (Some now) 0 0 0
        /\ getCompletedCount s = 0
        /\ getTotalCount s = Z.of_nat (List.length newPlan)
  | Throws => generatePlan qm gas goal = Throws
  | OutOfGas => generatePlan qm gas goal = OutOfGas
  end.
Proof.
  unfold setGoal. destruct (generatePlan qm gas goal) as [newPlan| |] eqn:H;
    [|reflexivity|reflexivity].
  pose proof (generatePlan_none_completed qm gas goal newPlan H) as Hnone.
  exists newPlan. rewrite (calculateStreaks_none now newPlan Hnone).
  unfold getCompletedCount, getTotalCount. cbn [plan fst snd].
  rewrite (completedCount_none newPlan Hnone). repeat split.
Qed.

Lemma isSameDay_right (x d d' : Z) :
  isSameDay d d' = true -> isSameDay x d = isSameDay x d'.
Proof.
  unfold isSameDay. rewrite !andb_true_iff, !Z.eqb_eq.
  intros [[H1 H2] H3]. rewrite H1, H2, H3. reflexivity.
Qed.

Lemma isSameDay_both (x d1 d2 : Z) :
  isSameDay x d1 = true -> isSameDay x d2 = true -> isSameDay d1 d2 = true.
Proof.
  unfold isSameDay. rewrite !andb_true_iff, !Z.eqb_eq.
  intros [[H1 H2] H3] [[H4 H5] H6]. repeat split; congruence.
Qed.

Lemma markDay_toggle (c : bool) (now d : Z) (s : GoalState) :
  markDay c now d s
  = mkGoalState (currentGoal s) (map (toggle c d) (plan s)) (Some now)
      (fst (calculateStreaks now (map (toggle c d) (plan s))))
      (snd (calculateStreaks now (map (toggle c d) (plan s))))
      (completedCount (map (toggle c d) (plan s))).
Proof. destruct c; reflexivity. Qed.

Lemma toggle_date (c : bool) (d : Z) (a : DailyAssignment) : date (toggle c d a) = date a.
Proof. unfold toggle. destruct (isSameDay (date a) d); reflexivity. Qed.

(** X13. Of two toggles of the same day the last one wins: marking a day
    (complete or incomplete) after marking it at any time of the same day
    gives the state that the second toggle alone gives. In particular each
    toggle is idempotent, and marking incomplete undoes marking complete
    on the flags. *)
Theorem markDay_last_toggle_wins (c1 c2 : bool) (now0 now d d' : Z) (s : GoalState) :
  isSameDay d d' = true ->
  markDay c2 now d' (markDay c1 now0 d s) = markDay c2 now d' s.
Proof.
  intros Hd. rewrite !markDay_toggle. cbn [plan currentGoal].
  assert (Hmap : map (toggle c2 d') (map (toggle c1 d) (plan s))
                 = map (toggle c2 d') (plan s)).
  { rewrite map_map. apply map_ext. intros a.
    unfold toggle at 1. rewrite toggle_date.
    unfold toggle. rewrite (isSameDay_right (date a) d d' Hd).
    destruct (isSameDay (date a) d'); reflexivity. }
  rewrite Hmap. reflexivity.
Qed.

Lemma markDay_last_toggle_wins_witness :
  markDayAsIncomplete (Sample.jan1 + 5000) (Sample.jan1 + 3600000)
    (markDayAsComplete (Sample.jan1 + 1000) Sample.jan1 Sample.stateThreeDays)
  = markDayAsIncomplete (Sample.jan1 + 5000) (Sample.jan1 + 3600000)
      Sample.stateThreeDays.
Proof.
  apply (markDay_last_toggle_wins true false). reflexivity.
Defined.

(** X14. Toggles of different days commute, and so do two toggles with the
    same flag: applied in either order at the same times they give the same
    state. *)
Theorem markDay_toggles_commute (c1 c2 : bool) (now0 now d1 d2 : Z) (s : GoalState) :
  c1 = c2 \/ isSameDay d1 d2 = false ->
  markDay c1 now d1 (markDay c2 now0 d2 s) = markDay c2 now d2 (markDay c1 now0 d1 s).
Proof.
  intros Hd. rewrite !markDay_toggle. cbn [plan currentGoal].
  assert (Hmap : map (toggle c1 d1) (map (toggle c2 d2) (plan s))
                 = map (toggle c2 d2) (map (toggle c1 d1) (plan s))).
  { rewrite !map_map. apply map_ext. intros a.
    unfold toggle at 1 3. rewrite !toggle_date. unfold toggle.
    destruct (isSameDay (date a) d1) eqn:H1, (isSameDay (date a) d2) eqn:H2;
      cbn [date withCompleted]; rewrite ?H1, ?H2; try reflexivity.
    destruct Hd as [-> | Hd]; [reflexivity|].
    rewrite (isSameDay_both _ _ _ H1 H2) in Hd. discriminate. }
  rewrite Hmap. reflexivity.
Qed.

Lemma markDay_toggles_commute_witness :
  markDayAsComplete (Sample.jan1 + 5000) (Sample.jan1 + msPerDay)
    (markDayAsIncomplete (Sample.jan1 + 1000) Sample.jan1 Sample.stateThreeDays)
  = markDayAsIncomplete (Sample.jan1 + 5000) Sample.jan1
      (markDayAsComplete (Sample.jan1 + 1000) (Sample.jan1 + msPerDay)
         Sample.stateThreeDays).
Proof.
  apply (markDay_toggles_commute true false). right. reflexivity.
Defined.

Lemma completedCount_toggle (c : bool) (d : Z) (l : list DailyAssignment) :
  completedCount (map (toggle c d) l)
  = if c
    then completedCount l
         + Z.of_nat (List.length
             (filter (fun a => isSameDay (date a) d && negb (completed a)) l))
    else completedCount l
         - Z.of_nat (List.length
             (filter (fun a => isSameDay (date a) d && completed a) l)).
Proof.
  induction l as [|a l IH]; [destruct c; reflexivity|].
  cbn [map]. rewrite !completedCount_cons, IH. cbn [filter]. unfold toggle at 1.
  destruct c, (isSameDay (date a) d), (completed a) eqn:Hc;
    cbn [completed withCompleted andb negb List.length]; rewrite ?Hc; lia.
Qed.

(** X15. Marking a day complete raises the number of completed assignments
    by the number of incomplete assignments of that day, marking it
    incomplete lowers it by the number of completed ones; the number of
    assignments stays, and the stored [totalDaysCompleted] is the count of
    the new plan. *)
Theorem markDay_completed_count (now d : Z) (s : GoalState) :
  getCompletedCount (markDayAsComplete now d s)
  = getCompletedCount s
    + Z.of_nat (List.length
        (filter (fun a => isSameDay (date a) d && negb (completed a)) (plan s)))
  /\ getCompletedCount (markDayAsIncomplete now d s)
     = getCompletedCount s
       - Z.of_nat (List.length
           (filter (fun a => isSameDay (date a) d && completed a) (plan s)))
  /\ getCompletedCount s <= getCompletedCount (markDayAsComplete now d s)
     <= getTotalCount s
  /\ 0 <= getCompletedCount (markDayAsIncomplete now d s) <= getCompletedCount s
  /\ getTotalCount (markDayAsComplete now d s) = getTotalCount s
  /\ getTotalCount (markDayAsIncomplete now d s) = getTotalCount s
  /\ totalDaysCompleted (markDayAsComplete now d s)
     = getCompletedCount (markDayAsComplete now d s)
  /\ totalDaysCompleted (markDayAsIncomplete now d s)
     = getCompletedCount (markDayAsIncomplete now d s).
Proof.
  pose proof (completedCount_toggle true d (plan s)) as Ht.
  pose proof (completedCount_toggle false d (plan s)) as Hf.
  pose proof (completedCount_bounds (map (toggle true d) (plan s))) as Bt.
  pose proof (completedCount_bounds (map (toggle false d) (plan s))) as Bf.
  rewrite length_map in Bt, Bf.
  unfold getCompletedCount, getTotalCount, markDayAsComplete, markDayAsIncomplete.
  cbn [plan totalDaysCompleted]. unfold toggle in Ht, Hf, Bt, Bf. cbv beta iota in Ht, Hf.
  rewrite !length_map.
  repeat split; try assumption; try lia.
Qed.

Lemma find_toggle (c : bool) (d today : Z) (l : list DailyAssignment) :
  find (fun a => isSameDay (date a) today) (map (toggle c d) l)
  = if isSameDay d today
    then option_map (withCompleted c) (find (fun a => isSameDay (date a) today) l)
    else find (fun a => isSameDay (date a) today) l.
Proof.
  induction l as [|a l IH]; [destruct (isSameDay d today); reflexivity|].
  cbn [map find]. rewrite toggle_date, IH.
  destruct (isSameDay (date a) today) eqn:Ha.
  - unfold toggle. destruct (isSameDay d today) eqn:Hd.
    + assert (Hsame : isSameDay (date a) d = true).
      { rewrite (isSameDay_both today (date a) d); [reflexivity| |].
        - unfold isSameDay in *. rewrite !andb_true_iff, !Z.eqb_eq in *.
          destruct Ha as [[? ?] ?]. repeat split; congruence.
        - unfold isSameDay in *. rewrite !andb_true_iff, !Z.eqb_eq in *.
          destruct Hd as [[? ?] ?]. repeat split; congruence. }
      rewrite Hsame. reflexivity.
    + destruct (isSameDay (date a) d) eqn:Hsame; [|reflexivity].
      exfalso.
      assert (isSameDay d today = true).
      { unfold isSameDay in *. rewrite !andb_true_iff, !Z.eqb_eq in *.
        destruct Ha as [[? ?] ?]. destruct Hsame as [[? ?] ?].
        repeat split; congruence. }
      congruence.
  - destruct (isSameDay d today); reflexivity.
Qed.

(** X16. [getTodaysAssignment] returns the first assignment of the plan
    that falls on the day of [today], and nothing when there is none. After
    a toggle of that day it returns the same assignment with the new flag;
    after a toggle of another day it returns what it returned before. *)
Theorem getTodaysAssignment_first_of_day (c : bool) (now d today : Z) (s : GoalState) :
  match getTodaysAssignment today s with
  | Some a =>
      exists before after,
        plan s = before ++ a :: after
        /\ isSameDay (date a) today = true
        /\ Forall (fun b => isSameDay (date b) today = false) before
  | None => Forall (fun b => isSameDay (date b) today = false) (plan s)
  end
  /\ getTodaysAssignment today (markDay c now d s)
     = if isSameDay d today
       then option_map (withCompleted c) (getTodaysAssignment today s)
       else getTodaysAssignment today s.
Proof.
  split.
  - unfold getTodaysAssignment. induction (plan s) as [|a l IH]; [constructor|].
    cbn [find]. destruct (isSameDay (date a) today) eqn:Ha.
    + exists [], l. repeat split; [exact Ha | constructor].
    + destruct (find (fun assignment => isSameDay (date assignment) today) l) as [b|].
      * destruct IH as [before [after [Hl [Hb Hf]]]].
        exists (a :: before), after. rewrite Hl. repeat split; [exact Hb|].
        constructor; assumption.
      * constructor; assumption.
  - rewrite markDay_toggle. unfold getTodaysAssignment. cbn [plan].
    apply find_toggle.
Qed.

(** X17. The counters that the actions store are those of the stored plan:
    [updateStreaks] at the same time changes nothing in a state that a
    toggle, [setGoal], [clearPlan] or [updateStreaks] itself has just set. *)
Theorem updateStreaks_after_action (qm : QuranMeta) (gas : nat) (c : bool)
  (now d : Z) (goal : UserGoal) (s : GoalState) :
  updateStreaks now (markDay c now d s) = markDay c now d s
  /\ updateStreaks now (updateStreaks now s) = updateStreaks now s
  /\ updateStreaks now (clearPlan s) = clearPlan s
  /\ updateStreaks now initialState = initialState
  /\ forall s', setGoal qm gas now goal = Returns s' -> updateStreaks now s' = s'.
Proof.
  split; [rewrite markDay_toggle; reflexivity|].
  split; [reflexivity|]. split; [reflexivity|]. split; [reflexivity|].
  intros s' H. unfold setGoal in H.
  destruct (generatePlan qm gas goal) as [newPlan| |]; try discriminate.
  inversion H. reflexivity.
Qed.

(* ================================================================== *)
(** * The lists of [quranData.ts] *)

Lemma forRange_snoc {A : Type} (body : Z -> list A) (n : nat) :
  forall lo, forRange body lo (S n) = forRange body lo n ++ body (lo + Z.of_nat n).
Proof.
  induction n as [|n IH]; intros lo.
  - simpl. rewrite app_nil_r, Z.add_0_r. reflexivity.
  - change (forRange body lo (S (S n))) with (body lo ++ forRange body (lo + 1) (S n)).
    rewrite IH.
    change (forRange body lo (S n)) with (body lo ++ forRange body (lo + 1) n).
    rewrite <- app_assoc.
    replace (lo + Z.of_nat (S n)) with (lo + 1 + Z.of_nat n) by lia. reflexivity.
Qed.

Lemma forRange_In {A : Type} (body : Z -> list A) (x : A) (n : nat) :
  forall lo, In x (forRange body lo n)
             <-> exists i, lo <= i < lo + Z.of_nat n /\ In x (body i).
Proof.
  induction n as [|n IH]; intros lo.
  - simpl. split; [contradiction|]. intros [i [Hi _]]. lia.
  - cbn [forRange]. rewrite in_app_iff, IH. split.
    + intros [H | [i [Hi H]]].
      * exists lo. split; [lia | exact H].
      * exists i. split; [lia | exact H].
    + intros [i [Hi H]]. destruct (Z.eq_dec i lo) as [-> | Hne]; [left; exact H|].
      right. exists i. split; [lia | exact H].
Qed.

Lemma forRange_single_length {A : Type} (f : Z -> A) (n : nat) :
  forall lo, List.length (forRange (fun i => [f i]) lo n) = n.
Proof. induction n as [|n IH]; intros lo; simpl; [reflexivity | rewrite IH; reflexivity]. Qed.

Lemma forRange_single_nth {A : Type} (f : Z -> A) (n : nat) :
  forall lo k,
    nth_error (forRange (fun i => [f i]) lo n) k
    = if (k <? n)%nat then Some (f (lo + Z.of_nat k)) else None.
Proof.
  induction n as [|n IH]; intros lo k.
  - destruct k; reflexivity.
  - cbn [forRange app]. destruct k as [|k].
    + simpl. rewrite Z.add_0_r. reflexivity.
    + cbn [nth_error]. rewrite IH.
      change (S k <? S n)%nat with (k <? n)%nat.
      replace (lo + 1 + Z.of_nat k) with (lo + Z.of_nat (S k)) by lia. reflexivity.
Qed.

Lemma forRange_pushSome_length {A : Type} (f : Z -> option A) (n : nat) :
  forall lo,
    (List.length (forRange (fun i => pushSome (f i)) lo n) <= n)%nat
    /\ ((forall i, lo <= i < lo + Z.of_nat n -> f i <> None) ->
        List.length (forRange (fun i => pushSome (f i)) lo n) = n).
Proof.
  induction n as [|n IH]; intros lo; [split; reflexivity|].
  cbn [forRange]. rewrite length_app. destruct (IH (lo + 1)) as [Hle Heq]. split.
  - destruct (f lo); simpl; lia.
  - intros Hall. rewrite Heq by (intros i Hi; apply Hall; lia).
    specialize (Hall lo ltac:(lia)). destruct (f lo); [reflexivity | contradiction].
Qed.

Lemma forRange_pushSome_sorted {A : Type} (f : Z -> option A) (key : A -> Z) :
  (forall i x, f i = Some x -> key x = i) ->
  forall n lo,
    StronglySorted (fun a b => key a < key b) (forRange (fun i => pushSome (f i)) lo n).
Proof.
  intros Hkey. induction n as [|n IH]; intros lo; cbn [forRange]; [constructor|].
  destruct (f lo) as [x|] eqn:Hx; cbn [pushSome app]; [|apply IH].
  constructor; [apply IH|]. apply Forall_forall. intros y Hy.
  apply forRange_In in Hy. destruct Hy as [i [Hi Hin]].
  destruct (f i) as [y'|] eqn:Hfi; simpl in Hin; [|contradiction].
  destruct Hin as [-> | []].
  rewrite (Hkey _ _ Hx), (Hkey _ _ Hfi). lia.
Qed.

Lemma surah_id (qm : QuranMeta) (i : Z) (s : Surah) :
  surah qm i = Some s -> su_id s = i /\ 1 <= i <= 114.
Proof.
  unfold surah. destruct ((i <? 1) || (114 <? i)) eqn:R; [discriminate|].
  apply orb_false_iff in R. destruct R as [R1 R2].
  apply Z.ltb_ge in R1. apply Z.ltb_ge in R2.
  destruct (getSurahMeta qm i); [|discriminate].
  intros H. inversion H. simpl. lia.
Qed.

Lemma juz_id (qm : QuranMeta) (i : Z) (j : Juz) :
  juz qm i = Some j -> jz_id j = i /\ 1 <= i <= 30.
Proof.
  unfold juz. destruct ((i <? 1) || (30 <? i)) eqn:R; [discriminate|].
  apply orb_false_iff in R. destruct R as [R1 R2].
  apply Z.ltb_ge in R1. apply Z.ltb_ge in R2.
  destruct (getJuzMeta qm i); [|discriminate].
  intros H. inversion H. simpl. lia.
Qed.

(** X18. [getSurahList] holds exactly the chapters that [getSurahById]
    finds, each once, by ascending number: at most 114, and 114 when the
    package knows every chapter. The same for [getJuzList], [getJuzById]
    and the 30 parts. *)
Theorem getSurahList_getJuzList_entries (qm : QuranMeta) :
  (forall s, In s (getSurahList qm) <-> getSurahById qm (su_id s) = Some s)
  /\ StronglySorted (fun a b => su_id a < su_id b) (getSurahList qm)
  /\ (List.length (getSurahList qm) <= 114)%nat
  /\ ((forall i, 1 <= i <= 114 -> getSurahMeta qm i <> None) ->
      List.length (getSurahList qm) = 114%nat)
  /\ (forall j, In j (getJuzList qm) <-> getJuzById qm (jz_id j) = Some j)
  /\ StronglySorted (fun a b => jz_id a < jz_id b) (getJuzList qm)
  /\ (List.length (getJuzList qm) <= 30)%nat
  /\ ((forall i, 1 <= i <= 30 -> getJuzMeta qm i <> None) ->
      List.length (getJuzList qm) = 30%nat).
Proof.
  unfold getSurahList, getJuzList, getSurahById, getJuzById.
  change (runs 1 114) with 114%nat. change (runs 1 30) with 30%nat.
  split; [|split; [|split; [|split; [|split; [|split; [|split]]]]]].
  - intros s. rewrite forRange_In. split.
    + intros [i [_ Hin]]. destruct (surah qm i) as [s'|] eqn:Hs; simpl in Hin;
        [|contradiction].
      destruct Hin as [-> | []]. destruct (surah_id qm i s Hs) as [-> _]. exact Hs.
    + intros Hs. exists (su_id s). destruct (surah_id qm _ s Hs) as [_ Hr].
      split; [lia|]. rewrite Hs. left. reflexivity.
  - apply forRange_pushSome_sorted. intros i x Hx. apply (surah_id qm i x Hx).
  - apply (forRange_pushSome_length (surah qm) 114 1).
  - intros Hall. apply (forRange_pushSome_length (surah qm) 114 1).
    intros i Hi. unfold surah.
    replace ((i <? 1) || (114 <? i)) with false
      by (symmetry; apply orb_false_iff; split; apply Z.ltb_ge; lia).
    specialize (Hall i ltac:(lia)). destruct (getSurahMeta qm i);
      [discriminate | contradiction].
  - intros j. rewrite forRange_In. split.
    + intros [i [_ Hin]]. destruct (juz qm i) as [j'|] eqn:Hj; simpl in Hin;
        [|contradiction].
      destruct Hin as [-> | []]. destruct (juz_id qm i j Hj) as [-> _]. exact Hj.
    + intros Hj. exists (jz_id j). destruct (juz_id qm _ j Hj) as [_ Hr].
      split; [lia|]. rewrite Hj. left. reflexivity.
  - apply forRange_pushSome_sorted. intros i x Hx. apply (juz_id qm i x Hx).
  - apply (forRange_pushSome_length (juz qm) 30 1).
  - intros Hall. apply (forRange_pushSome_length (juz qm) 30 1).
    intros i Hi. unfold juz.
    replace ((i <? 1) || (30 <? i)) with false
      by (symmetry; apply orb_false_iff; split; apply Z.ltb_ge; lia).
    specialize (Hall i ltac:(lia)). destruct (getJuzMeta qm i);
      [discriminate | contradiction].
Qed.

Example getSurahList_sample :
  List.length (getSurahList Sample.meta) = 114%nat
  /\ List.length (getJuzList Sample.meta) = 30%nat
  /\ nth_error (getSurahList Sample.meta) 112 = Some (mkSurah 113 5 604 604).
Proof. repeat split; vm_compute; reflexivity. Qed.

(** X19. [getAyahsForSurah] returns nothing for a chapter that
    [getSurahById] does not find; for the others it returns one entry for
    each verse, entry [i] being verse [i + 1] of the chapter, with a key
    that [parseAyahReference] reads back as that chapter and verse. *)
Theorem getAyahsForSurah_entries (qm : QuranMeta) (surahId : Z) :
  match getSurahById qm surahId with
  | None => getAyahsForSurah qm surahId = []
  | Some s =>
      Z.of_nat (List.length (getAyahsForSurah qm surahId)) = Z.max 0 (su_ayahCount s)
      /\ forall i e, nth_error (getAyahsForSurah qm surahId) i = Some e ->
           ay_surahId e = surahId
           /\ ay_ayahNumber e = Z.of_nat i + 1
           /\ parseAyahReference (ay_ayahKey e)
              = Some (mkAyahRef surahId (Z.of_nat i + 1))
  end.
Proof.
  unfold getSurahById, getAyahsForSurah, ayahRun.
  destruct (surah qm surahId) as [s|]; [|reflexivity].
  split.
  - rewrite forRange_single_length. unfold runs. lia.
  - intros i e H. rewrite forRange_single_nth in H.
    destruct (i <? runs 1 (su_ayahCount s))%nat; [|discriminate].
    assert (He : e = mkAyahEntry surahId (1 + Z.of_nat i)
                       (ayahKey surahId (1 + Z.of_nat i))) by congruence.
    rewrite He. unfold ay_surahId, ay_ayahNumber, ay_ayahKey.
    rewrite parseAyahReference_ayahKey.
    split; [reflexivity|]. split; [lia|].
    replace (Z.of_nat i + 1) with (1 + Z.of_nat i) by lia. reflexivity.
Qed.

Example getAyahsForSurah_sample :
  getAyahsForSurah Sample.meta 108
  = [mkAyahEntry 108 1 "108:1"; mkAyahEntry 108 2 "108:2"; mkAyahEntry 108 3 "108:3"]
  /\ getAyahsForSurah Sample.meta 115 = [].
Proof. split; vm_compute; reflexivity. Qed.

Lemma ayahRun_In (s lo hi : Z) (e : AyahEntry) :
  In e (ayahRun s lo hi)
  <-> wellKeyed e /\ ay_surahId e = s /\ lo <= ay_ayahNumber e <= hi.
Proof.
  unfold ayahRun, runs, wellKeyed. rewrite forRange_In. split.
  - intros [i [Hi [<- | []]]]. cbn [ay_surahId ay_ayahNumber ay_ayahKey].
    repeat split; lia.
  - intros [Hk [Hs Hi]]. exists (ay_ayahNumber e). split; [lia|]. left.
    destruct e as [es en ek]. cbn [ay_surahId ay_ayahNumber ay_ayahKey] in *.
    subst. reflexivity.
Qed.

Lemma StronglySorted_app {A : Type} (R : A -> A -> Prop) (l1 l2 : list A) :
  StronglySorted R l1 -> StronglySorted R l2 ->
  (forall a b, In a l1 -> In b l2 -> R a b) ->
  StronglySorted R (l1 ++ l2).
Proof.
  induction 1 as [|a l1 Hs IH Ha]; intros H2 Hcross; [exact H2|].
  cbn [app]. constructor.
  - apply IH; [exact H2|]. intros x y Hx Hy. apply Hcross; [right; exact Hx | exact Hy].
  - apply Forall_app. split; [exact Ha|].
    apply Forall_forall. intros y Hy. apply Hcross; [left; reflexivity | exact Hy].
Qed.

Lemma ayahRun_sorted (s lo hi : Z) : StronglySorted verseOrder (ayahRun s lo hi).
Proof.
  unfold ayahRun. generalize (runs lo hi) as n. intros n. revert lo.
  induction n as [|n IH]; intros lo; cbn [forRange app]; [constructor|].
  constructor; [apply IH|]. apply Forall_forall. intros y Hy.
  apply forRange_In in Hy. destruct Hy as [i [Hi [<- | []]]].
  right. cbn [ay_surahId ay_ayahNumber]. split; [reflexivity | lia].
Qed.

Lemma ayahRun_last (s lo hi : Z) :
  lo <= hi -> exists init, ayahRun s lo hi = init ++ [mkAyahEntry s hi (ayahKey s hi)].
Proof.
  intros H. unfold ayahRun, runs.
  replace (Z.to_nat (hi - lo + 1)) with (S (Z.to_nat (hi - lo))) by lia.
  rewrite forRange_snoc.
  replace (lo + Z.of_nat (Z.to_nat (hi - lo))) with hi by lia.
  eexists. reflexivity.
Qed.

Lemma middle_In (qm : QuranMeta) (lo hi : Z) (e : AyahEntry) :
  In e (forRange (fun s => match surah qm s with
                           | Some middleSurahInfo => ayahRun s 1 (su_ayahCount middleSurahInfo)
                           | None => []
                           end) lo (runs lo hi))
  <-> wellKeyed e
      /\ lo <= ay_surahId e <= hi
      /\ exists su, surah qm (ay_surahId e) = Some su
                    /\ 1 <= ay_ayahNumber e <= su_ayahCount su.
Proof.
  rewrite forRange_In. unfold runs. split.
  - intros [s [Hs Hin]]. destruct (surah qm s) as [su|] eqn:Hsu; [|contradiction].
    apply ayahRun_In in Hin. destruct Hin as [Hk [He Hi]]. subst s.
    split; [exact Hk|]. split; [lia|]. exists su. split; assumption.
  - intros [Hk [Hs [su [Hsu Hi]]]]. exists (ay_surahId e). split; [lia|].
    rewrite Hsu. apply ayahRun_In. repeat split; try assumption; lia.
Qed.

Lemma middle_sorted (qm : QuranMeta) (n : nat) :
  forall lo,
    StronglySorted verseOrder
      (forRange (fun s => match surah qm s with
                          | Some middleSurahInfo =>
                              ayahRun s 1 (su_ayahCount middleSurahInfo)
                          | None => []
                          end) lo n).
Proof.
  induction n as [|n IH]; intros lo; cbn [forRange]; [constructor|].
  apply StronglySorted_app; [| apply IH |].
  - destruct (surah qm lo); [apply ayahRun_sorted | constructor].
  - intros a b Ha Hb. left.
    assert (Hsa : ay_surahId a = lo).
    { destruct (surah qm lo); [|contradiction]. apply ayahRun_In in Ha. tauto. }
    apply forRange_In in Hb. destruct Hb as [s [Hs Hb]].
    assert (Hsb : ay_surahId b = s).
    { destruct (surah qm s); [|contradiction]. apply ayahRun_In in Hb. tauto. }
    lia.
Qed.

(** X20. [getVersesByPage] returns nothing for a page that [page] does not
    find. For the others it returns exactly the verses that lie on the
    page: from its first verse to its last one in the same chapter, or to
    the end of the first chapter, then the chapters between, then the last
    chapter up to the last verse of the page; every entry carries the key
    of its chapter and verse. When the first chapter of the page is not
    after its last one, the entries are in the order of the text, without
    repetition; and when the page ends on a verse at or after the one it
    starts from (or on verse 1 or later of another chapter), the last
    entry is the verse that [getAyahRangeForPage] gives as the end of the
    page. *)
Theorem getVersesByPage_entries (qm : QuranMeta) (pageNum : Z) :
  match page qm pageNum with
  | None => getVersesByPage qm pageNum = [] /\ getAyahRangeForPage qm pageNum = None
  | Some pg =>
      (forall e, In e (getVersesByPage qm pageNum)
                 <-> wellKeyed e /\ onPage qm pg (ay_surahId e) (ay_ayahNumber e))
      /\ (pg_startSurah pg <= pg_endSurah pg ->
          StronglySorted verseOrder (getVersesByPage qm pageNum))
      /\ ((if pg_startSurah pg =? pg_endSurah pg
           then pg_startAyah pg <= pg_endAyah pg else 1 <= pg_endAyah pg) ->
          exists init last,
            getVersesByPage qm pageNum = init ++ [last]
            /\ ay_surahId last = pg_endSurah pg
            /\ ay_ayahNumber last = pg_endAyah pg
            /\ option_map snd (getAyahRangeForPage qm pageNum) = Some (ay_ayahKey last))
  end.
Proof.
  unfold getVersesByPage, getAyahRangeForPage, onPage.
  destruct (page qm pageNum) as [pg|]; [|split; reflexivity].
  destruct (Z.eqb_spec (pg_startSurah pg) (pg_endSurah pg)) as [Heq | Hne].
  - split; [|split].
    + intros e. rewrite ayahRun_In. tauto.
    + intros _. apply ayahRun_sorted.
    + intros Hle. destruct (ayahRun_last (pg_startSurah pg) _ _ Hle) as [init Hinit].
      exists init, (mkAyahEntry (pg_startSurah pg) (pg_endAyah pg)
                      (ayahKey (pg_startSurah pg) (pg_endAyah pg))).
      split; [exact Hinit|]. cbn [ay_surahId ay_ayahNumber ay_ayahKey option_map snd].
      rewrite Heq. repeat split.
  - split; [|split].
    + intros e. rewrite !in_app_iff, middle_In, ayahRun_In. split.
      * intros [H | [H | H]].
        -- destruct (surah qm (pg_startSurah pg)) as [su|] eqn:Hsu; [|contradiction].
           apply ayahRun_In in H. destruct H as [Hk [Hs Hi]].
           split; [exact Hk|]. left. split; [exact Hs|]. exists su. rewrite Hs.
           split; assumption.
        -- destruct H as [Hk [Hs [su [Hsu Hi]]]]. split; [exact Hk|]. right; left.
           split; [lia|]. exists su. split; assumption.
        -- destruct H as [Hk [Hs Hi]]. split; [exact Hk|]. right; right.
           split; assumption.
      * intros [Hk [[Hs [su [Hsu Hi]]] | [[Hs [su [Hsu Hi]]] | [Hs Hi]]]].
        -- left. rewrite Hs in Hsu. rewrite Hsu. apply ayahRun_In.
           repeat split; try assumption; lia.
        -- right; left. split; [exact Hk|]. split; [lia|]. exists su.
           split; assumption.
        -- right; right. repeat split; try assumption; lia.
    + intros Hle.
      assert (Hfirst : forall a,
                In a (match surah qm (pg_startSurah pg) with
                      | Some firstSurahInfo =>
                          ayahRun (pg_startSurah pg) (pg_startAyah pg)
                            (su_ayahCount firstSurahInfo)
                      | None => []
                      end) -> ay_surahId a = pg_startSurah pg).
      { intros a Ha. destruct (surah qm (pg_startSurah pg)); [|contradiction].
        apply ayahRun_In in Ha. tauto. }
      apply StronglySorted_app.
      * destruct (surah qm (pg_startSurah pg)); [apply ayahRun_sorted | constructor].
      * apply StronglySorted_app; [apply middle_sorted | apply ayahRun_sorted |].
        intros a b Ha Hb. left. apply middle_In in Ha. apply ayahRun_In in Hb.
        destruct Ha as [_ [Ha _]]. destruct Hb as [_ [Hb _]]. lia.
      * intros a b Ha Hb. left. rewrite (Hfirst a Ha).
        apply in_app_iff in Hb. destruct Hb as [Hb | Hb].
        -- apply middle_In in Hb. destruct Hb as [_ [Hb _]]. lia.
        -- apply ayahRun_In in Hb. destruct Hb as [_ [Hb _]]. lia.
    + intros Hle. destruct (ayahRun_last (pg_endSurah pg) 1 _ Hle) as [init Hinit].
      rewrite Hinit. eexists. eexists. split; [rewrite !app_assoc; reflexivity|].
      cbn [ay_surahId ay_ayahNumber ay_ayahKey option_map snd]. repeat split.
Qed.

Example getVersesByPage_sample :
  map ay_ayahKey (getVersesByPage Sample.meta 604)
  = ["112:1"; "112:2"; "112:3"; "112:4"; "113:1"; "113:2"; "113:3"; "113:4"; "113:5";
     "114:1"; "114:2"; "114:3"; "114:4"; "114:5"; "114:6"]
  /\ getAyahRangeForPage Sample.meta 604 = Some ("112:1", "114:6")
  /\ map ay_ayahKey (getVersesByPage Sample.meta 1)
     = ["1:1"; "1:2"; "1:3"; "1:4"; "1:5"; "1:6"; "1:7"]
  /\ getVersesByPage Sample.meta 605 = [].
Proof. repeat split; vm_compute; reflexivity. Qed.

(* ================================================================== *)
(** * [incrementAyah] *)

Lemma incrementAyahLoop_fuel_any (qm : QuranMeta) (f1 f2 : nat) (s a r : Z) :
  (1 <= f1)%nat -> (Z.to_nat (116 - Z.max 1 s) <= f1)%nat -> (f1 <= f2)%nat ->
  incrementAyahLoop qm f2 s a r = incrementAyahLoop qm f1 s a r.
Proof.
  intros H1 Hb Hle. induction Hle as [|f2 Hle IH]; [reflexivity|].
  rewrite incrementAyahLoop_budget; [exact IH | lia | lia].
Qed.

Lemma incrementAyahLoop_chapter_le (qm : QuranMeta) :
  forall fuel s a r, fst (incrementAyahLoop qm fuel s a r) <= Z.max s 115.
Proof.
  induction fuel as [|fuel IH]; intros s a r; simpl; [lia|].
  destruct (0 <? r); cbn [andb]; [|simpl; lia].
  destruct (Z.leb_spec s 114) as [Hs | Hs]; [|simpl; lia].
  destruct (getSurahById qm s) as [su|]; [|simpl; lia].
  destruct (r <=? su_ayahCount su - a).
  - apply IH.
  - specialize (IH (s + 1) 1 (r - (su_ayahCount su - a + 1))). lia.
Qed.

Lemma incrementAyahLoop_verse_ge (qm : QuranMeta) :
  forall fuel s a r, 1 <= a -> 0 <= r -> 1 <= snd (incrementAyahLoop qm fuel s a r).
Proof.
  induction fuel as [|fuel IH]; intros s a r Ha Hr; simpl; [lia|].
  destruct (0 <? r); cbn [andb]; [|simpl; lia].
  destruct (s <=? 114); [|simpl; lia].
  destruct (getSurahById qm s) as [su|]; [|simpl; lia].
  destruct (Z.leb_spec r (su_ayahCount su - a)).
  - apply IH; lia.
  - apply IH; lia.
Qed.

Lemma incrementAyahLoop_compose (qm : QuranMeta) :
  forall fuel s a r1 r2 s' a',
    0 <= r1 -> 0 <= r2 ->
    (1 <= fuel)%nat -> (Z.to_nat (116 - Z.max 1 s) <= fuel)%nat ->
    incrementAyahLoop qm fuel s a r1 = (s', a') ->
    incrementAyahLoop qm fuel s' a' r2 = incrementAyahLoop qm fuel s a (r1 + r2).
Proof.
  induction fuel as [|fuel IH]; intros s a r1 r2 s' a' Hr1 Hr2 H1 Hb H; [lia|].
  rewrite incrementAyahLoop_S in H.
  destruct (Z.ltb_spec 0 r1) as [Hpos | Hzero]; cbn [andb] in H.
  2: { injection H as <- <-. replace (r1 + r2) with r2 by lia. reflexivity. }
  destruct (Z.leb_spec s 114) as [Hs | Hs].
  2: { injection H as <- <-. rewrite !incrementAyahLoop_S.
       replace (s <=? 114) with false by (symmetry; apply Z.leb_gt; lia).
       rewrite !andb_false_r. reflexivity. }
  destruct (getSurahById qm s) as [su|] eqn:Hsu.
  2: { injection H as <- <-. rewrite !incrementAyahLoop_S, Hsu.
       destruct ((0 <? r2) && (s <=? 114)), ((0 <? r1 + r2) && (s <=? 114));
         reflexivity. }
  pose proof (getSurahById_range qm s su Hsu) as Hrange.
  rewrite (incrementAyahLoop_S qm fuel s a (r1 + r2)), Hsu.
  replace (0 <? r1 + r2) with true by (symmetry; apply Z.ltb_lt; lia).
  replace (s <=? 114) with true by (symmetry; apply Z.leb_le; lia).
  cbn [andb].
  destruct (Z.leb_spec r1 (su_ayahCount su - a)) as [Hfit | Hover].
  - rewrite incrementAyahLoop_done in H. injection H as <- <-.
    rewrite incrementAyahLoop_S, Hsu.
    replace (s <=? 114) with true by (symmetry; apply Z.leb_le; lia).
    rewrite andb_true_r.
    destruct (Z.ltb_spec 0 r2) as [Hp2 | Hz2].
    + destruct (Z.leb_spec r2 (su_ayahCount su - (a + r1))),
               (Z.leb_spec (r1 + r2) (su_ayahCount su - a)); try lia.
      * rewrite Z.add_assoc. reflexivity.
      * replace (r2 - (su_ayahCount su - (a + r1) + 1))
          with (r1 + r2 - (su_ayahCount su - a + 1)) by lia.
        reflexivity.
    + replace (r1 + r2 <=? su_ayahCount su - a) with true
        by (symmetry; apply Z.leb_le; lia).
      rewrite incrementAyahLoop_done. replace (a + (r1 + r2)) with (a + r1) by lia.
      reflexivity.
  - replace (r1 + r2 <=? su_ayahCount su - a) with false
      by (symmetry; apply Z.leb_gt; lia).
    replace (r1 + r2 - (su_ayahCount su - a + 1))
      with (r1 - (su_ayahCount su - a + 1) + r2) by lia.
    pose proof (incrementAyahLoop_chapter_ge qm fuel (s + 1) 1
                  (r1 - (su_ayahCount su - a + 1))) as Hge.
    rewrite H in Hge. cbn [fst] in Hge.
    rewrite incrementAyahLoop_budget by lia.
    apply IH; try lia. exact H.
Qed.

(** X21. Moving on by [r1] verses and then by [r2] is moving on by
    [r1 + r2], for every reference and every index, also across chapter
    ends, past the last chapter and for a reference that
    [parseAyahReference] does not read (which [incrementAyah] returns as it
    is). *)
Theorem incrementAyah_additive (qm : QuranMeta) (ref : string) (r1 r2 : Z) :
  0 <= r1 -> 0 <= r2 ->
  incrementAyah qm (incrementAyah qm ref r1) r2 = incrementAyah qm ref (r1 + r2).
Proof.
  intros Hr1 Hr2. destruct (parseAyahReference ref) as [p|] eqn:Hp.
  - assert (E : forall r, incrementAyah qm ref r
                          = let (s, a) := incrementAyahLoop qm 116 (surahId p)
                                            (ayahNumber p) r in ayahKey s a).
    { intros r. unfold incrementAyah. rewrite Hp. reflexivity. }
    rewrite !E.
    destruct (incrementAyahLoop qm 116 (surahId p) (ayahNumber p) r1) as [s' a'] eqn:Hl.
    unfold incrementAyah. rewrite parseAyahReference_ayahKey. cbn [surahId ayahNumber].
    assert (Hc : incrementAyahLoop qm 116 s' a' r2
                 = incrementAyahLoop qm 116 (surahId p) (ayahNumber p) (r1 + r2)).
    { apply (incrementAyahLoop_compose qm 116 (surahId p) (ayahNumber p) r1 r2 s' a');
        try assumption; lia. }
    rewrite Hc. reflexivity.
  - assert (E : forall r, incrementAyah qm ref r = ref).
    { intros r. unfold incrementAyah. rewrite Hp. reflexivity. }
    rewrite !E. reflexivity.
Qed.

Lemma incrementAyah_additive_witness :
  incrementAyah Sample.meta (incrementAyah Sample.meta "1:6" 3) 290
  = incrementAyah Sample.meta "1:6" (3 + 290).
Proof. apply incrementAyah_additive; lia. Defined.

Example incrementAyah_sample :
  incrementAyah Sample.meta "1:6" 3 = "2:2"
  /\ incrementAyah Sample.meta "1:6" 293 = "3:6"
  /\ incrementAyah Sample.meta "114:6" 1 = "115:1"
  /\ incrementAyah Sample.meta "114:6" 1000 = "115:1"
  /\ incrementAyah Sample.meta "1:6" 0 = "1:6"
  /\ incrementAyah Sample.meta " 01:6x" 0 = "1:6"
  /\ incrementAyah Sample.meta "one:6" 3 = "one:6".
Proof. repeat split; vm_compute; reflexivity. Qed.

(** X22. What [incrementAyah] returns. A reference that
    [parseAyahReference] does not read comes back as it is. Otherwise the
    result is the reference of a chapter and a verse: never of an earlier
    chapter, never of a chapter after 115 (unless the reference itself is);
    the same chapter and verse when the count is not positive or the
    chapter is not found; [count] verses further in the chapter when they
    fit; and verse 1 or later of a later chapter when they do not. *)
Theorem incrementAyah_result (qm : QuranMeta) (ref : string) (count : Z) :
  match parseAyahReference ref with
  | None => incrementAyah qm ref count = ref
  | Some p =>
      exists s a,
        incrementAyah qm ref count = ayahKey s a
        /\ surahId p <= s <= Z.max (surahId p) 115
        /\ (count <= 0 \/ getSurahById qm (surahId p) = None ->
            s = surahId p /\ a = ayahNumber p)
        /\ (forall su, getSurahById qm (surahId p) = Some su ->
              (0 <= count <= su_ayahCount su - ayahNumber p ->
               s = surahId p /\ a = ayahNumber p + count)
              /\ (0 < count -> su_ayahCount su - ayahNumber p < count ->
                  surahId p < s /\ 1 <= a))
  end.
Proof.
  destruct (parseAyahReference ref) as [p|] eqn:Hp;
    [|unfold incrementAyah; rewrite Hp; reflexivity].
  unfold incrementAyah. rewrite Hp.
  pose proof (incrementAyahLoop_chapter_ge qm 116 (surahId p) (ayahNumber p) count) as Hge.
  pose proof (incrementAyahLoop_chapter_le qm 116 (surahId p) (ayahNumber p) count) as Hle.
  destruct (incrementAyahLoop qm 116 (surahId p) (ayahNumber p) count) as [s a] eqn:Hl.
  cbn [fst] in Hge, Hle.
  exists s, a. split; [reflexivity|]. split; [lia|].
  change 116%nat with (S 115) in Hl. rewrite incrementAyahLoop_S in Hl.
  split.
  - intros [Hc | Hnone].
    + replace (0 <? count) with false in Hl by (symmetry; apply Z.ltb_ge; lia).
      cbn [andb] in Hl. injection Hl as <- <-. split; reflexivity.
    + rewrite Hnone in Hl.
      destruct ((0 <? count) && (surahId p <=? 114)); injection Hl as <- <-;
        split; reflexivity.
  - intros su Hsu. pose proof (getSurahById_range qm _ su Hsu) as Hrange.
    rewrite Hsu in Hl.
    replace (surahId p <=? 114) with true in Hl by (symmetry; apply Z.leb_le; lia).
    rewrite andb_true_r in Hl. split.
    + intros Hfit. destruct (Z.ltb_spec 0 count) as [Hpos | Hzero].
      * replace (count <=? su_ayahCount su - ayahNumber p) with true in Hl
          by (symmetry; apply Z.leb_le; lia).
        rewrite incrementAyahLoop_done in Hl. injection Hl as <- <-.
        split; reflexivity.
      * injection Hl as <- <-. split; lia.
    + intros Hpos Hover.
      replace (0 <? count) with true in Hl by (symmetry; apply Z.ltb_lt; lia).
      replace (count <=? su_ayahCount su - ayahNumber p) with false in Hl
        by (symmetry; apply Z.leb_gt; lia).
      pose proof (incrementAyahLoop_chapter_ge qm 115 (surahId p + 1) 1
                    (count - (su_ayahCount su - ayahNumber p + 1))) as Hge'.
      pose proof (incrementAyahLoop_verse_ge qm 115 (surahId p + 1) 1
                    (count - (su_ayahCount su - ayahNumber p + 1))) as Hv.
      rewrite Hl in Hge', Hv. cbn [fst snd] in Hge', Hv. split; lia.
Qed.

(* ================================================================== *)
(** * Goals that the validator accepts, and goals without a reading day *)








(* ================================================================== *)
(** * Every day of the week *)

Section EveryDay.

Variable g : UserGoal.
Variable t0 : Z.
Hypothesis all_days : forall w, 0 <= w <= 6 -> In w (daysOfWeek g).
Hypothesis start_valid : startDate g = At t0.

Lemma dailyInv_step (st : DatesState) :
  dailyInv t0 st -> dailyInv t0 (snd (datesBody g st)).
Proof.
  intros [Hp Hc]. unfold datesBody. rewrite Hc.
  set (c := startOfDay t0 + Z.of_nat (List.length (dates st)) * msPerDay) in *.
  assert (Hin : includes (daysOfWeek g) (weekday c) = true).
  { apply includes_In, all_days, weekday_range. }
  rewrite Hin.
  destruct (pastDeadline g (At c)); cbn [snd]; unfold dailyInv; cbn [dates currentDate].
  - split; [exact Hp | reflexivity].
  - rewrite length_app. cbn [List.length]. rewrite Nat.add_1_r.
    split.
    + rewrite progression_S, <- Hp. reflexivity.
    + cbn [nextDay]. f_equal. unfold c. rewrite Nat2Z.inj_succ. lia.
Qed.

Lemma readingDates_daily (gas : nat) (total : Z) (r : DatesState) :
  generateReadingDates_run gas g total = Some r -> dailyInv t0 r.
Proof.
  unfold generateReadingDates_run. intros H.
  eapply (datesLoop_invariant g _ _ (dailyInv t0)); [| |exact H].
  - intros st Hst _. apply dailyInv_step. exact Hst.
  - unfold dailyInv, datesInit. cbn [dates currentDate List.length].
    rewrite start_valid. cbn [setHours_0]. split; [reflexivity|]. f_equal. simpl. lia.
Qed.

End EveryDay.

(** X25. When all seven weekdays are selected and the start date is valid,
    the assignments of a returned plan are on consecutive days: assignment
    [i] is dated at the local midnight of the day [i] days after the day of
    the start date, with or without deadline and whatever the unit. *)
Theorem generatePlan_every_day (qm : QuranMeta) (gas : nat) (g : UserGoal) (t0 : Z)
  (plan : list DailyAssignment) :
  (forall w, 0 <= w <= 6 -> In w (daysOfWeek g)) -> startDate g = At t0 ->
  generatePlan qm gas g = Returns plan ->
  forall i a, nth_error plan i = Some a ->
    date a = startOfDay t0 + Z.of_nat i * msPerDay.
Proof.
  intros Hall Hstart H i a Ha.
  destruct (generatePlan_Returns qm gas g plan H) as [-> | [r [Hr Hloop]]];
    [destruct i; discriminate|].
  pose proof (planLoop_dates_prefix _ _ _ _ _ _ _ _ Hloop) as Hpre.
  assert (Hm : nth_error (map date plan) i = Some (date a)).
  { rewrite nth_error_map, Ha. reflexivity. }
  rewrite Hpre, nth_error_firstn in Hm.
  destruct (Nat.ltb i (List.length plan)); [|discriminate].
  destruct (readingDates_daily g t0 Hall Hstart gas _ r Hr) as [Hprog _].
  rewrite Hprog in Hm. apply nth_error_progression in Hm. exact Hm.
Qed.

Lemma generatePlan_every_day_witness :
  generatePlan Sample.meta 20 Sample.goalFatiha5
  = Returns [mkAssignment Sample.jan1 "1:1" "1:5" 1 1 false false;
             mkAssignment (Sample.jan1 + msPerDay) "1:6" "2:3" 1 2 false false]
  /\ Sample.jan1 + msPerDay = startOfDay Sample.jan1 + Z.of_nat 1 * msPerDay.
Proof.
  split; [vm_compute; reflexivity|].
  apply (generatePlan_every_day Sample.meta 20 Sample.goalFatiha5 Sample.jan1
           [mkAssignment Sample.jan1 "1:1" "1:5" 1 1 false false;
            mkAssignment (Sample.jan1 + msPerDay) "1:6" "2:3" 1 2 false false])
    with (i := 1%nat)
         (a := mkAssignment (Sample.jan1 + msPerDay) "1:6" "2:3" 1 2 false false).
  - intros w Hw. unfold Sample.goalFatiha5, Sample.everyDay. simpl. lia.
  - reflexivity.
  - vm_compute. reflexivity.
  - reflexivity.
Defined.

(* ================================================================== *)
(** * Scopes without units, and the whole text in verses *)

(** X26. A goal whose scope [calculateTotalUnits] cannot size gets the
    empty plan at once, whatever its other fields (also with a daily amount
    of 0, no weekday and an invalid start date): a target that is none of
    the three, a part or a chapter without a number (or with 0), or with a
    number that the index does not know. [setGoal] then stores the goal
    with an empty plan. *)
Theorem generatePlan_scope_without_units (qm : QuranMeta) (gas : nat) (now : Z)
  (g : UserGoal) :
  target g = other_target
  \/ (target g <> whole_quran /\ targetValue_truthy g = None)
  \/ (exists tv, targetValue_truthy g = Some tv
                 /\ ((target g = specific_juz /\ getJuzById qm tv = None)
                     \/ (target g = specific_surah /\ getSurahById qm tv = None))) ->
  calculateTotalUnits qm g = 0
  /\ generatePlan qm gas g = Returns []
  /\ setGoal qm gas now g = Returns (mkGoalState (Some g) [] (Some now) 0 0 0).
Proof.
  intros H.
  assert (Ht : calculateTotalUnits qm g = 0).
  { unfold calculateTotalUnits.
    destruct H as [-> | [[Hw Hnone] | [tv [Htv [[-> Hj] | [-> Hs]]]]]].
    - reflexivity.
    - rewrite Hnone. destruct (target g); [contradiction | reflexivity ..].
    - rewrite Htv, Hj. reflexivity.
    - rewrite Htv, Hs. reflexivity. }
  assert (Hp : generatePlan qm gas g = Returns []).
  { apply generatePlan_zero_total. exact Ht. }
  split; [exact Ht|]. split; [exact Hp|].
  unfold setGoal. rewrite Hp. reflexivity.
Qed.

Lemma generatePlan_scope_without_units_witness :
  generatePlan Sample.meta 0 Sample.goalJuz31 = Returns []
  /\ fst (validateGoal Sample.goalJuz31) = false.
Proof.
  split; [|reflexivity].
  apply (generatePlan_scope_without_units Sample.meta 0 0 Sample.goalJuz31).
  right. right. exists 31. split; [reflexivity|]. left. split; reflexivity.
Defined.

(** X27. For the whole text in verse units [calculateTotalUnits] gives 114
    (the number of chapters): with a positive daily amount [d] a returned
    plan starts at verse 1:1 and has at most [ceil (114 / d)] assignments
    of [d] verses each. *)
Theorem generatePlan_whole_text_in_verses (qm : QuranMeta) (gas : nat) (g : UserGoal)
  (plan : list DailyAssignment) :
  target g = whole_quran -> unit g = u_ayahs -> 0 < dailyAmount g ->
  generatePlan qm gas g = Returns plan ->
  calculateTotalUnits qm g = 114
  /\ Z.of_nat (List.length plan) <= - ((- 114) / dailyAmount g)
  /\ (forall a, nth_error plan 0 = Some a ->
        fromAyah a = "1:1"
        /\ toAyah a = incrementAyah qm "1:1" (dailyAmount g - 1)).
Proof.
  intros Htarget Hunit Hd H.
  assert (Ht : calculateTotalUnits qm g = 114).
  { unfold calculateTotalUnits. rewrite Htarget, Hunit. reflexivity. }
  split; [exact Ht|].
  destruct (generatePlan_Returns qm gas g plan H) as [-> | [r [Hr Hloop]]].
  - split; [|intros a Ha; discriminate]. cbn [List.length].
    destruct (ceil_div_pos 114 (dailyAmount g) Hd) as [n [_ [Hn Hb]]].
    change (- (114)) with (-114) in Hn. rewrite <- Hn. nia.
  - split.
    + destruct (readingDates_count _ _ _ _ Hd Hr) as [Hlen Hmax].
      destruct (planLoop_dates qm g _ _ _ _ _ _ Hloop) as [Hle _].
      rewrite Ht in Hmax.
      destruct (ceil_div_pos 114 (dailyAmount g) Hd) as [n [_ [Hn Hb]]].
      rewrite <- Hn in Hmax. change (- (114)) with (-114) in Hn. rewrite <- Hn. nia.
    + intros a Ha.
      assert (Hsa : getStartingAyah qm g = JStr "1:1").
      { unfold getStartingAyah. rewrite Htarget. reflexivity. }
      assert (Hea : getEndingAyah qm g = JStr "114:6").
      { unfold getEndingAyah. rewrite Htarget. reflexivity. }
      rewrite Hsa, Hea in Hloop.
      destruct (dates r) as [|dt rest]; [simpl in Hloop; inversion Hloop; subst;
                                          discriminate|].
      cbn [planLoop] in Hloop. rewrite Hunit in Hloop. cbv zeta in Hloop.
      destruct (pastEndingAyah _ _) in Hloop.
      * inversion Hloop; subst. simpl in Ha. inversion Ha; subst. split; reflexivity.
      * destruct (planLoop qm g _ _ _ _ rest) as [l| |]; simpl in Hloop;
          try discriminate.
        inversion Hloop; subst. simpl in Ha. inversion Ha; subst. split; reflexivity.
Qed.

Lemma generatePlan_whole_text_in_verses_witness :
  exists plan,
    generatePlan Sample.meta 1140 Sample.goalVerseADay = Returns plan
    /\ Z.of_nat (List.length plan) <= 114.
Proof.
  destruct (generatePlan Sample.meta 1140 Sample.goalVerseADay) as [plan| |] eqn:H;
    [|vm_compute in H; discriminate H|vm_compute in H; discriminate H].
  exists plan. split; [reflexivity|].
  destruct (generatePlan_whole_text_in_verses Sample.meta 1140 Sample.goalVerseADay plan
              eq_refl eq_refl eq_refl H) as [_ [Hlen _]].
  exact Hlen.
Defined.

Example generatePlan_whole_text_in_verses_sample :
  match generatePlan Sample.meta 1140 Sample.goalVerseADay with
  | Returns plan =>
      List.length plan = 114%nat
      /\ option_map toAyah (nth_error plan 113) = Some "2:107"
  | _ => False
  end.
Proof. vm_compute. split; reflexivity. Qed.
